(** * Lala: the Android voice-assistant facade and the Vosk wrapper

    A shallow embedding of [android_adapter/integration.py]
    ([LalaAssistant] and the functions of the module), of
    [android_adapter/vosk_integration.py] ([VoskRecognizer]), of the
    services of [core.py], the engine of [tts_integration.py] and the entry
    point [main.py], with the Python values and string operations they
    rely on. *)

From Stdlib Require Import String Ascii DecimalString.
From Stdlib Require Import NArith ZArith QArith Bool Lia List.
Import ListNotations.
Local Open Scope bool_scope.
Local Close Scope Q_scope.
Local Open Scope list_scope.
Set Warnings "-register-all".

(** ** Python strings, values and exceptions *)

Module Py.

(** A [str] is a sequence of Unicode code points. *)
Definition pystr := list N.

(** An ASCII literal of the source as a [pystr]. *)
Definition lit (s : string) : pystr :=
  map N_of_ascii (list_ascii_of_string s).

Fixpoint str_eqb (a b : pystr) : bool :=
  match a, b with
  | [], [] => true
  | x :: a', y :: b' => N.eqb x y && str_eqb a' b'
  | _, _ => false
  end.

(** The simple lower-case mappings of the Unicode Character Database, as
    runs [(first, last, step, image)]: the code points [first],
    [first + step], ... up to [last] map to [image], [image + step], ...
    The data is that of Unicode 14.0, which CPython 3.11 carries. *)
Definition lowercase_runs : list (N * N * N * N) :=
  [ (65, 90, 1, 97); (192, 214, 1, 224); (216, 222, 1, 248);
    (256, 302, 2, 257); (306, 310, 2, 307); (313, 327, 2, 314);
    (330, 374, 2, 331); (376, 376, 1, 255); (377, 381, 2, 378);
    (385, 385, 1, 595); (386, 388, 2, 387); (390, 390, 1, 596);
    (391, 391, 1, 392); (393, 394, 1, 598); (395, 395, 1, 396);
    (398, 398, 1, 477); (399, 399, 1, 601); (400, 400, 1, 603);
    (401, 401, 1, 402); (403, 403, 1, 608); (404, 404, 1, 611);
    (406, 406, 1, 617); (407, 407, 1, 616); (408, 408, 1, 409);
    (412, 412, 1, 623); (413, 413, 1, 626); (415, 415, 1, 629);
    (416, 420, 2, 417); (422, 422, 1, 640); (423, 423, 1, 424);
    (425, 425, 1, 643); (428, 428, 1, 429); (430, 430, 1, 648);
    (431, 431, 1, 432); (433, 434, 1, 650); (435, 437, 2, 436);
    (439, 439, 1, 658); (440, 440, 1, 441); (444, 444, 1, 445);
    (452, 452, 1, 454); (453, 453, 1, 454); (455, 455, 1, 457);
    (456, 456, 1, 457); (458, 458, 1, 460); (459, 475, 2, 460);
    (478, 494, 2, 479); (497, 497, 1, 499); (498, 500, 2, 499);
    (502, 502, 1, 405); (503, 503, 1, 447); (504, 542, 2, 505);
    (544, 544, 1, 414); (546, 562, 2, 547); (570, 570, 1, 11365);
    (571, 571, 1, 572); (573, 573, 1, 410); (574, 574, 1, 11366);
    (577, 577, 1, 578); (579, 579, 1, 384); (580, 580, 1, 649);
    (581, 581, 1, 652); (582, 590, 2, 583); (880, 882, 2, 881);
    (886, 886, 1, 887); (895, 895, 1, 1011); (902, 902, 1, 940);
    (904, 906, 1, 941); (908, 908, 1, 972); (910, 911, 1, 973);
    (913, 929, 1, 945); (931, 939, 1, 963); (975, 975, 1, 983);
    (984, 1006, 2, 985); (1012, 1012, 1, 952); (1015, 1015, 1, 1016);
    (1017, 1017, 1, 1010); (1018, 1018, 1, 1019); (1021, 1023, 1, 891);
    (1024, 1039, 1, 1104); (1040, 1071, 1, 1072); (1120, 1152, 2, 1121);
    (1162, 1214, 2, 1163); (1216, 1216, 1, 1231); (1217, 1229, 2, 1218);
    (1232, 1326, 2, 1233); (1329, 1366, 1, 1377); (4256, 4293, 1, 11520);
    (4295, 4295, 1, 11559); (4301, 4301, 1, 11565);
    (5024, 5103, 1, 43888); (5104, 5109, 1, 5112); (7312, 7354, 1, 4304);
    (7357, 7359, 1, 4349); (7680, 7828, 2, 7681); (7838, 7838, 1, 223);
    (7840, 7934, 2, 7841); (7944, 7951, 1, 7936); (7960, 7965, 1, 7952);
    (7976, 7983, 1, 7968); (7992, 7999, 1, 7984); (8008, 8013, 1, 8000);
    (8025, 8031, 2, 8017); (8040, 8047, 1, 8032); (8072, 8079, 1, 8064);
    (8088, 8095, 1, 8080); (8104, 8111, 1, 8096); (8120, 8121, 1, 8112);
    (8122, 8123, 1, 8048); (8124, 8124, 1, 8115); (8136, 8139, 1, 8050);
    (8140, 8140, 1, 8131); (8152, 8153, 1, 8144); (8154, 8155, 1, 8054);
    (8168, 8169, 1, 8160); (8170, 8171, 1, 8058); (8172, 8172, 1, 8165);
    (8184, 8185, 1, 8056); (8186, 8187, 1, 8060); (8188, 8188, 1, 8179);
    (8486, 8486, 1, 969); (8490, 8490, 1, 107); (8491, 8491, 1, 229);
    (8498, 8498, 1, 8526); (8544, 8559, 1, 8560); (8579, 8579, 1, 8580);
    (9398, 9423, 1, 9424); (11264, 11311, 1, 11312);
    (11360, 11360, 1, 11361); (11362, 11362, 1, 619);
    (11363, 11363, 1, 7549); (11364, 11364, 1, 637);
    (11367, 11371, 2, 11368); (11373, 11373, 1, 593);
    (11374, 11374, 1, 625); (11375, 11375, 1, 592);
    (11376, 11376, 1, 594); (11378, 11378, 1, 11379);
    (11381, 11381, 1, 11382); (11390, 11391, 1, 575);
    (11392, 11490, 2, 11393); (11499, 11501, 2, 11500);
    (11506, 11506, 1, 11507); (42560, 42604, 2, 42561);
    (42624, 42650, 2, 42625); (42786, 42798, 2, 42787);
    (42802, 42862, 2, 42803); (42873, 42875, 2, 42874);
    (42877, 42877, 1, 7545); (42878, 42886, 2, 42879);
    (42891, 42891, 1, 42892); (42893, 42893, 1, 613);
    (42896, 42898, 2, 42897); (42902, 42920, 2, 42903);
    (42922, 42922, 1, 614); (42923, 42923, 1, 604);
    (42924, 42924, 1, 609); (42925, 42925, 1, 620);
    (42926, 42926, 1, 618); (42928, 42928, 1, 670);
    (42929, 42929, 1, 647); (42930, 42930, 1, 669);
    (42931, 42931, 1, 43859); (42932, 42946, 2, 42933);
    (42948, 42948, 1, 42900); (42949, 42949, 1, 642);
    (42950, 42950, 1, 7566); (42951, 42953, 2, 42952);
    (42960, 42960, 1, 42961); (42966, 42968, 2, 42967);
    (42997, 42997, 1, 42998); (65313, 65338, 1, 65345);
    (66560, 66599, 1, 66600); (66736, 66771, 1, 66776);
    (66928, 66938, 1, 66967); (66940, 66954, 1, 66979);
    (66956, 66962, 1, 66995); (66964, 66965, 1, 67003);
    (68736, 68786, 1, 68800); (71840, 71871, 1, 71872);
    (93760, 93791, 1, 93792); (125184, 125217, 1, 125218) ]%N.

(** The code points with the property Case_Ignorable, as ranges in
    increasing order. *)
Definition case_ignorable_ranges : list (N * N) :=
  [ (39, 39); (46, 46); (58, 58); (94, 94); (96, 96); (168, 168);
    (173, 173); (175, 175); (180, 180); (183, 184); (688, 879);
    (884, 885); (890, 890); (900, 901); (903, 903); (1155, 1161);
    (1369, 1369); (1375, 1375); (1425, 1469); (1471, 1471); (1473, 1474);
    (1476, 1477); (1479, 1479); (1524, 1524); (1536, 1541); (1552, 1562);
    (1564, 1564); (1600, 1600); (1611, 1631); (1648, 1648); (1750, 1757);
    (1759, 1768); (1770, 1773); (1807, 1807); (1809, 1809); (1840, 1866);
    (1958, 1968); (2027, 2037); (2042, 2042); (2045, 2045); (2070, 2093);
    (2137, 2139); (2184, 2184); (2192, 2193); (2200, 2207); (2249, 2306);
    (2362, 2362); (2364, 2364); (2369, 2376); (2381, 2381); (2385, 2391);
    (2402, 2403); (2417, 2417); (2433, 2433); (2492, 2492); (2497, 2500);
    (2509, 2509); (2530, 2531); (2558, 2558); (2561, 2562); (2620, 2620);
    (2625, 2626); (2631, 2632); (2635, 2637); (2641, 2641); (2672, 2673);
    (2677, 2677); (2689, 2690); (2748, 2748); (2753, 2757); (2759, 2760);
    (2765, 2765); (2786, 2787); (2810, 2815); (2817, 2817); (2876, 2876);
    (2879, 2879); (2881, 2884); (2893, 2893); (2901, 2902); (2914, 2915);
    (2946, 2946); (3008, 3008); (3021, 3021); (3072, 3072); (3076, 3076);
    (3132, 3132); (3134, 3136); (3142, 3144); (3146, 3149); (3157, 3158);
    (3170, 3171); (3201, 3201); (3260, 3260); (3263, 3263); (3270, 3270);
    (3276, 3277); (3298, 3299); (3328, 3329); (3387, 3388); (3393, 3396);
    (3405, 3405); (3426, 3427); (3457, 3457); (3530, 3530); (3538, 3540);
    (3542, 3542); (3633, 3633); (3636, 3642); (3654, 3662); (3761, 3761);
    (3764, 3772); (3782, 3782); (3784, 3789); (3864, 3865); (3893, 3893);
    (3895, 3895); (3897, 3897); (3953, 3966); (3968, 3972); (3974, 3975);
    (3981, 3991); (3993, 4028); (4038, 4038); (4141, 4144); (4146, 4151);
    (4153, 4154); (4157, 4158); (4184, 4185); (4190, 4192); (4209, 4212);
    (4226, 4226); (4229, 4230); (4237, 4237); (4253, 4253); (4348, 4348);
    (4957, 4959); (5906, 5908); (5938, 5939); (5970, 5971); (6002, 6003);
    (6068, 6069); (6071, 6077); (6086, 6086); (6089, 6099); (6103, 6103);
    (6109, 6109); (6155, 6159); (6211, 6211); (6277, 6278); (6313, 6313);
    (6432, 6434); (6439, 6440); (6450, 6450); (6457, 6459); (6679, 6680);
    (6683, 6683); (6742, 6742); (6744, 6750); (6752, 6752); (6754, 6754);
    (6757, 6764); (6771, 6780); (6783, 6783); (6823, 6823); (6832, 6862);
    (6912, 6915); (6964, 6964); (6966, 6970); (6972, 6972); (6978, 6978);
    (7019, 7027); (7040, 7041); (7074, 7077); (7080, 7081); (7083, 7085);
    (7142, 7142); (7144, 7145); (7149, 7149); (7151, 7153); (7212, 7219);
    (7222, 7223); (7288, 7293); (7376, 7378); (7380, 7392); (7394, 7400);
    (7405, 7405); (7412, 7412); (7416, 7417); (7468, 7530); (7544, 7544);
    (7579, 7679); (8125, 8125); (8127, 8129); (8141, 8143); (8157, 8159);
    (8173, 8175); (8189, 8190); (8203, 8207); (8216, 8217); (8228, 8228);
    (8231, 8231); (8234, 8238); (8288, 8292); (8294, 8303); (8305, 8305);
    (8319, 8319); (8336, 8348); (8400, 8432); (11388, 11389);
    (11503, 11505); (11631, 11631); (11647, 11647); (11744, 11775);
    (11823, 11823); (12293, 12293); (12330, 12333); (12337, 12341);
    (12347, 12347); (12441, 12446); (12540, 12542); (40981, 40981);
    (42232, 42237); (42508, 42508); (42607, 42610); (42612, 42621);
    (42623, 42623); (42652, 42655); (42736, 42737); (42752, 42785);
    (42864, 42864); (42888, 42890); (42994, 42996); (43000, 43001);
    (43010, 43010); (43014, 43014); (43019, 43019); (43045, 43046);
    (43052, 43052); (43204, 43205); (43232, 43249); (43263, 43263);
    (43302, 43309); (43335, 43345); (43392, 43394); (43443, 43443);
    (43446, 43449); (43452, 43453); (43471, 43471); (43493, 43494);
    (43561, 43566); (43569, 43570); (43573, 43574); (43587, 43587);
    (43596, 43596); (43632, 43632); (43644, 43644); (43696, 43696);
    (43698, 43700); (43703, 43704); (43710, 43711); (43713, 43713);
    (43741, 43741); (43756, 43757); (43763, 43764); (43766, 43766);
    (43867, 43871); (43881, 43883); (44005, 44005); (44008, 44008);
    (44013, 44013); (64286, 64286); (64434, 64450); (65024, 65039);
    (65043, 65043); (65056, 65071); (65106, 65106); (65109, 65109);
    (65279, 65279); (65287, 65287); (65294, 65294); (65306, 65306);
    (65342, 65342); (65344, 65344); (65392, 65392); (65438, 65439);
    (65507, 65507); (65529, 65531); (66045, 66045); (66272, 66272);
    (66422, 66426); (67456, 67461); (67463, 67504); (67506, 67514);
    (68097, 68099); (68101, 68102); (68108, 68111); (68152, 68154);
    (68159, 68159); (68325, 68326); (68900, 68903); (69291, 69292);
    (69446, 69456); (69506, 69509); (69633, 69633); (69688, 69702);
    (69744, 69744); (69747, 69748); (69759, 69761); (69811, 69814);
    (69817, 69818); (69821, 69821); (69826, 69826); (69837, 69837);
    (69888, 69890); (69927, 69931); (69933, 69940); (70003, 70003);
    (70016, 70017); (70070, 70078); (70089, 70092); (70095, 70095);
    (70191, 70193); (70196, 70196); (70198, 70199); (70206, 70206);
    (70367, 70367); (70371, 70378); (70400, 70401); (70459, 70460);
    (70464, 70464); (70502, 70508); (70512, 70516); (70712, 70719);
    (70722, 70724); (70726, 70726); (70750, 70750); (70835, 70840);
    (70842, 70842); (70847, 70848); (70850, 70851); (71090, 71093);
    (71100, 71101); (71103, 71104); (71132, 71133); (71219, 71226);
    (71229, 71229); (71231, 71232); (71339, 71339); (71341, 71341);
    (71344, 71349); (71351, 71351); (71453, 71455); (71458, 71461);
    (71463, 71467); (71727, 71735); (71737, 71738); (71995, 71996);
    (71998, 71998); (72003, 72003); (72148, 72151); (72154, 72155);
    (72160, 72160); (72193, 72202); (72243, 72248); (72251, 72254);
    (72263, 72263); (72273, 72278); (72281, 72283); (72330, 72342);
    (72344, 72345); (72752, 72758); (72760, 72765); (72767, 72767);
    (72850, 72871); (72874, 72880); (72882, 72883); (72885, 72886);
    (73009, 73014); (73018, 73018); (73020, 73021); (73023, 73029);
    (73031, 73031); (73104, 73105); (73109, 73109); (73111, 73111);
    (73459, 73460); (78896, 78904); (92912, 92916); (92976, 92982);
    (92992, 92995); (94031, 94031); (94095, 94111); (94176, 94177);
    (94179, 94180); (110576, 110579); (110581, 110587); (110589, 110590);
    (113821, 113822); (113824, 113827); (118528, 118573);
    (118576, 118598); (119143, 119145); (119155, 119170);
    (119173, 119179); (119210, 119213); (119362, 119364);
    (121344, 121398); (121403, 121452); (121461, 121461);
    (121476, 121476); (121499, 121503); (121505, 121519);
    (122880, 122886); (122888, 122904); (122907, 122913);
    (122915, 122916); (122918, 122922); (123184, 123197);
    (123566, 123566); (123628, 123631); (125136, 125142);
    (125252, 125259); (127995, 127999); (917505, 917505);
    (917536, 917631); (917760, 917999) ]%N.

(** The code points with the property Cased, as ranges in increasing
    order. *)
Definition cased_ranges : list (N * N) :=
  [ (65, 90); (97, 122); (170, 170); (181, 181); (186, 186); (192, 214);
    (216, 246); (248, 442); (444, 447); (452, 659); (661, 696);
    (704, 705); (736, 740); (837, 837); (880, 883); (886, 887);
    (890, 893); (895, 895); (902, 902); (904, 906); (908, 908);
    (910, 929); (931, 1013); (1015, 1153); (1162, 1327); (1329, 1366);
    (1376, 1416); (4256, 4293); (4295, 4295); (4301, 4301); (4304, 4346);
    (4349, 4351); (5024, 5109); (5112, 5117); (7296, 7304); (7312, 7354);
    (7357, 7359); (7424, 7615); (7680, 7957); (7960, 7965); (7968, 8005);
    (8008, 8013); (8016, 8023); (8025, 8025); (8027, 8027); (8029, 8029);
    (8031, 8061); (8064, 8116); (8118, 8124); (8126, 8126); (8130, 8132);
    (8134, 8140); (8144, 8147); (8150, 8155); (8160, 8172); (8178, 8180);
    (8182, 8188); (8305, 8305); (8319, 8319); (8336, 8348); (8450, 8450);
    (8455, 8455); (8458, 8467); (8469, 8469); (8473, 8477); (8484, 8484);
    (8486, 8486); (8488, 8488); (8490, 8493); (8495, 8500); (8505, 8505);
    (8508, 8511); (8517, 8521); (8526, 8526); (8544, 8575); (8579, 8580);
    (9398, 9449); (11264, 11492); (11499, 11502); (11506, 11507);
    (11520, 11557); (11559, 11559); (11565, 11565); (42560, 42605);
    (42624, 42653); (42786, 42887); (42891, 42894); (42896, 42954);
    (42960, 42961); (42963, 42963); (42965, 42969); (42997, 42998);
    (43000, 43002); (43824, 43866); (43868, 43880); (43888, 43967);
    (64256, 64262); (64275, 64279); (65313, 65338); (65345, 65370);
    (66560, 66639); (66736, 66771); (66776, 66811); (66928, 66938);
    (66940, 66954); (66956, 66962); (66964, 66965); (66967, 66977);
    (66979, 66993); (66995, 67001); (67003, 67004); (67456, 67456);
    (67459, 67461); (67463, 67504); (67506, 67514); (68736, 68786);
    (68800, 68850); (71840, 71903); (93760, 93823); (119808, 119892);
    (119894, 119964); (119966, 119967); (119970, 119970);
    (119973, 119974); (119977, 119980); (119982, 119993);
    (119995, 119995); (119997, 120003); (120005, 120069);
    (120071, 120074); (120077, 120084); (120086, 120092);
    (120094, 120121); (120123, 120126); (120128, 120132);
    (120134, 120134); (120138, 120144); (120146, 120485);
    (120488, 120512); (120514, 120538); (120540, 120570);
    (120572, 120596); (120598, 120628); (120630, 120654);
    (120656, 120686); (120688, 120712); (120714, 120744);
    (120746, 120770); (120772, 120779); (122624, 122633);
    (122635, 122654); (125184, 125251); (127280, 127305);
    (127312, 127337); (127344, 127369) ]%N.

(** Whether [c] lies in one of the ranges [rs]. *)
Fixpoint in_ranges (c : N) (rs : list (N * N)) : bool :=
  match rs with
  | [] => false
  | (first, last) :: rs' =>
      if (c <? first)%N then false
      else if (c <=? last)%N then true
      else in_ranges c rs'
  end.

(** The image of [c] under the first run that holds it; a code point in
    no run is its own lower-case form. *)
Fixpoint lower_in (c : N) (runs : list (N * N * N * N)) : N :=
  match runs with
  | [] => c
  | (first, last, step, image) :: runs' =>
      if (first <=? c)%N && (c <=? last)%N
         && ((c - first) mod step =? 0)%N
      then (image + (c - first))%N
      else lower_in c runs'
  end.

(** The lower-case form of one code point. U+0130 (LATIN CAPITAL LETTER I
    WITH DOT ABOVE) is the only code point whose lower-case form has two
    code points (U+0069 U+0307). *)
Definition lower_cp (c : N) : list N :=
  if (c =? 304)%N then [105%N; 775%N] else [lower_in c lowercase_runs].

Definition is_case_ignorable (c : N) : bool :=
  in_ranges c case_ignorable_ranges.

Definition is_cased (c : N) : bool := in_ranges c cased_ranges.

Fixpoint skip_case_ignorable (s : pystr) : pystr :=
  match s with
  | c :: s' => if is_case_ignorable c then skip_case_ignorable s' else s
  | [] => []
  end.

(** Whether a U+03A3 (GREEK CAPITAL LETTER SIGMA) stands at the end of a
    word: the nearest code point before it that is not case-ignorable is
    cased, and the nearest one after it that is not case-ignorable, if
    there is one, is not. [before] lists what precedes it, nearest
    first. *)
Definition final_sigma (before after : pystr) : bool :=
  match skip_case_ignorable before with
  | c :: _ => is_cased c
  | [] => false
  end
  && match skip_case_ignorable after with
     | c :: _ => negb (is_cased c)
     | [] => true
     end.

(** [str.lower()] of what follows [before] in a string: every code point
    by its own lower-case form, except U+03A3, which becomes U+03C2 at the
    end of a word and U+03C3 elsewhere. *)
Fixpoint lower_from (before s : pystr) : pystr :=
  match s with
  | [] => []
  | c :: s' =>
      (if (c =? 931)%N
       then [if final_sigma before s' then 962%N else 963%N]
       else lower_cp c)
      ++ lower_from (c :: before) s'
  end.

(** [s.lower()] *)
Definition lower (s : pystr) : pystr := lower_from [] s.

(** [str.isspace()] on one code point: the complete list of CPython 3. *)
Definition isspace (c : N) : bool :=
  ((9 <=? c) && (c <=? 13) || (28 <=? c) && (c <=? 32) || (c =? 133)
   || (c =? 160) || (c =? 5760) || (8192 <=? c) && (c <=? 8202)
   || (c =? 8232) || (c =? 8233) || (c =? 8239) || (c =? 8287)
   || (c =? 12288))%N.

Fixpoint lstrip (s : pystr) : pystr :=
  match s with
  | c :: s' => if isspace c then lstrip s' else s
  | [] => []
  end.

Definition rstrip (s : pystr) : pystr := rev (lstrip (rev s)).

(** [s.strip()] *)
Definition strip (s : pystr) : pystr := rstrip (lstrip s).

Fixpoint startswith (sub s : pystr) : bool :=
  match sub, s with
  | [], _ => true
  | x :: sub', y :: s' => N.eqb x y && startswith sub' s'
  | _ :: _, [] => false
  end.

(** Index of the first occurrence of [sub] in [s], if there is one. *)
Fixpoint find_opt (sub s : pystr) : option nat :=
  if startswith sub s then Some 0%nat
  else match s with
       | [] => None
       | _ :: s' => option_map S (find_opt sub s')
       end.

(** [s.find(sub)]: -1 when [sub] does not occur. *)
Definition find (s sub : pystr) : Z :=
  match find_opt sub s with
  | Some i => Z.of_nat i
  | None => (-1)%Z
  end.

(** [sub in s] *)
Definition contains (sub s : pystr) : bool :=
  match find_opt sub s with Some _ => true | None => false end.

(** [s[start:]]: a negative [start] counts from the end. *)
Definition slice_from (s : pystr) (start : Z) : pystr :=
  if (start <? 0)%Z
  then skipn (Z.to_nat (Z.of_nat (length s) + start)) s
  else skipn (Z.to_nat start) s.

(** [sep.join(parts)] for parts that are all [str]. *)
Fixpoint join (sep : pystr) (parts : list pystr) : pystr :=
  match parts with
  | [] => []
  | [p] => p
  | p :: rest => p ++ sep ++ join sep rest
  end.

(** Decimal digits of a natural number, as [str(n)] prints them. *)
Definition str_of_nat (n : nat) : pystr :=
  lit (NilEmpty.string_of_uint (Nat.to_uint n)).

(** The values that travel through the result dictionaries. A [dict] keeps
    its keys in insertion order; a finite [float] is the rational it
    denotes. *)
Inductive value : Type :=
| VNone
| VBool (b : bool)
| VInt (z : Z)
| VFloat (q : Q)
| VStr (s : pystr)
| VList (l : list value)
| VDict (d : list (pystr * value)).

Definition dict := list (pystr * value).

(** [bool(v)] *)
Definition truthy (v : value) : bool :=
  match v with
  | VNone => false
  | VBool b => b
  | VInt z => negb (z =? 0)%Z
  | VFloat q => negb (Qeq_bool q 0%Q)
  | VStr s => match s with [] => false | _ => true end
  | VList l => match l with [] => false | _ => true end
  | VDict d => match d with [] => false | _ => true end
  end.

(** [type(v).__name__] *)
Definition type_name (v : value) : pystr :=
  match v with
  | VNone => lit "NoneType"
  | VBool _ => lit "bool"
  | VInt _ => lit "int"
  | VFloat _ => lit "float"
  | VStr _ => lit "str"
  | VList _ => lit "list"
  | VDict _ => lit "dict"
  end.

Fixpoint lookup (k : pystr) (d : dict) : option value :=
  match d with
  | [] => None
  | (k', v) :: d' => if str_eqb k k' then Some v else lookup k d'
  end.

Definition has_key (k : pystr) (d : dict) : bool :=
  match lookup k d with Some _ => true | None => false end.

(** [d[k] = v]: an existing key keeps its place, a new one goes last. *)
Fixpoint setitem (k : pystr) (v : value) (d : dict) : dict :=
  match d with
  | [] => [(k, v)]
  | (k', v') :: d' =>
      if str_eqb k k' then (k', v) :: d' else (k', v') :: setitem k v d'
  end.

(** [d.get(k, default)] on a dict. *)
Definition dict_get (k : pystr) (default : value) (d : dict) : value :=
  match lookup k d with Some x => x | None => default end.

(** The result of evaluating an expression: a value, or an exception of
    class [Exception], which the code only ever observes through [str(e)]. *)
Inductive outcome (A : Type) : Type :=
| Returns (a : A)
| Raises (msg : pystr).
Arguments Returns {A} a.
Arguments Raises {A} msg.

(** [v.get(k, default)]; only a [dict] has the method. *)
Definition get (v : value) (k : pystr) (default : value) : outcome value :=
  match v with
  | VDict d =>
      Returns (dict_get k default d)
  | _ =>
      Raises (lit "'" ++ type_name v
              ++ lit "' object has no attribute 'get'")
  end.

(** Statements that read and write an object [self : S] and may raise:
    what was written before an exception stays written. *)
Definition M (S A : Type) : Type := S -> outcome A * S.

Definition ret {S A} (a : A) : M S A := fun self => (Returns a, self).

Definition bind {S A B} (c : M S A) (k : A -> M S B) : M S B :=
  fun self =>
    match c self with
    | (Returns a, self') => k a self'
    | (Raises msg, self') => (Raises msg, self')
    end.

Definition lift {S A} (o : outcome A) : M S A := fun self => (o, self).

Declare Scope py_scope.
Delimit Scope py_scope with py.
Notation "x <- c ;; k" := (bind c (fun x => k))
  (at level 61, c at next level, right associativity) : py_scope.
Notation "c ;;; k" := (bind c (fun _ => k))
  (at level 61, right associativity) : py_scope.

(** [item in v] for a [str] item: a key of a dict, an element of a list, a
    substring of a str; nothing else is iterable. *)
Definition str_in (item : pystr) (v : value) : outcome bool :=
  match v with
  | VDict d => Returns (has_key item d)
  | VList l =>
      Returns (existsb (fun x => match x with
                                 | VStr s => str_eqb item s
                                 | _ => false
                                 end) l)
  | VStr s => Returns (contains item s)
  | _ =>
      Raises (lit "argument of type '" ++ type_name v
              ++ lit "' is not iterable")
  end.

(** [v[k]] for a [str] key [k]. *)
Definition getitem (v : value) (k : pystr) : outcome value :=
  match v with
  | VDict d =>
      match lookup k d with
      | Some x => Returns x
      | None => Raises (lit "'" ++ k ++ lit "'")
      end
  | VList _ => Raises (lit "list indices must be integers or slices, not str")
  | VStr _ => Raises (lit "string indices must be integers, not 'str'")
  | _ =>
      Raises (lit "'" ++ type_name v ++ lit "' object is not subscriptable")
  end.

(** [sep.join(items)] for a list of values: every item must be a [str]. *)
Fixpoint join_values_from (i : nat) (sep : pystr) (items : list value)
  : outcome (list pystr) :=
  match items with
  | [] => Returns []
  | VStr s :: rest =>
      match join_values_from (S i) sep rest with
      | Returns l => Returns (s :: l)
      | Raises msg => Raises msg
      end
  | v :: _ =>
      Raises (lit "sequence item " ++ str_of_nat i
              ++ lit ": expected str instance, " ++ type_name v
              ++ lit " found")
  end.

Definition join_values (sep : pystr) (items : list value) : outcome pystr :=
  match join_values_from 0 sep items with
  | Returns l => Returns (join sep l)
  | Raises msg => Raises msg
  end.

(** Strings whose lower-casing goes one code point at a time and keeps
    every position: those with neither U+0130 nor U+03A3. *)
Definition positional (u : pystr) : Prop :=
  Forall (fun c => c <> 304%N /\ c <> 931%N) u.

(** The items of a list of values, when all of them are [str]. *)
Fixpoint all_str (items : list value) : option (list pystr) :=
  match items with
  | [] => Some []
  | VStr s :: rest => option_map (cons s) (all_str rest)
  | _ :: _ => None
  end.

End Py.

(** ** [LalaAssistant] (integration.py) *)

Module Assistant.
Import Py.

(** The keyword arguments of [process_ai_request]. *)
Record ai_request : Type := mk_ai_request {
  prompt : pystr;
  system_prompt : pystr;
  model_preference : pystr;
  max_tokens : Z }.

(** What the assistant does to the outside world: calls on the Android
    adapter ([self.android]), on the imported services, [time.sleep] and the
    listener's callback. Durations of [Sleep] are in milliseconds. *)
Inductive event : Type :=
| Vibrate (duration_ms : Z)
| Toast (message : pystr)
| Speak (text : value)
| Recognize (max_duration_sec : Z)
| PlannerCall (command : pystr) (uid : option Z)
| AiCall (req : ai_request)
| Sleep (ms : Z)
| Callback (result : dict).

(** The collaborators that are imported from outside [android_adapter]
    ([utils.is_online], [services.agent_planner], [services.ai_models_router])
    and the speech recogniser behind [self.android.voice_recognition]. Each
    may answer differently from one call to the next: it is given the events
    so far. The imported ones may raise. *)
Record services : Type := mk_services {
  is_online : list event -> outcome bool;
  agent_planner_process_command :
    list event -> pystr -> option Z -> outcome value;
  process_ai_request : list event -> ai_request -> outcome value;
  recognize_once : list event -> Z -> pystr }.

(** [VoiceRecognitionService.recognize_once] as core.py has it: a prototype
    that always hears the same sentence ([241] is n with tilde). *)
Definition recognize_once_stub (_ : list event) (_ : Z) : pystr :=
  lit "lala pon una alarma para las 8 de la ma" ++ [241%N] ++ lit "ana".

(** The fields of [LalaAssistant]; [trace] records the events, oldest
    first, and stands for the adapter and the services the object holds. *)
Record LalaAssistant : Type := mk_LalaAssistant {
  user_id : option Z;
  prefer_offline : bool;
  wake_word : pystr;
  is_active : bool;
  is_processing : bool;
  last_command : option pystr;
  last_response : option dict;
  should_stop_background : bool;
  trace : list event }.

(** [LalaAssistant.__init__] *)
Definition init (uid : option Z) (offline : bool) (ww : pystr)
  : LalaAssistant :=
  {| user_id := uid; prefer_offline := offline; wake_word := ww;
     is_active := false; is_processing := false; last_command := None;
     last_response := None; should_stop_background := false; trace := [] |}.

Definition set_is_processing (b : bool) (self : LalaAssistant) :=
  {| user_id := user_id self; prefer_offline := prefer_offline self;
     wake_word := wake_word self; is_active := is_active self;
     is_processing := b; last_command := last_command self;
     last_response := last_response self;
     should_stop_background := should_stop_background self;
     trace := trace self |}.

Definition set_last_command (c : option pystr) (self : LalaAssistant) :=
  {| user_id := user_id self; prefer_offline := prefer_offline self;
     wake_word := wake_word self; is_active := is_active self;
     is_processing := is_processing self; last_command := c;
     last_response := last_response self;
     should_stop_background := should_stop_background self;
     trace := trace self |}.

Definition set_last_response (r : option dict) (self : LalaAssistant) :=
  {| user_id := user_id self; prefer_offline := prefer_offline self;
     wake_word := wake_word self; is_active := is_active self;
     is_processing := is_processing self; last_command := last_command self;
     last_response := r;
     should_stop_background := should_stop_background self;
     trace := trace self |}.

Definition set_wake_word_field (w : pystr) (self : LalaAssistant) :=
  {| user_id := user_id self; prefer_offline := prefer_offline self;
     wake_word := w; is_active := is_active self;
     is_processing := is_processing self; last_command := last_command self;
     last_response := last_response self;
     should_stop_background := should_stop_background self;
     trace := trace self |}.

Definition set_should_stop_background (b : bool) (self : LalaAssistant) :=
  {| user_id := user_id self; prefer_offline := prefer_offline self;
     wake_word := wake_word self; is_active := is_active self;
     is_processing := is_processing self; last_command := last_command self;
     last_response := last_response self;
     should_stop_background := b;
     trace := trace self |}.

Definition emit (ev : event) (self : LalaAssistant) :=
  {| user_id := user_id self; prefer_offline := prefer_offline self;
     wake_word := wake_word self; is_active := is_active self;
     is_processing := is_processing self; last_command := last_command self;
     last_response := last_response self;
     should_stop_background := should_stop_background self;
     trace := trace self ++ [ev] |}.

Definition perform (ev : event) : M LalaAssistant unit :=
  fun self => (Returns tt, emit ev self).

Definition call {A} (ev : event) (f : list event -> outcome A)
  : M LalaAssistant A :=
  fun self => (f (trace self), emit ev self).

Local Open Scope py_scope.

(** The accented letters of the messages, as code points. *)
Definition msg_error : pystr :=
  lit "Lo siento, ocurri" ++ [243%N]
  ++ lit " un error al procesar tu solicitud.".

Definition msg_no_voice : pystr :=
  lit "No se detect" ++ [243%N] ++ lit " ning" ++ [250%N]
  ++ lit "n comando de voz.".

(** The body of the [try] of [process_text_command] (lines 145-177). *)
Definition try_body (sv : services) (command_text : pystr)
    (wait_for_response online_available : bool) : M LalaAssistant dict :=
  uid <- (fun self => (Returns (user_id self), self)) ;;
  planning_result <-
    call (PlannerCall command_text uid)
         (fun t => agent_planner_process_command sv t command_text uid) ;;
  let req :=
    {| prompt := lit "Responde al usuario que dice: '" ++ command_text
                 ++ lit "'";
       system_prompt :=
         lit "Eres Lala, un asistente de voz amable y servicial. "
         ++ lit "Responde de forma concisa y natural.";
       model_preference :=
         if online_available then lit "auto" else lit "offline";
       max_tokens := 200 |} in
  model_response <- call (AiCall req) (fun t => process_ai_request sv t req) ;;
  ok <- lift (get planning_result (lit "success") (VBool false)) ;;
  response_text <-
    (if truthy ok
     then lift (get planning_result (lit "response") (VStr []))
     else
       text <- lift (get model_response (lit "text") (VStr [])) ;;
       if truthy text then ret text
       else lift (get model_response (lit "response") (VStr []))) ;;
  (if wait_for_response then perform (Speak response_text) else ret tt) ;;;
  plan <- lift (get planning_result (lit "plan") (VDict [])) ;;
  model <- lift (get model_response (lit "model") (VStr (lit "offline"))) ;;
  let result : dict :=
    [ (lit "success", VBool true);
      (lit "response", response_text);
      (lit "plan", plan);
      (lit "model", model);
      (lit "online", VBool online_available) ] in
  (fun self => (Returns result, set_last_response (Some result) self)).

(** The [except Exception as e] branch (lines 183-187). *)
Definition error_result (msg : pystr) : dict :=
  [ (lit "success", VBool false);
    (lit "response", VStr msg_error);
    (lit "error", VStr msg) ].

(** Lines 138-139: the state update that opens [process_text_command]. *)
Definition begin_processing (command_text : pystr) (self : LalaAssistant)
  : LalaAssistant :=
  set_last_command (Some command_text) (set_is_processing true self).

(** [process_text_command], which also tells whether the dict it returns is
    the very object it stored in [last_response] (line 177): a caller that
    writes into the returned dict writes into that field too. The
    connectivity check of line 142 stands before the [try]: what
    [is_online] raises reaches the caller, and the statements after the
    [try] are not run. *)
Definition process_text_command_obj (sv : services) (command_text : pystr)
    (wait_for_response : bool) (self : LalaAssistant)
  : outcome (dict * bool) * LalaAssistant :=
  let self := begin_processing command_text self in
  match is_online sv (trace self) with
  | Raises msg => (Raises msg, self)
  | Returns online =>
      let online_available := online && negb (prefer_offline self) in
      let '(result, stored, self) :=
        match try_body sv command_text wait_for_response online_available
                self with
        | (Returns result, self') => (result, true, self')
        | (Raises msg, self') => (error_result msg, false, self')
        end in
      (Returns (result, stored), set_is_processing false self)
  end.

(** [LalaAssistant.process_text_command] *)
Definition process_text_command (sv : services) (command_text : pystr)
    (wait_for_response : bool) (self : LalaAssistant)
  : outcome dict * LalaAssistant :=
  match process_text_command_obj sv command_text wait_for_response self with
  | (Returns (result, _), self') => (Returns result, self')
  | (Raises msg, self') => (Raises msg, self')
  end.

(** Lines 222-230 of [process_voice_command]: the command that follows the
    wake word. The index is found in the lower-cased utterance and then
    used to slice the utterance itself. *)
Definition extract_command (wake_word recognized_text : pystr) : pystr :=
  let wake_word_lower := lower wake_word in
  if contains wake_word_lower (lower recognized_text) then
    let start_index :=
      (find (lower recognized_text) wake_word_lower
       + Z.of_nat (length wake_word_lower))%Z in
    strip (slice_from recognized_text start_index)
  else recognized_text.

(** [LalaAssistant.process_voice_command] *)
Definition process_voice_command (sv : services) (max_duration_sec : Z)
    (self : LalaAssistant) : outcome dict * LalaAssistant :=
  let self := emit (Vibrate 100) self in
  let self := emit (Toast (lit "Escuchando...")) self in
  let recognized_text := recognize_once sv (trace self) max_duration_sec in
  let self := emit (Recognize max_duration_sec) self in
  match recognized_text with
  | [] =>
      (Returns [ (lit "success", VBool false);
                 (lit "response", VStr msg_no_voice);
                 (lit "recognized_text", VStr []) ], self)
  | _ :: _ =>
      let command_text := extract_command (wake_word self) recognized_text in
      match process_text_command_obj sv command_text true self with
      | (Raises msg, self) => (Raises msg, self)
      | (Returns (result, stored), self) =>
          let result :=
            setitem (lit "recognized_text") (VStr recognized_text) result in
          (Returns result,
           if stored then set_last_response (Some result) self else self)
      end
  end.

(** [LalaAssistant.set_wake_word] *)
Definition set_wake_word (w : pystr) (self : LalaAssistant)
  : bool * LalaAssistant :=
  if match w with [] => true | _ :: _ => false end || (length w <? 2)%nat
  then (false, self)
  else
    let self := set_wake_word_field w self in
    let self :=
      emit (Toast (lit "Palabra de activaci" ++ [243%N]
                   ++ lit "n cambiada a: " ++ w)) self in
    (true, self).

(** The [callback] argument of [start_background_listening]: [None], or a
    callable that returns or raises. *)
Definition callback : Type := option (list event -> dict -> outcome unit).

(** One pass through the body of the [while] of
    [background_listening_thread] (lines 269-287), run by the thread alone.
    The first component is the local [result], when the pass assigns it.
    Whatever the [try] raises is answered by a wait of one second. *)
Definition loop_body (sv : services) (cb : callback) (self : LalaAssistant)
  : option dict * LalaAssistant :=
  let self := emit (Sleep 2000) self in
  if negb (is_processing self) && negb (should_stop_background self) then
    match process_voice_command sv 5 self with
    | (Raises _, self) => (None, emit (Sleep 1000) self)
    | (Returns result, self) =>
        match cb with
        | Some f =>
            if truthy (dict_get (lit "success") (VBool false) result) then
              match f (trace self) result with
              | Returns _ => (Some result, emit (Callback result) self)
              | Raises _ =>
                  (Some result,
                   emit (Sleep 1000) (emit (Callback result) self))
              end
            else (Some result, self)
        | None => (Some result, self)
        end
    end
  else (None, self).

(** The first [n] passes of [while not self.should_stop_background]. *)
Fixpoint background_listening_thread (n : nat) (sv : services)
    (cb : callback) (self : LalaAssistant) : LalaAssistant :=
  match n with
  | O => self
  | S n' =>
      if should_stop_background self then self
      else background_listening_thread n' sv cb (snd (loop_body sv cb self))
  end.

(** The callbacks recorded in a list of events, with their arguments. *)
Definition callbacks (t : list event) : list dict :=
  flat_map (fun ev => match ev with Callback r => [r] | _ => [] end) t.

(** The commands handed to the planner in a list of events. *)
Definition planner_commands (t : list event) : list pystr :=
  flat_map (fun ev => match ev with PlannerCall c _ => [c] | _ => [] end) t.

(** The fields of [self] that a statement leaves alone. *)
Definition same_fields (a b : LalaAssistant) : Prop :=
  user_id b = user_id a /\ prefer_offline b = prefer_offline a
  /\ wake_word b = wake_word a /\ is_active b = is_active a
  /\ is_processing b = is_processing a /\ last_command b = last_command a
  /\ should_stop_background b = should_stop_background a.

(** The feedback that opens [process_voice_command] (lines 207-208). *)
Definition listening : list event :=
  [Vibrate 100; Toast (lit "Escuchando...")].

End Assistant.

(** ** [VoskRecognizer.process_audio_file] (vosk_integration.py) *)

Module Vosk.
Import Py.
Local Open Scope py_scope.

Definition bytes : Type := list N.

(** The [Wave_read] object that [wave.open(path, "rb")] returns: its header
    and the byte strings that its successive [readframes(4000)] calls
    return; past the end of [reads] a call returns [b""]. *)
Record Wave_read : Type := mk_Wave_read {
  getnchannels : Z;
  getsampwidth : Z;
  getcomptype : pystr;
  reads : list bytes }.

(** The libraries behind the wrapper: [os.path], [wave], [json] and the vosk
    recogniser, whose answers depend on all the audio it was given since it
    was created (oldest chunk first). *)
Record engine : Type := mk_engine {
  path_exists : pystr -> bool;
  wave_open : pystr -> outcome Wave_read;
  KaldiRecognizer : outcome unit;
  AcceptWaveform : list bytes -> outcome bool;
  Result : list bytes -> outcome pystr;
  FinalResult : list bytes -> outcome pystr;
  json_loads : pystr -> outcome value }.

(** The fields of [VoskRecognizer] that [process_audio_file] reads or
    writes. [model] tells whether [self.model] is not [None]; [recognizer]
    holds the audio given to the current recogniser object; [passed] lists
    every chunk the wrapper has handed to [AcceptWaveform]. [initialize] is
    not modelled: [process_audio_file] only reads what it left in these
    fields. *)
Record VoskRecognizer : Type := mk_VoskRecognizer {
  _is_initialized : bool;
  model : bool;
  recognizer : option (list bytes);
  passed : list bytes }.

(** [VoskRecognizer.is_initialized] *)
Definition is_initialized (self : VoskRecognizer) : bool :=
  _is_initialized self && model self
  && match recognizer self with Some _ => true | None => false end.

(** [VoskRecognizer.reset] *)
Definition reset (en : engine) : M VoskRecognizer unit :=
  fun self =>
    if is_initialized self then
      match KaldiRecognizer en with
      | Returns _ =>
          (Returns tt,
           {| _is_initialized := _is_initialized self; model := model self;
              recognizer := Some []; passed := passed self |})
      | Raises msg => (Raises msg, self)
      end
    else (Returns tt, self).

(** [self.recognizer.AcceptWaveform(data)] *)
Definition accept_waveform (en : engine) (data : bytes)
  : M VoskRecognizer bool :=
  fun self =>
    match recognizer self with
    | Some fed =>
        (AcceptWaveform en (fed ++ [data]),
         {| _is_initialized := _is_initialized self; model := model self;
            recognizer := Some (fed ++ [data]);
            passed := passed self ++ [data] |})
    | None =>
        (Raises (lit "'NoneType' object has no attribute 'AcceptWaveform'"),
         self)
    end.

(** [self.recognizer.Result()] and [self.recognizer.FinalResult()] *)
Definition recognizer_result (en : engine) (final : bool)
  : M VoskRecognizer pystr :=
  fun self =>
    match recognizer self with
    | Some fed => ((if final then FinalResult en fed else Result en fed), self)
    | None =>
        (Raises (lit "'NoneType' object has no attribute '"
                 ++ (if final then lit "FinalResult" else lit "Result")
                 ++ lit "'"), self)
    end.

(** [if "text" in r and r["text"]: results.append(r["text"])] *)
Definition collect_text (r : value) (results : list value)
  : outcome (list value) :=
  match str_in (lit "text") r with
  | Raises msg => Raises msg
  | Returns false => Returns results
  | Returns true =>
      match getitem r (lit "text") with
      | Raises msg => Raises msg
      | Returns t => Returns (if truthy t then results ++ [t] else results)
      end
  end.

(** The [while True] loop (lines 161-171), by recursion on what is left to
    read. *)
Fixpoint read_loop (en : engine) (rs : list bytes) (results : list value)
  : M VoskRecognizer (list value) :=
  match rs with
  | [] => ret results
  | [] :: _ => ret results
  | data :: rest =>
      accepted <- accept_waveform en data ;;
      results <-
        (if accepted : bool then
           result_json <- recognizer_result en false ;;
           result <- lift (json_loads en result_json) ;;
           lift (collect_text result results)
         else ret results) ;;
      read_loop en rest results
  end.

Definition unsupported_format (wf : Wave_read) : bool :=
  negb (getnchannels wf =? 1)%Z || negb (getsampwidth wf =? 2)%Z
  || negb (str_eqb (getcomptype wf) (lit "NONE")).

Definition failure (msg : pystr) : dict :=
  [ (lit "success", VBool false); (lit "error", VStr msg) ].

(** The body of the [try] of [process_audio_file] (lines 145-188). *)
Definition try_body (en : engine) (audio_file_path : pystr)
  : M VoskRecognizer dict :=
  reset en ;;;
  wf <- lift (wave_open en audio_file_path) ;;
  if unsupported_format wf then
    ret (failure
           (lit "Formato de audio no soportado. Usar WAV mono 16-bit PCM."))
  else
    results <- read_loop en (reads wf) [] ;;
    final_json <- recognizer_result en true ;;
    final <- lift (json_loads en final_json) ;;
    results <- lift (collect_text final results) ;;
    joined <- lift (join_values (lit " ") results) ;;
    let text := strip joined in
    confidence <- lift (get final (lit "confidence") (VFloat 0%Q)) ;;
    ret [ (lit "success", VBool true);
          (lit "text", VStr text);
          (lit "confidence", confidence);
          (lit "partial", VBool false) ].

(** [VoskRecognizer.process_audio_file] *)
Definition process_audio_file (en : engine) (audio_file_path : pystr)
    (self : VoskRecognizer) : dict * VoskRecognizer :=
  if negb (is_initialized self) then
    (failure (lit "Reconocedor no inicializado"), self)
  else if negb (path_exists en audio_file_path) then
    (failure (lit "Archivo no encontrado: " ++ audio_file_path), self)
  else
    match try_body en audio_file_path self with
    | (Returns d, self') => (d, self')
    | (Raises msg, self') => (failure msg, self')
    end.

(** The recognised text as the specification words it: the recogniser's
    answers during a run over the reads [rs] (one [Result] per accepted
    chunk, then the [FinalResult]), JSON-decoded, their non-empty "text"
    fields joined with single spaces and trimmed. *)
Fixpoint recognizer_answers (en : engine) (rs : list bytes)
    (fed : list bytes) : list (outcome pystr) :=
  match rs with
  | [] => [FinalResult en fed]
  | [] :: _ => [FinalResult en fed]
  | data :: rest =>
      match AcceptWaveform en (fed ++ [data]) with
      | Returns true =>
          Result en (fed ++ [data])
          :: recognizer_answers en rest (fed ++ [data])
      | _ => recognizer_answers en rest (fed ++ [data])
      end
  end.

Definition text_field (en : engine) (answer : outcome pystr) : list pystr :=
  match answer with
  | Returns j =>
      match json_loads en j with
      | Returns (VDict d) =>
          match lookup (lit "text") d with
          | Some (VStr (c :: s)) => [c :: s]
          | _ => []
          end
      | _ => []
      end
  | Raises _ => []
  end.

Definition spec_text (en : engine) (wf : Wave_read) : pystr :=
  strip (join (lit " ")
           (flat_map (text_field en) (recognizer_answers en (reads wf) []))).

End Vosk.

(** ** Sample collaborators and inputs *)

Module Samples.
Import Py Assistant Vosk.

Definition planner_ok (_ : list event) (_ : pystr) (_ : option Z)
  : outcome value :=
  Returns (VDict [ (lit "success", VBool true);
                   (lit "response", VStr (lit "hecho"));
                   (lit "plan", VDict []) ]).

Definition planner_down (_ : list event) (_ : pystr) (_ : option Z)
  : outcome value :=
  Raises (lit "planner unavailable").

Definition ai_ok (_ : list event) (_ : ai_request) : outcome value :=
  Returns (VDict [ (lit "text", VStr (lit "hola"));
                   (lit "model", VStr (lit "small")) ]).

(** Services that work, with a recogniser that hears [u]. *)
Definition sv_hearing (u : pystr) : services :=
  {| is_online := fun _ => Returns true;
     agent_planner_process_command := planner_ok;
     process_ai_request := ai_ok;
     recognize_once := fun _ _ => u |}.

(** Services whose planner raises. *)
Definition sv_failing : services :=
  {| is_online := fun _ => Returns true;
     agent_planner_process_command := planner_down;
     process_ai_request := ai_ok;
     recognize_once := recognize_once_stub |}.

(** Services whose connectivity check raises, with a recogniser that
    hears [u]. *)
Definition sv_unreachable (u : pystr) : services :=
  {| is_online := fun _ => Raises (lit "network is unreachable");
     agent_planner_process_command := planner_ok;
     process_ai_request := ai_ok;
     recognize_once := fun _ _ => u |}.

(** [LalaAssistant()] with its default arguments. *)
Definition lala : LalaAssistant := init None false (lit "Lala").

(** An utterance that starts with two U+0130. *)
Definition dotted_utterance : pystr :=
  [304%N; 304%N] ++ lit " lala hola".

Definition stereo_wav : Wave_read :=
  {| getnchannels := 2; getsampwidth := 2; getcomptype := lit "NONE";
     reads := [[1%N; 2%N; 3%N; 4%N]] |}.

Definition mono_wav : Wave_read :=
  {| getnchannels := 1; getsampwidth := 2; getcomptype := lit "NONE";
     reads := [[1%N; 2%N]; [3%N; 4%N]; [5%N; 6%N]] |}.

(** Libraries where every file exists, "stereo.wav" is a stereo file and
    any other a mono one, and the recogniser completes an answer at every
    second chunk. *)
Definition engine_sample : engine :=
  {| path_exists := fun _ => true;
     wave_open := fun p =>
       if str_eqb p (lit "stereo.wav") then Returns stereo_wav
       else Returns mono_wav;
     KaldiRecognizer := Returns tt;
     AcceptWaveform := fun fed => Returns (Nat.even (length fed));
     Result := fun _ => Returns (lit "chunk");
     FinalResult := fun _ => Returns (lit "final");
     json_loads := fun j =>
       if str_eqb j (lit "chunk")
       then Returns (VDict [(lit "text", VStr (lit "hola"))])
       else Returns (VDict [(lit "text", VStr (lit "mundo"));
                            (lit "confidence", VFloat 1%Q)]) |}.

(** An initialised [VoskRecognizer]. *)
Definition vosk : VoskRecognizer :=
  {| _is_initialized := true; model := true; recognizer := Some [];
     passed := [] |}.

End Samples.

(** ** Exception handling *)

Module Control.
Import Py.

(** [try: c except Exception: handler] *)
Definition catch {S A} (c : M S A) (handler : pystr -> M S A) : M S A :=
  fun self =>
    match c self with
    | (Returns a, self') => (Returns a, self')
    | (Raises msg, self') => handler msg self'
    end.

End Control.

(** ** What a run of the assistant shows to the outside *)

Module AssistantObs.
Import Py Assistant.

(** The texts handed to the text-to-speech service in a list of events. *)
Definition spoken (t : list event) : list value :=
  flat_map (fun ev => match ev with Speak v => [v] | _ => [] end) t.

(** The requests made to the AI router in a list of events. *)
Definition ai_requests (t : list event) : list ai_request :=
  flat_map (fun ev => match ev with AiCall r => [r] | _ => [] end) t.

(** The waits in a list of events, in milliseconds. *)
Definition sleeps (t : list event) : list Z :=
  flat_map (fun ev => match ev with Sleep ms => [ms] | _ => [] end) t.

(** The request that [process_text_command] builds for a command (lines
    149-155). *)
Definition request_for (command_text : pystr) (online_available : bool)
  : ai_request :=
  {| prompt := lit "Responde al usuario que dice: '" ++ command_text
               ++ lit "'";
     system_prompt :=
       lit "Eres Lala, un asistente de voz amable y servicial. "
       ++ lit "Responde de forma concisa y natural.";
     model_preference :=
       if online_available then lit "auto" else lit "offline";
     max_tokens := 200 |}.

(** Whether the network is to be used, as line 142 computes it from what
    [is_online] returned. *)
Definition online_for (online : bool) (self : LalaAssistant) : bool :=
  online && negb (prefer_offline self).

End AssistantObs.

(** ** The Android adapter (core.py) *)

Module Core.
Import Py.
Local Open Scope py_scope.

(** What a bridge does on the platform's side. *)
Inductive bridge_event : Type :=
| CheckPermission (permission : pystr)
| RequestPermission (permission : pystr)
| ShowToast (message : pystr)
| StartService (service_name : pystr)
| StopService (service_name : pystr).

(** The answers of a bridge: the services receive their bridge as an
    argument and use it through these methods only. *)
Record bridge : Type := mk_bridge {
  check_permission : pystr -> bool;
  request_permission : pystr -> bool;
  get_device_info : value }.

(** [AndroidBridge] as core.py has it: every permission is granted and the
    device is an emulator. *)
Definition AndroidBridge : bridge :=
  {| check_permission := fun _ => true;
     request_permission := fun _ => true;
     get_device_info :=
       VDict [ (lit "model", VStr (lit "Android Emulator"));
               (lit "android_version", VStr (lit "13.0"));
               (lit "sdk_level", VInt 33);
               (lit "device_id", VStr (lit "emulator-5554"));
               (lit "manufacturer", VStr (lit "Google"));
               (lit "brand", VStr (lit "google"));
               (lit "battery_level", VInt 100);
               (lit "is_charging", VBool true);
               (lit "total_memory", VStr (lit "4GB"));
               (lit "available_memory", VStr (lit "2GB")) ] |}.

(** [AndroidBridge._callbacks]: for each event name, the callbacks in the
    order they were registered; the names in the order they first came. *)
Definition callback_table (C : Type) : Type := list (pystr * list C).

Fixpoint callbacks_for {C} (event_name : pystr) (t : callback_table C)
  : option (list C) :=
  match t with
  | [] => None
  | (k, l) :: t' =>
      if str_eqb event_name k then Some l else callbacks_for event_name t'
  end.

(** [self._callbacks[event_name].append(callback)] *)
Fixpoint append_callback {C} (event_name : pystr) (cb : C)
    (t : callback_table C) : callback_table C :=
  match t with
  | [] => []
  | (k, l) :: t' =>
      if str_eqb event_name k then (k, l ++ [cb]) :: t'
      else (k, l) :: append_callback event_name cb t'
  end.

(** [AndroidBridge.register_callback] *)
Definition register_callback {C} (event_name : pystr) (cb : C)
    (t : callback_table C) : callback_table C :=
  let t :=
    match callbacks_for event_name t with
    | None => t ++ [(event_name, [])]
    | Some _ => t
    end in
  append_callback event_name cb t.

(** A series of registrations, oldest first. *)
Definition register_all {C} (regs : list (pystr * C)) (t : callback_table C)
  : callback_table C :=
  fold_left (fun t r => register_callback (fst r) (snd r) t) regs t.

(** The permissions checked and the permissions requested in a list of
    bridge events. *)
Definition checked (evs : list bridge_event) : list pystr :=
  flat_map (fun ev => match ev with CheckPermission p => [p] | _ => [] end)
    evs.

Definition requested (evs : list bridge_event) : list pystr :=
  flat_map (fun ev => match ev with RequestPermission p => [p] | _ => [] end)
    evs.

(** A permission is held once the bridge says so, at once or on request. *)
Definition obtained (b : bridge) (p : pystr) : bool :=
  check_permission b p || request_permission b p.

(** The loop of [VoiceRecognitionService._check_permissions], which
    [StorageService._check_permissions] repeats for older devices: ask for
    each permission that is not granted yet. *)
Fixpoint request_missing (b : bridge) (permissions : list pystr)
    (all_granted : bool) : bool * list bridge_event :=
  match permissions with
  | [] => (all_granted, [])
  | p :: rest =>
      if check_permission b p then
        let '(r, evs) := request_missing b rest all_granted in
        (r, CheckPermission p :: evs)
      else
        let granted := request_permission b p in
        let '(r, evs) := request_missing b rest (all_granted && granted) in
        (r, CheckPermission p :: RequestPermission p :: evs)
  end.

Definition RECORD_AUDIO : pystr := lit "android.permission.RECORD_AUDIO".
Definition INTERNET : pystr := lit "android.permission.INTERNET".
Definition POST_NOTIFICATIONS : pystr :=
  lit "android.permission.POST_NOTIFICATIONS".
Definition MANAGE_EXTERNAL_STORAGE : pystr :=
  lit "android.permission.MANAGE_EXTERNAL_STORAGE".
Definition READ_EXTERNAL_STORAGE : pystr :=
  lit "android.permission.READ_EXTERNAL_STORAGE".
Definition WRITE_EXTERNAL_STORAGE : pystr :=
  lit "android.permission.WRITE_EXTERNAL_STORAGE".

(** [VoiceRecognitionService._check_permissions] *)
Definition voice_check_permissions (b : bridge) : bool * list bridge_event :=
  request_missing b [RECORD_AUDIO; INTERNET] true.

(** The permissions [StorageService._check_permissions] deals with at an
    SDK level. *)
Definition storage_permissions (sdk_level : Z) : list pystr :=
  if (30 <=? sdk_level)%Z then [MANAGE_EXTERNAL_STORAGE]
  else if (29 <=? sdk_level)%Z then [READ_EXTERNAL_STORAGE]
  else [READ_EXTERNAL_STORAGE; WRITE_EXTERNAL_STORAGE].

(** [bridge.check_permission(p) or bridge.request_permission(p)] *)
Definition check_or_request (b : bridge) (p : pystr)
  : bool * list bridge_event :=
  if check_permission b p then (true, [CheckPermission p])
  else (request_permission b p, [CheckPermission p; RequestPermission p]).

(** [v >= n] for an integer literal [n]: numbers compare, anything else
    raises [TypeError]. *)
Definition ge_int (v : value) (n : Z) : outcome bool :=
  match v with
  | VInt z => Returns (n <=? z)%Z
  | VBool b => Returns (n <=? (if b then 1 else 0))%Z
  | VFloat q => Returns (Qle_bool (inject_Z n) q)
  | _ =>
      Raises (lit "'>=' not supported between instances of '"
              ++ type_name v ++ lit "' and 'int'")
  end.

(** [NotificationService._check_permissions] *)
Definition notification_check_permissions (b : bridge)
  : outcome (bool * list bridge_event) :=
  match get (get_device_info b) (lit "sdk_level") (VInt 0) with
  | Raises msg => Raises msg
  | Returns sdk_level =>
      match ge_int sdk_level 33 with
      | Raises msg => Raises msg
      | Returns true => Returns (check_or_request b POST_NOTIFICATIONS)
      | Returns false => Returns (true, [])
      end
  end.

(** [StorageService._check_permissions] *)
Definition storage_check_permissions (b : bridge)
  : outcome (bool * list bridge_event) :=
  match get (get_device_info b) (lit "sdk_level") (VInt 0) with
  | Raises msg => Raises msg
  | Returns sdk_level =>
      match ge_int sdk_level 30 with
      | Raises msg => Raises msg
      | Returns true => Returns (check_or_request b MANAGE_EXTERNAL_STORAGE)
      | Returns false =>
          match ge_int sdk_level 29 with
          | Raises msg => Raises msg
          | Returns true => Returns (check_or_request b READ_EXTERNAL_STORAGE)
          | Returns false =>
              Returns (request_missing b
                         [READ_EXTERNAL_STORAGE; WRITE_EXTERNAL_STORAGE] true)
          end
      end
  end.

(** The fields of [VoiceRecognitionService] besides the bridge. *)
Record VoiceRecognitionService : Type := mk_VoiceRecognitionService {
  voice_prefer_offline : bool;
  _is_listening : bool;
  voice_offline_model_loaded : bool }.

(** [VoiceRecognitionService.start_listening]; the callback it is given is
    not used. *)
Definition start_listening (self : VoiceRecognitionService)
  : bool * VoiceRecognitionService * list bridge_event :=
  if _is_listening self then (false, self, [])
  else
    (true,
     {| voice_prefer_offline := voice_prefer_offline self;
        _is_listening := true;
        voice_offline_model_loaded := voice_offline_model_loaded self |},
     [ShowToast (lit "Escuchando comandos de voz...")]).

(** [VoiceRecognitionService.stop_listening] *)
Definition stop_listening (self : VoiceRecognitionService)
  : bool * VoiceRecognitionService * list bridge_event :=
  if negb (_is_listening self) then (false, self, [])
  else
    (true,
     {| voice_prefer_offline := voice_prefer_offline self;
        _is_listening := false;
        voice_offline_model_loaded := voice_offline_model_loaded self |},
     [ShowToast (lit "Reconocimiento de voz detenido")]).

(** [VoiceRecognitionService.is_listening] *)
Definition is_listening (self : VoiceRecognitionService) : bool :=
  _is_listening self.

(** A call on the listening switch, and a run of such calls: the values
    returned, the service afterwards and the toasts shown. *)
Inductive switch : Type := Start | Stop.

Definition flip (op : switch) (self : VoiceRecognitionService)
  : bool * VoiceRecognitionService * list bridge_event :=
  match op with
  | Start => start_listening self
  | Stop => stop_listening self
  end.

Fixpoint flips (ops : list switch) (self : VoiceRecognitionService)
  : list bool * VoiceRecognitionService * list bridge_event :=
  match ops with
  | [] => ([], self, [])
  | op :: rest =>
      let '(r, self1, evs1) := flip op self in
      let '(rs, self2, evs2) := flips rest self1 in
      (r :: rs, self2, evs1 ++ evs2)
  end.

(** Whether the last call of a run is a start; [before] if the run is
    empty. *)
Fixpoint last_target (ops : list switch) (before : bool) : bool :=
  match ops with
  | [] => before
  | Start :: rest => last_target rest true
  | Stop :: rest => last_target rest false
  end.

(** [AndroidAdapter.get_device_status], given the answers of
    [voice_recognition.is_listening()] and [text_to_speech.is_speaking()]
    (the latter is always False). *)
Definition get_device_status (b : bridge) (voice : VoiceRecognitionService)
  : outcome dict :=
  let device_info := get_device_info b in
  match get device_info (lit "battery_level") (VInt 0) with
  | Raises msg => Raises msg
  | Returns battery_level =>
      match get device_info (lit "is_charging") (VBool false) with
      | Raises msg => Raises msg
      | Returns is_charging =>
          match get device_info (lit "available_memory")
                  (VStr (lit "Unknown")) with
          | Raises msg => Raises msg
          | Returns available_memory =>
              Returns [ (lit "device", device_info);
                        (lit "voice_active", VBool (is_listening voice));
                        (lit "tts_active", VBool false);
                        (lit "background_service", VBool true);
                        (lit "battery_level", battery_level);
                        (lit "is_charging", is_charging);
                        (lit "available_memory", available_memory) ]
          end
      end
  end.

End Core.

(** ** The speech synthesis engine (tts_integration.py) *)

Module Tts.
Import Py.

(** What the engine does outside itself: [time.sleep], in milliseconds,
    and the two file-system calls of the debug file ([WriteText] is the
    attempt to open the file and write the text). *)
Inductive tts_event : Type :=
| TtsSleep (ms : Z)
| Makedirs (path : pystr)
| WriteText (path contents : pystr).

(** The file system: what [os.makedirs(path, exist_ok=True)] does. *)
Record file_system : Type := mk_file_system {
  makedirs : pystr -> outcome unit }.

(** [posixpath.dirname]: the path up to its last slash, without trailing
    slashes unless it consists of slashes only. *)
Fixpoint up_to_last_slash (p : pystr) : pystr :=
  match p with
  | [] => []
  | c :: rest =>
      match up_to_last_slash rest with
      | [] => if (c =? 47)%N then [c] else []
      | h => c :: h
      end
  end.

Fixpoint lstrip_slashes (p : pystr) : pystr :=
  match p with
  | c :: rest => if (c =? 47)%N then lstrip_slashes rest else p
  | [] => []
  end.

Definition dirname (p : pystr) : pystr :=
  let head := up_to_last_slash p in
  if forallb (fun c => (c =? 47)%N) head then head
  else rev (lstrip_slashes (rev head)).

(** The fields of [TtsEngine]; [model] stays [None] in this prototype. *)
Record TtsEngine : Type := mk_TtsEngine {
  model_path : pystr;
  _is_initialized : bool;
  _is_speaking : bool;
  _current_text : option pystr }.

(** [TtsEngine.__init__]; [COQUI_AVAILABLE] is False, so nothing is
    initialised here. *)
Definition new (path : pystr) : TtsEngine :=
  {| model_path := path; _is_initialized := false; _is_speaking := false;
     _current_text := None |}.

(** [TtsEngine.initialize] *)
Definition initialize (self : TtsEngine) : bool * TtsEngine :=
  (true,
   {| model_path := model_path self; _is_initialized := true;
      _is_speaking := _is_speaking self;
      _current_text := _current_text self |}).

Definition uninitialized : dict :=
  [ (lit "success", VBool false);
    (lit "error", VStr (lit "Motor TTS no inicializado")) ].

(** An optional string as a Python value. *)
Definition opt_str (o : option pystr) : value :=
  match o with Some s => VStr s | None => VNone end.

(** The text of the debug file (line 131); a missing speaker prints as
    "None". *)
Definition debug_text (text language : pystr) (speaker : option pystr)
  : pystr :=
  lit "Texto sintetizado: " ++ text ++ [10%N] ++ lit "Idioma: " ++ language
  ++ [10%N] ++ lit "Hablante: "
  ++ match speaker with Some s => s | None => lit "None" end.

(** Lines 128-133: the debug file is attempted inside its own [try]. *)
Definition write_debug_file (fs : file_system) (output_path : pystr)
    (text language : pystr) (speaker : option pystr) : list tts_event :=
  match makedirs fs (dirname output_path) with
  | Raises _ => [Makedirs (dirname output_path)]
  | Returns _ =>
      [ Makedirs (dirname output_path);
        WriteText (output_path ++ lit ".txt")
          (debug_text text language speaker) ]
  end.

(** [TtsEngine.synthesize] *)
Definition synthesize (fs : file_system) (text : pystr)
    (output_path : option pystr) (language : pystr)
    (speaker : option pystr) (self : TtsEngine)
  : dict * TtsEngine * list tts_event :=
  if negb (_is_initialized self) then (uninitialized, self, [])
  else
    let evs :=
      TtsSleep (20 * Z.of_nat (length text))
      :: match output_path with
         | Some (c :: p) => write_debug_file fs (c :: p) text language speaker
         | _ => []
         end in
    ([ (lit "success", VBool true);
       (lit "text", VStr text);
       (lit "language", VStr language);
       (lit "speaker", opt_str speaker);
       (lit "output_path", opt_str output_path) ],
     {| model_path := model_path self;
        _is_initialized := _is_initialized self;
        _is_speaking := false;
        _current_text := Some text |},
     evs).

(** [TtsEngine.speak] *)
Definition speak (text language : pystr) (speaker : option pystr)
    (rate pitch : Q) (self : TtsEngine)
  : dict * TtsEngine * list tts_event :=
  if negb (_is_initialized self) then (uninitialized, self, [])
  else
    ([ (lit "success", VBool true);
       (lit "text", VStr text);
       (lit "language", VStr language);
       (lit "speaker", opt_str speaker);
       (lit "rate", VFloat rate);
       (lit "pitch", VFloat pitch) ],
     {| model_path := model_path self;
        _is_initialized := _is_initialized self;
        _is_speaking := false;
        _current_text := Some text |},
     [TtsSleep (50 * Z.of_nat (length text))]).

(** [TtsEngine.stop] *)
Definition stop (self : TtsEngine) : bool * TtsEngine :=
  if negb (_is_speaking self) then (true, self)
  else
    (true,
     {| model_path := model_path self;
        _is_initialized := _is_initialized self;
        _is_speaking := false;
        _current_text := _current_text self |}).

(** [TtsEngine.get_current_state] *)
Definition get_current_state (self : TtsEngine) : dict :=
  [ (lit "initialized", VBool (_is_initialized self));
    (lit "speaking", VBool (_is_speaking self));
    (lit "current_text", opt_str (_current_text self));
    (lit "model_path", VStr (model_path self));
    (lit "coqui_available", VBool false) ].

(** A call on the engine, and the engine after a series of calls. *)
Inductive call : Type :=
| Initialize
| Synthesize (text : pystr) (output_path : option pystr) (language : pystr)
    (speaker : option pystr)
| Speak (text language : pystr) (speaker : option pystr) (rate pitch : Q)
| StopSpeaking.

Definition step (fs : file_system) (c : call) (self : TtsEngine)
  : TtsEngine :=
  match c with
  | Initialize => snd (initialize self)
  | Synthesize text output_path language speaker =>
      snd (fst (synthesize fs text output_path language speaker self))
  | Speak text language speaker rate pitch =>
      snd (fst (speak text language speaker rate pitch self))
  | StopSpeaking => snd (stop self)
  end.

Definition after (fs : file_system) (calls : list call) (self : TtsEngine)
  : TtsEngine :=
  fold_left (fun e c => step fs c e) calls self.

(** What every call keeps: the engine is not speaking, and has a current
    text only if it is initialised. *)
Definition idle (e : TtsEngine) : Prop :=
  _is_speaking e = false
  /\ (_current_text e <> None -> _is_initialized e = true).

End Tts.

(** ** The rest of [VoskRecognizer] (vosk_integration.py) *)

Module VoskMore.
Import Py Control Vosk.
Local Open Scope py_scope.

(** What the module has besides the libraries of [engine]: whether the
    import of vosk succeeded, the constructor [Model] and the
    recogniser's [PartialResult]. *)
Record libraries : Type := mk_libraries {
  base : engine;
  VOSK_AVAILABLE : bool;
  Model : pystr -> outcome unit;
  PartialResult : list bytes -> outcome pystr }.

(** [sys.argv] as this module evaluates it: the module does not import
    [sys] and defines no such name, so the lookup raises [NameError]. *)
Definition sys_argv : outcome (list pystr) :=
  Raises (lit "name 'sys' is not defined").

(** ["--demo" in sys.argv] *)
Definition demo_in_argv : outcome bool :=
  match sys_argv with
  | Returns argv => Returns (existsb (str_eqb (lit "--demo")) argv)
  | Raises msg => Raises msg
  end.

(** [os.path.join(a, b)] for a relative [b]. *)
Definition path_join (a b : pystr) : pystr :=
  match rev a with
  | [] => b
  | c :: _ => if (c =? 47)%N then a ++ b else a ++ [47%N] ++ b
  end.

Definition set_initialized (i : bool) : M VoskRecognizer unit :=
  fun self =>
    (Returns tt,
     {| _is_initialized := i; model := model self;
        recognizer := recognizer self; passed := passed self |}).

Definition set_model : M VoskRecognizer unit :=
  fun self =>
    (Returns tt,
     {| _is_initialized := _is_initialized self; model := true;
        recognizer := recognizer self; passed := passed self |}).

Definition set_recognizer : M VoskRecognizer unit :=
  fun self =>
    (Returns tt,
     {| _is_initialized := _is_initialized self; model := model self;
        recognizer := Some []; passed := passed self |}).

(** [VoskRecognizer.initialize] *)
Definition initialize (lb : libraries) (model_path : pystr)
  : M VoskRecognizer bool :=
  demo_mode <- lift demo_in_argv ;;
  if negb (VOSK_AVAILABLE lb) then
    if demo_mode : bool then set_initialized true ;;; ret true
    else ret false
  else if negb (path_exists (base lb) model_path) then
    if demo_mode then set_initialized true ;;; ret true
    else ret false
  else
    catch
      (if demo_mode
          || negb (path_exists (base lb) (path_join model_path (lit "model")))
       then set_initialized true ;;; ret true
       else
         lift (Model lb model_path) ;;;
         set_model ;;;
         lift (KaldiRecognizer (base lb)) ;;;
         set_recognizer ;;;
         set_initialized true ;;;
         ret true)
      (fun _ =>
         if demo_mode then set_initialized true ;;; ret true
         else set_initialized false ;;; ret false).

(** The object before [__init__] decides whether to initialise it. *)
Definition blank : VoskRecognizer :=
  {| _is_initialized := false; model := false; recognizer := None;
     passed := [] |}.

(** [VoskRecognizer.__init__]: the object, unless [initialize] raises. *)
Definition new (lb : libraries) (model_path : pystr)
  : outcome VoskRecognizer :=
  if VOSK_AVAILABLE lb && path_exists (base lb) model_path then
    match initialize lb model_path blank with
    | (Returns _, self) => Returns self
    | (Raises msg, _) => Raises msg
    end
  else Returns blank.

(** The [audio_data] argument of [process_audio_data]: [bytes], a
    [bytearray] or [memoryview], or an object with a [read] method, which
    may raise. *)
Inductive audio : Type :=
| Bytes (data : bytes)
| Buffer (data : bytes)
| Stream (read : outcome bytes).

Definition audio_bytes (a : audio) : outcome bytes :=
  match a with
  | Bytes data => Returns data
  | Buffer data => Returns data
  | Stream read => read
  end.

(** [self.recognizer.PartialResult()] *)
Definition partial_result (lb : libraries) : M VoskRecognizer pystr :=
  fun self =>
    match recognizer self with
    | Some fed => (PartialResult lb fed, self)
    | None =>
        (Raises (lit "'NoneType' object has no attribute 'PartialResult'"),
         self)
    end.

Definition recognized (text confidence : value) (partial : bool) : dict :=
  [ (lit "success", VBool true);
    (lit "text", text);
    (lit "confidence", confidence);
    (lit "partial", VBool partial) ].

(** The body of the [try] of [process_audio_data] (lines 210-265). *)
Definition data_body (lb : libraries) (audio_data : audio) (is_final : bool)
  : M VoskRecognizer dict :=
  data <- lift (audio_bytes audio_data) ;;
  if is_final then
    accept_waveform (base lb) data ;;;
    final_json <- recognizer_result (base lb) true ;;
    final <- lift (json_loads (base lb) final_json) ;;
    text <- lift (get final (lit "text") (VStr [])) ;;
    confidence <- lift (get final (lit "confidence") (VFloat 0%Q)) ;;
    ret (recognized text confidence false)
  else
    accepted <- accept_waveform (base lb) data ;;
    if accepted : bool then
      result_json <- recognizer_result (base lb) false ;;
      result <- lift (json_loads (base lb) result_json) ;;
      text <- lift (get result (lit "text") (VStr [])) ;;
      confidence <- lift (get result (lit "confidence") (VFloat 0%Q)) ;;
      ret (recognized text confidence false)
    else
      partial_json <- partial_result lb ;;
      partial <- lift (json_loads (base lb) partial_json) ;;
      text <- lift (get partial (lit "partial") (VStr [])) ;;
      ret (recognized text (VFloat 0%Q) true).

(** [VoskRecognizer.process_audio_data] *)
Definition process_audio_data (lb : libraries) (audio_data : audio)
    (is_final : bool) (self : VoskRecognizer) : dict * VoskRecognizer :=
  if negb (is_initialized self) then
    (failure (lit "Reconocedor no inicializado"), self)
  else
    match data_body lb audio_data is_final self with
    | (Returns d, self') => (d, self')
    | (Raises msg, self') => (failure msg, self')
    end.

(** [VoskRecognizer.start_streaming]; it has no [try], so an exception of
    [reset] goes to the caller. *)
Definition start_streaming (lb : libraries) : M VoskRecognizer dict :=
  fun self =>
    if negb (is_initialized self) then
      (Returns (failure (lit "Reconocedor no inicializado")), self)
    else
      (reset (base lb) ;;;
       ret [ (lit "success", VBool true);
             (lit "message", VStr (lit "Streaming iniciado")) ]) self.

(** [VoskRecognizer.stop_streaming] *)
Definition stop_streaming : dict :=
  [ (lit "success", VBool true);
    (lit "message", VStr (lit "Streaming detenido")) ].

(** A call of a method of the recogniser, and the object after a series of
    calls (an exception that reaches the caller leaves the object as the
    method left it). *)
Inductive method : Type :=
| Initialize
| Reset
| ProcessAudioFile (audio_file_path : pystr)
| ProcessAudioData (audio_data : audio) (is_final : bool)
| StartStreaming
| StopStreaming.

Definition invoke (lb : libraries) (model_path : pystr) (m : method)
    (self : VoskRecognizer) : VoskRecognizer :=
  match m with
  | Initialize => snd (initialize lb model_path self)
  | Reset => snd (reset (base lb) self)
  | ProcessAudioFile p => snd (process_audio_file (base lb) p self)
  | ProcessAudioData a f => snd (process_audio_data lb a f self)
  | StartStreaming => snd (start_streaming lb self)
  | StopStreaming => self
  end.

Definition after (lb : libraries) (model_path : pystr) (ms : list method)
    (self : VoskRecognizer) : VoskRecognizer :=
  fold_left (fun s m => invoke lb model_path m s) ms self.

(** The reads of a file that carry audio: those before the first empty
    one, which ends the loop of [process_audio_file]. *)
Fixpoint audio_chunks (rs : list bytes) : list bytes :=
  match rs with
  | [] => []
  | [] :: _ => []
  | data :: rest => data :: audio_chunks rest
  end.

(** Feeding chunks one after the other through [process_audio_data]. *)
Definition feed (lb : libraries) (chunks : list bytes)
    (self : VoskRecognizer) : VoskRecognizer :=
  fold_left (fun s c => snd (process_audio_data lb (Bytes c) false s))
    chunks self.

End VoskMore.

(** ** The rest of integration.py: the assistant's other methods and the
    functions offered to the Android application *)

Module Api.
Import Py Control Assistant.
Local Open Scope py_scope.

(** What these functions use besides [services]:
    [services.model_optimizer.get_optimal_models_config], given the events
    so far, and the list [ai_router.available_services]. *)
Record platform : Type := mk_platform {
  sv : services;
  get_optimal_models_config : list event -> outcome value;
  available_services : list pystr }.

(** The module's global [assistant] with the state of the adapter it
    created (its voice service and whether its notification channel
    exists), and the attribute [ai_router.offline_mode]. *)
Record World : Type := mk_World {
  assistant : LalaAssistant;
  voice : Core.VoiceRecognitionService;
  notification_channel_created : bool;
  offline_mode : bool }.

Definition with_assistant (a : LalaAssistant) (w : World) : World :=
  {| assistant := a; voice := voice w;
     notification_channel_created := notification_channel_created w;
     offline_mode := offline_mode w |}.

Definition set_is_active (b : bool) (self : LalaAssistant) : LalaAssistant :=
  {| user_id := user_id self; prefer_offline := prefer_offline self;
     wake_word := wake_word self; is_active := b;
     is_processing := is_processing self; last_command := last_command self;
     last_response := last_response self;
     should_stop_background := should_stop_background self;
     trace := trace self |}.

Definition set_prefer_offline (b : bool) (self : LalaAssistant)
  : LalaAssistant :=
  {| user_id := user_id self; prefer_offline := b;
     wake_word := wake_word self; is_active := is_active self;
     is_processing := is_processing self; last_command := last_command self;
     last_response := last_response self;
     should_stop_background := should_stop_background self;
     trace := trace self |}.

(** A statement on the assistant, as a statement on the world. *)
Definition on_assistant (f : LalaAssistant -> LalaAssistant)
  : M World unit :=
  fun w => (Returns tt, with_assistant (f (assistant w)) w).

(** [LalaAssistant(user_id, prefer_offline, wake_word)]: a new assistant
    with a new adapter; the constructor also sets
    [ai_router.offline_mode]. *)
Definition construct (uid : option Z) (offline : bool) (ww : pystr)
  : M World unit :=
  fun _ =>
    (Returns tt,
     {| assistant := init uid offline ww;
        voice := {| Core.voice_prefer_offline := false;
                    Core._is_listening := false;
                    Core.voice_offline_model_loaded := false |};
        notification_channel_created := false;
        offline_mode := offline |}).

(** [NotificationService.show_notification]: the channel is created if it
    does not exist yet, and the notification shown as a toast. *)
Definition show_notification (title message : pystr) : M World unit :=
  fun w =>
    (Returns tt,
     {| assistant :=
          emit (Toast (lit "Notificaci" ++ [243%N] ++ lit "n: " ++ title
                       ++ lit " - " ++ message)) (assistant w);
        voice := voice w;
        notification_channel_created := true;
        offline_mode := offline_mode w |}).

Definition models_config (pf : platform) : M World value :=
  fun w => (get_optimal_models_config pf (trace (assistant w)), w).

(** [LalaAssistant.start] *)
Definition start (pf : platform) : M World bool :=
  on_assistant (emit (Vibrate 200)) ;;;
  show_notification
    (lit "Lala est" ++ [225%N] ++ lit " activa")
    (lit "Di 'Lala' para activar el asistente") ;;;
  model_config <- models_config pf ;;
  lift (getitem model_config (lit "total_size_mb")) ;;;
  on_assistant (set_is_active true) ;;;
  ret true.

(** [LalaAssistant.set_offline_preference] *)
Definition set_offline_preference (b : bool) : M World bool :=
  fun w =>
    (Returns true,
     {| assistant :=
          emit (Toast (lit "Modo cambiado a: "
                       ++ (if b then lit "offline"
                           else lit "online cuando sea posible")))
            (set_prefer_offline b (assistant w));
        voice := voice w;
        notification_channel_created := notification_channel_created w;
        offline_mode := b |}).

(** [ai_router.available_services.count(name) > 0] *)
Definition offers (pf : platform) (name : pystr) : value :=
  VBool (existsb (str_eqb name) (available_services pf)).

(** [LalaAssistant.get_configuration] *)
Definition get_configuration (pf : platform) : M World dict :=
  device_status <-
    (fun w => (Core.get_device_status Core.AndroidBridge (voice w), w)) ;;
  model_config <- models_config pf ;;
  total_size_mb <- lift (getitem model_config (lit "total_size_mb")) ;;
  max_size_mb <- lift (getitem model_config (lit "max_size_mb")) ;;
  models <- lift (getitem model_config (lit "models")) ;;
  online_available <-
    (fun w => (is_online (sv pf) (trace (assistant w)), w)) ;;
  fun w =>
    let self := assistant w in
    (Returns
       [ (lit "wake_word", VStr (wake_word self));
         (lit "prefer_offline", VBool (prefer_offline self));
         (lit "is_active", VBool (is_active self));
         (lit "is_processing", VBool (is_processing self));
         (lit "device", VDict device_status);
         (lit "models",
          VDict [ (lit "total_size_mb", total_size_mb);
                  (lit "max_size_mb", max_size_mb);
                  (lit "models", models) ]);
         (lit "online_available", VBool online_available);
         (lit "api_services",
          VDict [ (lit "openai", offers pf (lit "openai"));
                  (lit "anthropic", offers pf (lit "anthropic"));
                  (lit "gemini", offers pf (lit "gemini"));
                  (lit "grok", offers pf (lit "grok")) ]) ],
     w).

Definition failed (msg : pystr) : dict :=
  [ (lit "success", VBool false); (lit "error", VStr msg) ].

(** [initialize_assistant] *)
Definition initialize_assistant (pf : platform) (uid : option Z)
    (offline : bool) (ww : pystr) : M World dict :=
  catch
    (construct uid offline ww ;;;
     success <- start pf ;;
     config <- get_configuration pf ;;
     ret [ (lit "success", VBool success); (lit "config", VDict config) ])
    (fun msg => ret (failed msg)).

(** The [config] argument of [update_configuration], with values of the
    types the setters declare: the entries "wake_word" and
    "prefer_offline", each present or not. *)
Record settings : Type := mk_settings {
  new_wake_word : option pystr;
  new_prefer_offline : option bool }.

(** [update_configuration]; what [set_wake_word] returns is not looked
    at. *)
Definition update_configuration (pf : platform) (config : settings)
  : M World dict :=
  catch
    ((match new_wake_word config with
      | Some w => on_assistant (fun self => snd (set_wake_word w self))
      | None => ret tt
      end) ;;;
     (match new_prefer_offline config with
      | Some b => set_offline_preference b ;;; ret tt
      | None => ret tt
      end) ;;;
     config <- get_configuration pf ;;
     ret [ (lit "success", VBool true); (lit "config", VDict config) ])
    (fun msg => ret (failed msg)).

(** The replies of the demonstration mode of [process_command]. *)
Definition demo (response : pystr) (plan : option dict) : dict :=
  [ (lit "success", VBool true);
    (lit "response", VStr response);
    (lit "model", VStr (lit "offline-demo"));
    (lit "online", VBool false) ]
  ++ match plan with Some p => [(lit "plan", VDict p)] | None => [] end.

Definition demo_reply (command_text : pystr) : dict :=
  let says kw := contains kw (lower command_text) in
  if says (lit "hola") then
    demo ([161%N] ++ lit "Hola! Soy Lala, tu asistente virtual. " ++ [191%N]
          ++ lit "En qu" ++ [233%N] ++ lit " puedo ayudarte hoy?") None
  else if says (lit "qu" ++ [233%N] ++ lit " puedes hacer")
          || says (lit "funciones") then
    demo (lit "Puedo ayudarte con muchas cosas: responder preguntas, "
          ++ lit "configurar alarmas, enviar mensajes, controlar "
          ++ lit "aplicaciones, obtener informaci" ++ [243%N]
          ++ lit "n del clima y noticias, y mucho m" ++ [225%N]
          ++ lit "s. Estoy dise" ++ [241%N]
          ++ lit "ada para funcionar incluso sin internet.") None
  else if says (lit "clima") then
    demo (lit "En Madrid el clima est" ++ [225%N]
          ++ lit " parcialmente nublado con una temperatura de 22"
          ++ [176%N] ++ lit "C. La humedad es del 65% y hay viento de "
          ++ lit "10 km/h.")
      (Some [ (lit "action", VStr (lit "get_weather"));
              (lit "location", VStr (lit "Madrid")) ])
  else if says (lit "alarma") then
    demo (lit "He configurado una alarma para las 8:00 de la ma" ++ [241%N]
          ++ lit "ana.")
      (Some [ (lit "action", VStr (lit "set_alarm"));
              (lit "time", VStr (lit "8:00 AM")) ])
  else if says (lit "mensaje") then
    demo (lit "He enviado tu mensaje a Juan por WhatsApp.")
      (Some [ (lit "action", VStr (lit "send_message"));
              (lit "app", VStr (lit "whatsapp"));
              (lit "contact", VStr (lit "Juan"));
              (lit "message",
               VStr (lit "Llegar" ++ [233%N] ++ lit " tarde")) ])
  else if says (lit "abre") || says (lit "abrir") then
    let app_name :=
      if says (lit "mapas") then lit "mapas"
      else if says (lit "youtube") then lit "youtube"
      else if says (lit "c" ++ [225%N] ++ lit "mara")
           then lit "c" ++ [225%N] ++ lit "mara"
      else lit "mapas" in
    demo (lit "Abriendo la aplicaci" ++ [243%N] ++ lit "n de " ++ app_name
          ++ lit ".")
      (Some [ (lit "action", VStr (lit "open_app"));
              (lit "app_name", VStr app_name) ])
  else
    demo (lit "Entiendo tu solicitud: '" ++ command_text
          ++ lit "'. En un dispositivo real, podr" ++ [237%N]
          ++ lit "a ejecutar esta acci" ++ [243%N]
          ++ lit "n correctamente.") None.

(** ["--demo" in sys.argv or "--offline" in sys.argv] *)
Definition demonstration (argv : list pystr) : bool :=
  existsb (str_eqb (lit "--demo")) argv
  || existsb (str_eqb (lit "--offline")) argv.

(** A method of the assistant, as a statement on the world. *)
Definition on_global {A} (c : LalaAssistant -> outcome A * LalaAssistant)
  : M World A :=
  fun w => let '(o, self) := c (assistant w) in (o, with_assistant self w).

(** The reply of the handler of [process_command] when "--demo" is on the
    command line (lines 523-529). *)
Definition simulated (command_text : pystr) : dict :=
  [ (lit "success", VBool true);
    (lit "response",
     VStr (lit "Entiendo tu solicitud: '" ++ command_text
           ++ lit "'. En un dispositivo real, podr" ++ [237%N]
           ++ lit "a ejecutar esta acci" ++ [243%N]
           ++ lit "n correctamente."));
    (lit "model", VStr (lit "offline-demo"));
    (lit "online", VBool false);
    (lit "simulated", VBool true) ].

(** [process_command]: the scripted reply, or the assistant's own; what
    the [try] raises is answered by the handler of lines 518-534, so the
    function always returns a dict. *)
Definition process_command (pf : platform) (argv : list pystr)
    (command_text : pystr) (w : World) : dict * World :=
  match
    (if demonstration argv then ret (demo_reply command_text)
     else on_global (process_text_command (sv pf) command_text true)) w
  with
  | (Returns result, w') => (result, w')
  | (Raises msg, w') =>
      (if existsb (str_eqb (lit "--demo")) argv
       then simulated command_text
       else failed msg,
       w')
  end.

(** [listen_for_command] *)
Definition listen_for_command (pf : platform) (w : World) : dict * World :=
  match on_global (process_voice_command (sv pf) 5) w with
  | (Returns result, w') => (result, w')
  | (Raises msg, w') => (failed msg, w')
  end.

End Api.

(** ** The entry point (main.py) *)

Module Main.
Import Py Control Assistant.
Local Open Scope py_scope.

(** What main.py uses from outside [android_adapter] and from the
    operating system: the directory of the module and the file system for
    [ensure_directories], the model optimiser called with a size, the NLP
    processor of [services.minilm_nlp], and what [check_requirements] asks
    about [agent_planner] and [ai_router]. *)
Record externals : Type := mk_externals {
  api : Api.platform;
  libs : VoskMore.libraries;
  vosk_model_path : pystr;
  module_dir : pystr;
  dir_exists : pystr -> bool;
  makedirs : pystr -> outcome unit;
  models_config_for : Z -> outcome value;
  nlp_has_is_initialized : bool;
  nlp_is_initialized : outcome value;
  nlp_initialize : outcome value;
  agent_planner_is_none : bool;
  ai_router_is_none : bool;
  router_has_available_services : bool }.

(** The globals main.py works on: those of integration.py, the recogniser
    of vosk_integration.py and the engine of tts_integration.py. *)
Record Globals : Type := mk_Globals {
  world : Api.World;
  vosk_recognizer : Vosk.VoskRecognizer;
  tts_engine : Tts.TtsEngine }.

(** The five directories of [ensure_directories]. *)
Definition directories (ex : externals) : list pystr :=
  let assets :=
    VoskMore.path_join (VoskMore.path_join (module_dir ex) (lit ".."))
      (lit "assets") in
  [ assets;
    VoskMore.path_join assets (lit "models");
    VoskMore.path_join assets (lit "audio");
    VoskMore.path_join assets (lit "data");
    VoskMore.path_join assets (lit "temp") ].

(** [ensure_directories]: the directories it made, unless making one
    raises. *)
Fixpoint ensure (ex : externals) (ds : list pystr) : outcome (list pystr) :=
  match ds with
  | [] => Returns []
  | d :: rest =>
      if dir_exists ex d then ensure ex rest
      else
        match makedirs ex d with
        | Raises msg => Raises msg
        | Returns _ =>
            match ensure ex rest with
            | Raises msg => Raises msg
            | Returns made => Returns (d :: made)
            end
        end
  end.

Definition ensure_directories (ex : externals) : outcome (list pystr) :=
  ensure ex (directories ex).

(** The state of [initialize_components]: the globals and its local dict
    [results], which keeps what was entered before an exception. *)
Record frame : Type := mk_frame {
  globals : Globals;
  results : dict }.

(** [results[key] = v] *)
Definition enter (key : pystr) (v : value) : M frame unit :=
  fun f =>
    (Returns tt,
     {| globals := globals f; results := setitem key v (results f) |}).

Definition on_vosk {A} (c : M Vosk.VoskRecognizer A) : M frame A :=
  fun f =>
    let '(o, v) := c (vosk_recognizer (globals f)) in
    (o, {| globals := {| world := world (globals f);
                         vosk_recognizer := v;
                         tts_engine := tts_engine (globals f) |};
           results := results f |}).

Definition set_offline_mode (b : bool) : M frame unit :=
  fun f =>
    let g := globals f in
    (Returns tt,
     {| globals :=
          {| world :=
               {| Api.assistant := Api.assistant (world g);
                  Api.voice := Api.voice (world g);
                  Api.notification_channel_created :=
                    Api.notification_channel_created (world g);
                  Api.offline_mode := b |};
             vosk_recognizer := vosk_recognizer g;
             tts_engine := tts_engine g |};
        results := results f |}).

Definition tts_initialize : M frame bool :=
  fun f =>
    let g := globals f in
    let '(r, e) := Tts.initialize (tts_engine g) in
    (Returns r,
     {| globals := {| world := world g;
                      vosk_recognizer := vosk_recognizer g;
                      tts_engine := e |};
        results := results f |}).

(** The body of the [try] of [initialize_components] (lines 91-123). *)
Definition components_body (ex : externals) (model_size_mb : Z)
    (prefer_offline : bool) : M frame unit :=
  lift (ensure_directories ex) ;;;
  model_config <- lift (models_config_for ex model_size_mb) ;;
  enter (lit "model_config") model_config ;;;
  nlp_ready <- lift (nlp_is_initialized ex) ;;
  (if negb (truthy nlp_ready) then
     nlp_initialized <- lift (nlp_initialize ex) ;;
     enter (lit "nlp_initialized") nlp_initialized
   else enter (lit "nlp_initialized") (VBool true)) ;;;
  vosk_ready <-
    (fun f => (Returns (Vosk.is_initialized (vosk_recognizer (globals f))),
               f)) ;;
  (if negb vosk_ready then
     vosk_initialized <-
       on_vosk (VoskMore.initialize (libs ex) (vosk_model_path ex)) ;;
     enter (lit "vosk_initialized") (VBool vosk_initialized)
   else enter (lit "vosk_initialized") (VBool true)) ;;;
  tts_ready <-
    (fun f => (Returns (Tts._is_initialized (tts_engine (globals f))), f)) ;;
  (if negb tts_ready then
     tts_initialized <- tts_initialize ;;
     enter (lit "tts_initialized") (VBool tts_initialized)
   else enter (lit "tts_initialized") (VBool true)) ;;;
  set_offline_mode prefer_offline ;;;
  enter (lit "offline_mode") (VBool prefer_offline).

(** [initialize_components] *)
Definition initialize_components (ex : externals) (model_size_mb : Z)
    (prefer_offline : bool) (g : Globals) : dict * Globals :=
  let '(_, f) :=
    catch (components_body ex model_size_mb prefer_offline)
      (fun msg => enter (lit "error") (VStr msg))
      {| globals := g; results := [] |} in
  (results f, globals f).

(** [name in ai_router.available_services if hasattr(ai_router,
    "available_services") else False] *)
Definition service_available (ex : externals) (name : pystr) : value :=
  if router_has_available_services ex then Api.offers (api ex) name
  else VBool false.

(** [check_requirements] *)
Definition check_requirements (ex : externals) (g : Globals)
  : outcome dict :=
  match (if nlp_has_is_initialized ex then nlp_is_initialized ex
         else Returns (VBool false)) with
  | Raises msg => Raises msg
  | Returns nlp_available =>
      Returns
        [ (lit "vosk_available",
           VBool (Vosk.is_initialized (vosk_recognizer g)));
          (lit "tts_available",
           VBool (Tts._is_initialized (tts_engine g)));
          (lit "nlp_available", nlp_available);
          (lit "agent_planner_available",
           VBool (negb (agent_planner_is_none ex)));
          (lit "ai_router_available", VBool (negb (ai_router_is_none ex)));
          (lit "openai_available", service_available ex (lit "openai"));
          (lit "anthropic_available",
           service_available ex (lit "anthropic"));
          (lit "gemini_available", service_available ex (lit "gemini"));
          (lit "grok_available", service_available ex (lit "grok")) ]
  end.

(** The parsed command line. *)
Record arguments : Type := mk_arguments {
  offline : bool;
  model_size : Z;
  debug : bool;
  arg_user_id : option Z;
  arg_wake_word : pystr }.

Definition with_world (w : Api.World) (g : Globals) : Globals :=
  {| world := w; vosk_recognizer := vosk_recognizer g;
     tts_engine := tts_engine g |}.

(** [main(args)] for parsed arguments: the exit code. *)
Definition main (ex : externals) (args : arguments) (g : Globals)
  : Z * Globals :=
  let '(init_results, g) :=
    initialize_components ex (model_size args) (offline args) g in
  if has_key (lit "error") init_results then (1%Z, g)
  else
    match check_requirements ex g with
    | Raises _ => (1%Z, g)
    | Returns _ =>
        let '(o, w) :=
          Api.initialize_assistant (api ex) (arg_user_id args) (offline args)
            (arg_wake_word args) (world g) in
        match o with
        | Raises _ => (1%Z, with_world w g)
        | Returns assistant_init =>
            if negb (truthy (dict_get (lit "success") (VBool false)
                               assistant_init))
            then (1%Z, with_world w g)
            else (0%Z, with_world w g)
        end
    end.

End Main.

(** ** More sample collaborators *)

Module MoreSamples.
Import Py Assistant.

(** A platform whose model optimiser answers in full. *)
Definition pf_sample : Api.platform :=
  {| Api.sv := Samples.sv_hearing [];
     Api.get_optimal_models_config := fun _ =>
       Returns (VDict [ (lit "total_size_mb", VInt 300);
                        (lit "max_size_mb", VInt 350);
                        (lit "models", VList []) ]);
     Api.available_services := [lit "openai"] |}.

(** One whose model optimiser leaves out "max_size_mb". *)
Definition pf_partial : Api.platform :=
  {| Api.sv := Samples.sv_hearing [];
     Api.get_optimal_models_config := fun _ =>
       Returns (VDict [ (lit "total_size_mb", VInt 300) ]);
     Api.available_services := [] |}.

(** The world as the module creates it: [assistant = LalaAssistant()]. *)
Definition world0 : Api.World :=
  {| Api.assistant := Samples.lala;
     Api.voice := {| Core.voice_prefer_offline := false;
                     Core._is_listening := false;
                     Core.voice_offline_model_loaded := false |};
     Api.notification_channel_created := false;
     Api.offline_mode := false |}.

(** A device of SDK level 28 that grants nothing it is asked for. *)
Definition old_bridge : Core.bridge :=
  {| Core.check_permission := fun _ => false;
     Core.request_permission := fun _ => false;
     Core.get_device_info := VDict [ (lit "sdk_level", VInt 28) ] |}.

(** Libraries for an initialised recogniser. *)
Definition libs_sample : VoskMore.libraries :=
  {| VoskMore.base := Samples.engine_sample;
     VoskMore.VOSK_AVAILABLE := true;
     VoskMore.Model := fun _ => Returns tt;
     VoskMore.PartialResult := fun _ => Returns (lit "partial") |}.

(** Externals under which every step that can work does. *)
Definition ex_sample : Main.externals :=
  {| Main.api := pf_sample;
     Main.libs := libs_sample;
     Main.vosk_model_path := lit "assets/models/vosk";
     Main.module_dir := lit "android_adapter";
     Main.dir_exists := fun _ => true;
     Main.makedirs := fun _ => Returns tt;
     Main.models_config_for := fun _ => Returns (VDict []);
     Main.nlp_has_is_initialized := true;
     Main.nlp_is_initialized := Returns (VBool true);
     Main.nlp_initialize := Returns (VBool true);
     Main.agent_planner_is_none := false;
     Main.ai_router_is_none := false;
     Main.router_has_available_services := true |}.

(** The globals as the modules create them. *)
Definition globals0 : Main.Globals :=
  {| Main.world := world0;
     Main.vosk_recognizer := VoskMore.blank;
     Main.tts_engine := Tts.new (lit "assets/models/tts-vits-es") |}.

End MoreSamples.

(** ** Facts about the string operations *)

Module PyFacts.
Import Py.

Lemma str_eqb_eq a b : str_eqb a b = true <-> a = b.
Proof.
  revert b. induction a as [|x a IH]; intros [|y b]; cbn; split;
    try discriminate; try reflexivity.
  - intros H. apply andb_true_iff in H. destruct H as [E H].
    apply N.eqb_eq in E. apply IH in H. congruence.
  - intros H. inversion H; subst. rewrite N.eqb_refl. apply IH. reflexivity.
Qed.

Lemma startswith_app sub t : startswith sub (sub ++ t) = true.
Proof.
  induction sub as [|x sub IH]; cbn; [reflexivity|].
  rewrite N.eqb_refl. exact IH.
Qed.

Lemma startswith_inv sub s :
  startswith sub s = true -> s = sub ++ skipn (length sub) s.
Proof.
  revert s. induction sub as [|x sub IH]; intros s H; [reflexivity|].
  destruct s as [|y s]; [discriminate|]. cbn in H.
  apply andb_true_iff in H. destruct H as [E H].
  apply N.eqb_eq in E. subst y. cbn. f_equal. apply IH, H.
Qed.

(** [find_opt] returns the position of an occurrence, *)
Lemma find_opt_occurrence sub s i :
  find_opt sub s = Some i ->
  s = firstn i s ++ sub ++ skipn (i + length sub) s.
Proof.
  revert i. induction s as [|c s IH]; intros i H.
  - cbn in H. destruct (startswith sub []) eqn:E; [|discriminate].
    inversion H; subst. apply startswith_inv in E. exact E.
  - cbn [find_opt] in H. destruct (startswith sub (c :: s)) eqn:E.
    + inversion H; subst. apply startswith_inv in E. exact E.
    + destruct (find_opt sub s) as [j|] eqn:F; [|discriminate].
      cbn in H. inversion H; subst. cbn. f_equal. apply IH. reflexivity.
Qed.

Lemma find_opt_bound sub s i :
  find_opt sub s = Some i -> i + length sub <= length s.
Proof.
  revert i. induction s as [|c s IH]; intros i H; cbn [find_opt] in H.
  - destruct (startswith sub []) eqn:E; [|discriminate].
    inversion H; subst. apply startswith_inv in E.
    apply (f_equal (@length N)) in E. rewrite length_app in E. lia.
  - destruct (startswith sub (c :: s)) eqn:E.
    + inversion H; subst. apply startswith_inv in E.
      apply (f_equal (@length N)) in E. rewrite length_app in E. lia.
    + destruct (find_opt sub s) as [j|]; [|discriminate].
      inversion H; subst. specialize (IH j eq_refl). cbn. lia.
Qed.

(** and of the first one. *)
Lemma find_opt_first sub a b :
  exists i, find_opt sub (a ++ sub ++ b) = Some i /\ i <= length a.
Proof.
  induction a as [|c a (i & F & L)].
  - exists 0. cbn [app]. split; [|cbn; lia].
    destruct (sub ++ b) eqn:E; cbn [find_opt]; rewrite <- ?E;
      rewrite startswith_app; reflexivity.
  - cbn [app find_opt].
    destruct (startswith sub (c :: a ++ sub ++ b)).
    + exists 0. split; [reflexivity | lia].
    + exists (S i). rewrite F. split; [reflexivity | cbn; lia].
Qed.

(** Lower-casing a positional string is lower-casing each of its code
    points, whatever stands before and after it. *)
Lemma lower_from_positional before u :
  positional u -> lower_from before u = flat_map lower_cp u.
Proof.
  intros H. revert before.
  induction H as [|c u [_ S] _ IH]; intros before; [reflexivity|].
  cbn [lower_from flat_map]. apply N.eqb_neq in S. rewrite S.
  f_equal. apply IH.
Qed.

Lemma lower_positional u : positional u -> lower u = flat_map lower_cp u.
Proof. apply lower_from_positional. Qed.

(** What follows a positional string does not change its lower-casing. *)
Lemma lower_from_app before a b :
  positional a ->
  lower_from before (a ++ b) = lower a ++ lower_from (rev a ++ before) b.
Proof.
  intros H. rewrite (lower_positional a H). revert before.
  induction H as [|c a [_ S] _ IH]; intros before; [reflexivity|].
  cbn [app lower_from flat_map rev]. apply N.eqb_neq in S. rewrite S.
  rewrite <- !app_assoc. f_equal. rewrite IH. cbn [app]. reflexivity.
Qed.

Lemma positional_app a b :
  positional (a ++ b) <-> positional a /\ positional b.
Proof. apply Forall_app. Qed.

Lemma lower_app a b :
  positional (a ++ b) -> lower (a ++ b) = lower a ++ lower b.
Proof.
  intros H. apply positional_app in H. destruct H as (A & B).
  unfold lower at 1. rewrite (lower_from_app [] a b A). f_equal.
  rewrite (lower_from_positional _ b B), (lower_positional b B). reflexivity.
Qed.

Lemma lower_cp_length c : c <> 304%N -> length (lower_cp c) = 1.
Proof.
  intros H. unfold lower_cp. apply N.eqb_neq in H. rewrite H. reflexivity.
Qed.

Lemma lower_length u : positional u -> length (lower u) = length u.
Proof.
  intros H. rewrite (lower_positional u H).
  induction H as [|c u [D _] _ IH]; [reflexivity|].
  cbn [flat_map]. rewrite length_app, (lower_cp_length c D), IH. reflexivity.
Qed.

Lemma positional_firstn k u : positional u -> positional (firstn k u).
Proof.
  intros H. rewrite <- (firstn_skipn k u) in H.
  apply positional_app in H. tauto.
Qed.

Lemma positional_skipn k u : positional u -> positional (skipn k u).
Proof.
  intros H. rewrite <- (firstn_skipn k u) in H.
  apply positional_app in H. tauto.
Qed.

Lemma lower_firstn u k :
  positional u -> lower (firstn k u) = firstn k (lower u).
Proof.
  intros H.
  rewrite (lower_positional _ (positional_firstn k u H)),
    (lower_positional u H).
  revert k. induction H as [|c u [D _] _ IH]; intros k.
  - rewrite !firstn_nil. reflexivity.
  - destruct k as [|k]; [reflexivity|].
    cbn [firstn flat_map]. pose proof (lower_cp_length c D) as L.
    destruct (lower_cp c) as [|x [|y l]]; try discriminate.
    cbn [app firstn]. f_equal. apply IH.
Qed.

Lemma lower_skipn u k :
  positional u -> lower (skipn k u) = skipn k (lower u).
Proof.
  intros H.
  rewrite (lower_positional _ (positional_skipn k u H)),
    (lower_positional u H).
  revert k. induction H as [|c u [D _] _ IH]; intros k.
  - rewrite !skipn_nil. reflexivity.
  - destruct k as [|k]; [reflexivity|].
    cbn [skipn flat_map]. pose proof (lower_cp_length c D) as L.
    destruct (lower_cp c) as [|x [|y l]]; try discriminate.
    cbn [app skipn]. apply IH.
Qed.

(** Lower-casing beyond Latin-1: U+042F, U+03A9 and U+0178, whose
    lower-case form U+00FF precedes it. *)
Example lower_beyond_latin_1 :
  lower [1071%N; 937%N; 376%N] = [1103%N; 969%N; 255%N].
Proof. vm_compute. reflexivity. Qed.

(** The two ways in which [str.lower()] is not positional. *)
Example lower_dotted_capital_i : lower [304%N] = [105%N; 775%N].
Proof. vm_compute. reflexivity. Qed.

Example lower_final_sigma :
  lower [97%N; 931%N] = [97%N; 962%N]
  /\ lower [97%N; 931%N; 98%N] = [97%N; 963%N; 98%N].
Proof. split; vm_compute; reflexivity. Qed.




Lemma find_opt_prefix sub t : find_opt sub (sub ++ t) = Some 0.
Proof.
  destruct (sub ++ t) eqn:E; cbn [find_opt]; rewrite <- ?E;
    rewrite startswith_app; reflexivity.
Qed.


(** A sequence of statements that returns has run both of its parts. *)
Lemma bind_returns {S A B} (c : M S A) (k : A -> M S B) self b self' :
  bind c k self = (Returns b, self') ->
  exists a self1, c self = (Returns a, self1) /\ k a self1 = (Returns b, self').
Proof.
  unfold bind. destruct (c self) as [[a|msg] self1]; [|discriminate].
  intros H. exists a, self1. auto.
Qed.

Lemma lift_returns {S A} (o : outcome A) (self : S) a self' :
  lift o self = (Returns a, self') -> o = Returns a /\ self' = self.
Proof. unfold lift. intros H. inversion H. auto. Qed.

Lemma ret_returns {S A} (x : A) (self : S) a self' :
  ret x self = (Returns a, self') -> a = x /\ self' = self.
Proof. unfold ret. intros H. inversion H. auto. Qed.

End PyFacts.

Module AssistantProofs.
Import Py PyFacts Assistant Samples.
Local Open Scope py_scope.

Ltac case_step :=
  match goal with
  | H : (_, _) = (_, _) |- _ => inversion H; subst; clear H
  | H : context [match ?x with _ => _ end] |- _ => destruct x eqn:?
  end.

Lemma try_body_inv sv cmd wait online self o self' :
  try_body sv cmd wait online self = (o, self') ->
  same_fields self self'
  /\ (exists evs,
        trace self' = trace self ++ PlannerCall cmd (user_id self) :: evs
        /\ callbacks evs = [] /\ planner_commands evs = [])
  /\ match o with
     | Returns result =>
         last_response self' = Some result
         /\ exists response_text plan model,
              result = [ (lit "success", VBool true);
                         (lit "response", response_text);
                         (lit "plan", plan);
                         (lit "model", model);
                         (lit "online", VBool online) ]
     | Raises _ => last_response self' = last_response self
     end.
Proof.
  unfold try_body, bind, call, lift, perform, ret, same_fields.
  intros H.
  repeat case_step; cbn [user_id prefer_offline wake_word is_active is_processing last_command last_response should_stop_background trace emit set_last_response];
    (split; [tauto|]);
    (split; [eexists; rewrite <- ?app_assoc; cbn [app]; split; [reflexivity| split; reflexivity] |]);
    try reflexivity; (split; [reflexivity | do 3 eexists; reflexivity]).
Qed.

(** [process_text_command] when the connectivity check raises: only the
    state update of lines 138-139 has been made. *)
Lemma process_text_command_obj_unchecked sv cmd wait self msg :
  is_online sv (trace self) = Raises msg ->
  process_text_command_obj sv cmd wait self
  = (Raises msg, begin_processing cmd self).
Proof.
  intros H. unfold process_text_command_obj.
  change (trace (begin_processing cmd self)) with (trace self).
  rewrite H. reflexivity.
Qed.

(** [process_text_command] when the connectivity check returns: the [try]
    with its handler, and the reset of [is_processing]. *)
Lemma process_text_command_obj_checked sv cmd wait self online :
  is_online sv (trace self) = Returns online ->
  process_text_command_obj sv cmd wait self
  = match try_body sv cmd wait (online && negb (prefer_offline self))
            (begin_processing cmd self) with
    | (Returns result, self') =>
        (Returns (result, true), set_is_processing false self')
    | (Raises msg, self') =>
        (Returns (error_result msg, false), set_is_processing false self')
    end.
Proof.
  intros H. unfold process_text_command_obj.
  change (trace (begin_processing cmd self)) with (trace self).
  rewrite H.
  change (prefer_offline (begin_processing cmd self))
    with (prefer_offline self).
  destruct (try_body sv cmd wait (online && negb (prefer_offline self))
              (begin_processing cmd self)) as [[r|m] s]; reflexivity.
Qed.

Lemma process_text_command_obj_inv sv cmd wait self o self' :
  process_text_command_obj sv cmd wait self = (o, self') ->
  user_id self' = user_id self /\ prefer_offline self' = prefer_offline self
  /\ wake_word self' = wake_word self /\ is_active self' = is_active self
  /\ should_stop_background self' = should_stop_background self
  /\ last_command self' = Some cmd
  /\ match o with
     | Raises msg =>
         is_online sv (trace self) = Raises msg
         /\ is_processing self' = true
         /\ last_response self' = last_response self
         /\ trace self' = trace self
     | Returns (result, stored) =>
         is_processing self' = false
         /\ (exists online evs,
               is_online sv (trace self) = Returns online
               /\ trace self'
                  = trace self ++ PlannerCall cmd (user_id self) :: evs
               /\ callbacks evs = [] /\ planner_commands evs = [])
         /\ (if stored : bool
             then last_response self' = Some result
                  /\ exists response_text plan model online,
                       result = [ (lit "success", VBool true);
                                  (lit "response", response_text);
                                  (lit "plan", plan);
                                  (lit "model", model);
                                  (lit "online", VBool online) ]
             else last_response self' = last_response self
                  /\ exists msg, result = error_result msg)
     end.
Proof.
  destruct (is_online sv (trace self)) as [online|msg] eqn:O.
  - rewrite (process_text_command_obj_checked _ _ _ _ _ O).
    destruct (try_body sv cmd wait (online && negb (prefer_offline self))
                (begin_processing cmd self)) as [o1 s1] eqn:E.
    apply try_body_inv in E.
    destruct E as ((U & P & W & A & I & L & S) & (evs & T & C & Pl) & R).
    cbn in U, P, W, A, I, L, S, T, R.
    destruct o1 as [result|msg]; intros H; inversion H; subst; clear H;
      cbn [user_id prefer_offline wake_word is_active is_processing
           last_command last_response should_stop_background trace
           set_is_processing];
      repeat (split; [assumption || reflexivity|]).
    + split; [exists online, evs; auto|].
      destruct R as (R1 & rt & plan & model & R2).
      split; [assumption|]. exists rt, plan, model. eexists. exact R2.
    + split; [exists online, evs; auto|].
      split; [assumption | eexists; reflexivity].
  - rewrite (process_text_command_obj_unchecked _ _ _ _ _ O).
    intros H; inversion H; subst; clear H. cbn. auto 10.
Qed.

(** [process_text_command] is [process_text_command_obj] without the mark
    of the stored dict. *)
Lemma process_text_command_obj_fst sv cmd wait self :
  process_text_command sv cmd wait self
  = match process_text_command_obj sv cmd wait self with
    | (Returns (result, _), self') => (Returns result, self')
    | (Raises msg, self') => (Raises msg, self')
    end.
Proof. reflexivity. Qed.



(** C7. When the [try] body of [process_text_command] raises, the method
    catches the exception and returns: the dict it returns has "success"
    False and carries the exception message under "error". The [try] body
    is entered once the connectivity check of line 142 has returned. *)
Theorem process_text_command_catches sv command_text wait self online msg :
  is_online sv (trace self) = Returns online ->
  fst (try_body sv command_text wait (online && negb (prefer_offline self))
         (begin_processing command_text self))
  = Raises msg ->
  exists result,
    fst (process_text_command sv command_text wait self) = Returns result
    /\ lookup (lit "success") result = Some (VBool false)
    /\ lookup (lit "error") result = Some (VStr msg).
Proof.
  intros O E.
  rewrite process_text_command_obj_fst,
    (process_text_command_obj_checked _ _ _ _ _ O).
  destruct (try_body sv command_text wait
              (online && negb (prefer_offline self))
              (begin_processing command_text self)) as [o s].
  cbn [fst] in E. subst o. cbn [fst].
  eexists. split; [reflexivity|]. split; reflexivity.
Qed.



(** C3. [set_wake_word] rejects an empty or one-character word, returning
    False and leaving [wake_word] as it was; it accepts any longer word,
    returning True with [wake_word] equal to it. *)
Theorem set_wake_word_spec w self :
  ((w = [] \/ length w < 2) ->
   fst (set_wake_word w self) = false
   /\ wake_word (snd (set_wake_word w self)) = wake_word self)
  /\ (2 <= length w ->
      fst (set_wake_word w self) = true
      /\ wake_word (snd (set_wake_word w self)) = w).
Proof.
  unfold set_wake_word. split.
  - intros H.
    assert (L : (length w <? 2) = true).
    { apply Nat.ltb_lt. destruct H as [-> | H]; [cbn; lia | exact H]. }
    rewrite L, orb_true_r. split; reflexivity.
  - intros H.
    assert (L : (length w <? 2) = false) by (apply Nat.ltb_ge; exact H).
    rewrite L. destruct w as [|c w]; [cbn in H; lia|].
    split; reflexivity.
Qed.


Lemma callbacks_app t1 t2 : callbacks (t1 ++ t2) = callbacks t1 ++ callbacks t2.
Proof. apply flat_map_app. Qed.

Lemma planner_commands_app t1 t2 :
  planner_commands (t1 ++ t2) = planner_commands t1 ++ planner_commands t2.
Proof. apply flat_map_app. Qed.

(** [process_voice_command] when nothing was heard. *)
Lemma process_voice_command_empty sv max self :
  recognize_once sv (trace self ++ listening) max = [] ->
  process_voice_command sv max self
  = (Returns [ (lit "success", VBool false);
               (lit "response", VStr msg_no_voice);
               (lit "recognized_text", VStr []) ],
     emit (Recognize max)
       (emit (Toast (lit "Escuchando...")) (emit (Vibrate 100) self))).
Proof.
  intros Hu. unfold process_voice_command. cbn [trace emit].
  unfold listening in Hu. rewrite <- app_assoc. cbn [app]. rewrite Hu.
  reflexivity.
Qed.

(** [process_voice_command] with a non-empty utterance [u], from what
    [process_text_command] does with the command taken from it. *)
Lemma process_voice_command_heard sv max self u o self' :
  recognize_once sv (trace self ++ listening) max = u ->
  u <> [] ->
  process_text_command_obj sv (extract_command (wake_word self) u) true
    (emit (Recognize max)
       (emit (Toast (lit "Escuchando...")) (emit (Vibrate 100) self)))
  = (o, self') ->
  process_voice_command sv max self
  = match o with
    | Raises msg => (Raises msg, self')
    | Returns (result, stored) =>
        (Returns (setitem (lit "recognized_text") (VStr u) result),
         if stored
         then set_last_response
                (Some (setitem (lit "recognized_text") (VStr u) result))
                self'
         else self')
    end.
Proof.
  intros Hu Hne E. unfold process_voice_command. cbn [trace emit].
  unfold listening in Hu. rewrite <- app_assoc. cbn [app]. rewrite Hu.
  destruct u as [|c u]; [congruence|].
  cbn [wake_word emit]. cbn [wake_word emit] in E. rewrite E.
  destruct o as [[result stored]|msg]; reflexivity.
Qed.

(** What a voice command with a non-empty utterance [u] leaves behind. *)
Lemma process_voice_command_inv sv max self u :
  recognize_once sv (trace self ++ listening) max = u ->
  u <> [] ->
  last_command (snd (process_voice_command sv max self))
  = Some (extract_command (wake_word self) u)
  /\ should_stop_background (snd (process_voice_command sv max self))
     = should_stop_background self
  /\ wake_word (snd (process_voice_command sv max self)) = wake_word self
  /\ match fst (process_voice_command sv max self) with
     | Raises msg =>
         is_online sv (trace self ++ listening ++ [Recognize max])
         = Raises msg
         /\ is_processing (snd (process_voice_command sv max self)) = true
         /\ last_response (snd (process_voice_command sv max self))
            = last_response self
         /\ trace (snd (process_voice_command sv max self))
            = trace self ++ listening ++ [Recognize max]
     | Returns result =>
         is_processing (snd (process_voice_command sv max self)) = false
         /\ lookup (lit "recognized_text") result = Some (VStr u)
         /\ (exists b, lookup (lit "success") result = Some (VBool b))
         /\ match lookup (lit "success") result with
            | Some (VBool true) =>
                last_response (snd (process_voice_command sv max self))
                = Some result
            | _ =>
                last_response (snd (process_voice_command sv max self))
                = last_response self
            end
         /\ exists online evs,
              is_online sv (trace self ++ listening ++ [Recognize max])
              = Returns online
              /\ trace (snd (process_voice_command sv max self))
                 = trace self ++ listening
                   ++ Recognize max
                      :: PlannerCall (extract_command (wake_word self) u)
                           (user_id self)
                      :: evs
              /\ callbacks evs = [] /\ planner_commands evs = []
     end.
Proof.
  intros Hu Hne.
  destruct (process_text_command_obj sv (extract_command (wake_word self) u)
              true
              (emit (Recognize max)
                 (emit (Toast (lit "Escuchando...")) (emit (Vibrate 100) self))))
    as [o s1] eqn:E.
  rewrite (process_voice_command_heard _ _ _ _ _ _ Hu Hne E).
  apply process_text_command_obj_inv in E.
  destruct E as (_ & _ & W & _ & S & L & R).
  cbn [wake_word should_stop_background emit last_response trace user_id]
    in W, S, R.
  assert (T0 : ((trace self ++ [Vibrate 100]) ++ [Toast (lit "Escuchando...")])
               ++ [Recognize max]
               = trace self ++ listening ++ [Recognize max]).
  { unfold listening. rewrite <- !app_assoc. reflexivity. }
  rewrite T0 in R.
  destruct o as [[result stored]|msg]; cbn [fst snd].
  - destruct R as (P & (online & evs & O & T & C & Pl) & R).
    destruct stored.
    + destruct R as (_ & rt & plan & model & on & ->).
      cbn [last_command should_stop_background wake_word is_processing
           last_response trace set_last_response].
      repeat (split; [assumption || reflexivity|]).
      split; [exists true; reflexivity|].
      split; [reflexivity|].
      exists online, evs. split; [exact O|]. split; [|auto].
      rewrite T, <- !app_assoc. reflexivity.
    + destruct R as (LR & msg & ->).
      repeat (split; [assumption || reflexivity|]).
      split; [exists false; reflexivity|].
      split; [exact LR|].
      exists online, evs. split; [exact O|]. split; [|auto].
      rewrite T, <- !app_assoc. reflexivity.
  - destruct R as (O & P & LR & T). auto 10.
Qed.

(** C9. When the recogniser returns the empty string,
    [process_voice_command] returns "success" False, "recognized_text"
    empty and a non-empty "response"; it does not go on to
    [process_text_command]: the fields of the assistant are as before and
    the only events are the vibration, the toast and the recognition. *)
Theorem process_voice_command_silence sv max self :
  recognize_once sv (trace self ++ listening) max = [] ->
  exists result,
    fst (process_voice_command sv max self) = Returns result
    /\ lookup (lit "success") result = Some (VBool false)
    /\ lookup (lit "recognized_text") result = Some (VStr [])
    /\ (exists response,
          lookup (lit "response") result = Some (VStr response)
          /\ response <> [])
    /\ last_command (snd (process_voice_command sv max self))
       = last_command self
    /\ last_response (snd (process_voice_command sv max self))
       = last_response self
    /\ is_processing (snd (process_voice_command sv max self))
       = is_processing self
    /\ trace (snd (process_voice_command sv max self))
       = trace self ++ listening ++ [Recognize max].
Proof.
  intros Hu. rewrite (process_voice_command_empty _ _ _ Hu).
  cbn [fst snd last_command last_response is_processing trace emit].
  eexists. split; [reflexivity|].
  repeat split; try reflexivity.
  - exists msg_no_voice. split; [reflexivity | discriminate].
  - unfold listening. rewrite <- !app_assoc. reflexivity.
Qed.

Lemma find_nonneg s sub : contains sub s = true -> (0 <= find s sub)%Z.
Proof.
  unfold contains, find. destruct (find_opt sub s); [lia | discriminate].
Qed.

(** The command taken from an utterance, by the first place at which the
    lower-cased wake word occurs in the lower-cased utterance. *)
Lemma extract_command_cases w u :
  match find_opt (lower w) (lower u) with
  | Some i =>
      extract_command w u = strip (skipn (i + length (lower w)) u)
  | None => extract_command w u = u
  end.
Proof.
  unfold extract_command, contains, find, slice_from.
  destruct (find_opt (lower w) (lower u)) as [i|]; [|reflexivity].
  assert (X : (Z.of_nat i + Z.of_nat (length (lower w)) <? 0)%Z = false)
    by (apply Z.ltb_ge; lia).
  rewrite X. f_equal. f_equal. lia.
Qed.


(** What a pass through [process_voice_command] adds to the events:
    no call of the listener's callback. *)
Lemma process_voice_command_events sv max self :
  exists evs,
    trace (snd (process_voice_command sv max self)) = trace self ++ evs
    /\ callbacks evs = []
    /\ match fst (process_voice_command sv max self) with
       | Returns result =>
           exists b, lookup (lit "success") result = Some (VBool b)
       | Raises _ => True
       end.
Proof.
  destruct (recognize_once sv (trace self ++ listening) max) as [|c u] eqn:Hu.
  - rewrite (process_voice_command_empty _ _ _ Hu). cbn [fst snd trace emit].
    eexists. split; [rewrite <- !app_assoc; reflexivity|].
    split; [reflexivity|]. exists false. reflexivity.
  - assert (Hne : c :: u <> []) by discriminate.
    destruct (process_voice_command_inv sv max self _ Hu Hne)
      as (_ & _ & _ & R).
    destruct (fst (process_voice_command sv max self)) as [result|msg].
    + destruct R as (_ & _ & S & _ & on & evs & _ & T & C & _).
      eexists. split; [exact T|]. split; [|exact S].
      unfold callbacks in *. cbn [flat_map listening app]. exact C.
    + destruct R as (_ & _ & _ & T).
      eexists. split; [exact T|]. split; [reflexivity | exact I].
Qed.

(** C6. Every pass of the background loop starts with a wait of two
    seconds. A pass made while [is_processing] or
    [should_stop_background] is set does nothing else. Any other pass runs
    [process_voice_command]; when that returns a result, the callback is
    called exactly when one was supplied and the result's "success" is
    true, and then once, with that result, after which the pass ends with
    nothing but the wait of one second that answers a callback that
    raises; when "success" is false or missing no callback is called. When
    [process_voice_command] raises, the pass calls no callback and waits
    one second. *)
Theorem loop_body_callback sv cb self :
  (exists evs,
     trace (snd (loop_body sv cb self)) = trace self ++ Sleep 2000 :: evs)
  /\ if is_processing self || should_stop_background self
     then loop_body sv cb self = (None, emit (Sleep 2000) self)
     else
       match process_voice_command sv 5 (emit (Sleep 2000) self) with
       | (Returns result, heard) =>
           fst (loop_body sv cb self) = Some result
           /\ callbacks (trace (snd (loop_body sv cb self)))
              = callbacks (trace self)
                ++ (if match cb with Some _ => true | None => false end
                       && truthy (dict_get (lit "success") (VBool false)
                                    result)
                    then [result] else [])
           /\ exists evs,
                trace (snd (loop_body sv cb self)) = trace heard ++ evs
                /\ (evs = [] \/ evs = [Callback result]
                    \/ evs = [Callback result; Sleep 1000])
       | (Raises _, heard) =>
           loop_body sv cb self = (None, emit (Sleep 1000) heard)
           /\ callbacks (trace heard) = callbacks (trace self)
       end.
Proof.
  unfold loop_body. cbn [is_processing should_stop_background emit].
  rewrite <- negb_orb.
  destruct (is_processing self || should_stop_background self); cbn [negb].
  { split; [exists []; reflexivity | reflexivity]. }
  destruct (process_voice_command_events sv 5 (emit (Sleep 2000) self))
    as (evs & T & C & _).
  destruct (process_voice_command sv 5 (emit (Sleep 2000) self))
    as [[result|msg] heard].
  - cbn [fst snd trace emit] in T.
    assert (CT : callbacks (trace heard) = callbacks (trace self)).
    { rewrite T, !callbacks_app, C. cbn. rewrite !app_nil_r. reflexivity. }
    rewrite <- app_assoc in T. cbn [app] in T.
    destruct cb as [f|]; cbn [andb].
    + destruct (truthy (dict_get (lit "success") (VBool false) result)).
      * destruct (f (trace heard) result); cbn [fst snd trace emit].
        -- split; [exists (evs ++ [Callback result]);
                   rewrite T, <- app_assoc; reflexivity|].
           split; [reflexivity|].
           split; [rewrite callbacks_app, CT; reflexivity|].
           eexists. split; [reflexivity|]. auto.
        -- split; [exists (evs ++ [Callback result; Sleep 1000]);
                   rewrite T, <- !app_assoc; reflexivity|].
           split; [reflexivity|].
           split; [rewrite !callbacks_app, CT;
                   change (callbacks [Sleep 1000]) with (@nil dict);
                   rewrite app_nil_r; reflexivity|].
           exists [Callback result; Sleep 1000].
           split; [rewrite <- app_assoc; reflexivity | auto].
      * cbn [fst snd].
        split; [exists evs; exact T|]. split; [reflexivity|].
        split; [rewrite CT, app_nil_r; reflexivity|].
        exists []. rewrite app_nil_r. auto.
    + cbn [fst snd].
      split; [exists evs; exact T|]. split; [reflexivity|].
      split; [rewrite CT, app_nil_r; reflexivity|].
      exists []. rewrite app_nil_r. auto.
  - cbn [fst snd trace emit] in T |- *.
    split.
    + exists (evs ++ [Sleep 1000]). rewrite T, <- !app_assoc. reflexivity.
    + split; [reflexivity|].
      rewrite T, !callbacks_app, C. cbn. rewrite !app_nil_r. reflexivity.
Qed.

(** A pass that hears "lala hola" with working services and a callback:
    the callback is called, once, with the result of the pass. *)
Example loop_body_calls_back :
  let pass :=
    loop_body (sv_hearing (lit "lala hola")) (Some (fun _ _ => Returns tt))
      lala in
  exists result,
    fst pass = Some result
    /\ lookup (lit "success") result = Some (VBool true)
    /\ callbacks (trace (snd pass)) = [result].
Proof. cbv zeta. eexists. repeat split. Qed.

(** Once [should_stop_background] is set, the loop starts no further
    pass. *)
Lemma background_listening_thread_stopped n sv cb self :
  should_stop_background self = true ->
  background_listening_thread n sv cb self = self.
Proof. intros H. destruct n; cbn; [|rewrite H]; reflexivity. Qed.


(** Where lower-casing is positional (neither U+0130 nor U+03A3 in the
    utterance), the command taken from an utterance that contains the wake
    word, compared in lower case, is the text after its first occurrence,
    trimmed. *)
Lemma extract_command_after_wake_word w u :
  positional u ->
  contains (lower w) (lower u) = true ->
  exists pre mid post,
    u = pre ++ mid ++ post
    /\ lower mid = lower w
    /\ (forall pre' mid' post',
          u = pre' ++ mid' ++ post' -> lower mid' = lower w ->
          length pre <= length pre')
    /\ extract_command w u = strip post.
Proof.
  intros LP C. unfold extract_command. rewrite C.
  unfold contains in C. unfold find.
  destruct (find_opt (lower w) (lower u)) as [i|] eqn:F; [clear C|discriminate].
  pose proof (find_opt_occurrence _ _ _ F) as O.
  set (n := length (lower w)) in *.
  assert (B : i + n <= length u).
  { rewrite <- (lower_length u LP). apply find_opt_bound, F. }
  exists (firstn i u), (firstn n (skipn i u)), (skipn (i + n) u).
  assert (Sk : skipn i (lower u) = lower w ++ skipn (i + n) (lower u)).
  { rewrite O at 1. rewrite skipn_app.
    assert (Li : length (firstn i (lower u)) = i).
    { apply firstn_length_le. rewrite (lower_length u LP). lia. }
    rewrite Li, Nat.sub_diag. cbn [skipn].
    rewrite skipn_all2 by lia. reflexivity. }
  split; [|split; [|split]].
  - rewrite <- (firstn_skipn i u) at 1. f_equal.
    rewrite <- (firstn_skipn n (skipn i u)) at 1. f_equal.
    rewrite skipn_skipn. f_equal. lia.
  - rewrite lower_firstn by (apply positional_skipn, LP).
    rewrite lower_skipn by assumption. rewrite Sk.
    subst n. rewrite firstn_app, Nat.sub_diag, firstn_all. cbn.
    apply app_nil_r.
  - intros pre' mid' post' E L.
    assert (LP' : positional pre' /\ positional (mid' ++ post')).
    { apply positional_app. rewrite <- E. exact LP. }
    destruct LP' as (LP1 & LP2).
    pose proof (find_opt_first (lower w) (lower pre') (lower post'))
      as (j & Fj & Lj).
    rewrite <- L, <- (lower_app mid' post' LP2) in Fj.
    rewrite <- lower_app in Fj by (rewrite <- E; exact LP).
    rewrite <- E, L, F in Fj. inversion Fj; subst j.
    rewrite (lower_length _ LP1) in Lj.
    rewrite firstn_length_le by lia. exact Lj.
  - unfold slice_from.
    assert (X : (Z.of_nat i + Z.of_nat n <? 0)%Z = false)
      by (apply Z.ltb_ge; lia).
    rewrite X. f_equal. f_equal. lia.
Qed.


Lemma set_wake_word_spec_witness :
  (fst (set_wake_word (lit "L") lala) = false
   /\ wake_word (snd (set_wake_word (lit "L") lala)) = lit "Lala")
  /\ (fst (set_wake_word (lit "Oye") lala) = true
      /\ wake_word (snd (set_wake_word (lit "Oye") lala)) = lit "Oye").
Proof.
  split.
  - apply (proj1 (set_wake_word_spec (lit "L") lala)). right. cbn. lia.
  - apply (proj2 (set_wake_word_spec (lit "Oye") lala)). cbn. lia.
Defined.

Lemma process_text_command_catches_witness :
  exists result,
    fst (process_text_command sv_failing (lit "hola") true lala)
    = Returns result
    /\ lookup (lit "success") result = Some (VBool false)
    /\ lookup (lit "error") result = Some (VStr (lit "planner unavailable")).
Proof.
  apply (process_text_command_catches sv_failing (lit "hola") true lala
           true (lit "planner unavailable")).
  - reflexivity.
  - reflexivity.
Defined.


Lemma process_voice_command_silence_witness :
  exists result,
    fst (process_voice_command (sv_hearing []) 5 lala) = Returns result
    /\ lookup (lit "success") result = Some (VBool false)
    /\ last_command (snd (process_voice_command (sv_hearing []) 5 lala))
       = last_command lala.
Proof.
  destruct (process_voice_command_silence (sv_hearing []) 5 lala eq_refl)
    as (result & R & S & _ & _ & L & _).
  exists result. split; [exact R|]. split; [exact S | exact L].
Defined.


(** With the prototype recogniser of core.py and the default wake word the
    command is "pon una alarma para las 8 de la mañana". *)
Example process_voice_command_prototype :
  last_command (snd (process_voice_command sv_failing 5 lala))
  = Some (lit "pon una alarma para las 8 de la ma" ++ [241%N] ++ lit "ana").
Proof. vm_compute. reflexivity. Qed.


(** C2 at an utterance with U+0130: the wake word first occurs at index 3
    of [dotted_utterance] and is followed by " hola", but the index found
    in the lower-cased text is 5, and the command handed on is "ola". *)
Theorem wake_word_index_shifted :
  dotted_utterance = [304%N; 304%N; 32%N] ++ lit "lala" ++ lit " hola"
  /\ lower (lit "lala") = lower (wake_word lala)
  /\ find_opt (lit "lala") dotted_utterance = Some 3
  /\ strip (lit " hola") = lit "hola"
  /\ find (lower dotted_utterance) (lower (wake_word lala)) = 5%Z
  /\ planner_commands
       (trace (snd (process_voice_command
                      (sv_hearing dotted_utterance) 5 lala)))
     = [lit "ola"]
  /\ last_command
       (snd (process_voice_command (sv_hearing dotted_utterance) 5 lala))
     = Some (lit "ola").
Proof. repeat split; vm_compute; reflexivity. Qed.

End AssistantProofs.

Module VoskProofs.
Import Py PyFacts Vosk Samples.
Local Open Scope py_scope.

Lemma join_values_from_all_str i sep items l :
  join_values_from i sep items = Returns l -> all_str items = Some l.
Proof.
  revert i l. induction items as [|v items IH]; intros i l H; cbn in *.
  - inversion H. reflexivity.
  - destruct v; try discriminate.
    destruct (join_values_from (S i) sep items) as [l'|] eqn:E;
      [|discriminate].
    inversion H; subst. rewrite (IH _ _ E). reflexivity.
Qed.

Lemma all_str_app a b l :
  all_str (a ++ b) = Some l ->
  exists la lb, all_str a = Some la /\ all_str b = Some lb /\ l = la ++ lb.
Proof.
  revert l. induction a as [|v a IH]; intros l H; cbn in *.
  - exists [], l. auto.
  - destruct v; try discriminate.
    destruct (all_str (a ++ b)) as [l'|] eqn:E; [|discriminate].
    cbn in H. inversion H; subst.
    destruct (IH _ eq_refl) as (la & lb & -> & -> & ->).
    exists (s :: la), lb. auto.
Qed.

(** What one decoded answer adds to [results]. *)
Lemma collect_text_spec en j r results results' :
  json_loads en j = Returns r ->
  collect_text r results = Returns results' ->
  exists more,
    results' = results ++ more
    /\ forall l, all_str more = Some l -> l = text_field en (Returns j).
Proof.
  intros J H. unfold collect_text in H. unfold text_field. rewrite J.
  destruct r; cbn [str_in getitem] in H; try discriminate.
  - (* a JSON string *)
    destruct (contains (lit "text") s); cbn in H; [discriminate|].
    inversion H; subst. exists []. rewrite app_nil_r. split; [reflexivity|].
    cbn. intros l E. inversion E. reflexivity.
  - (* a JSON array *)
    destruct (existsb _ l); cbn in H; [discriminate|].
    inversion H; subst. exists []. rewrite app_nil_r. split; [reflexivity|].
    cbn. intros l' E. inversion E. reflexivity.
  - (* a JSON object *)
    unfold has_key in H. destruct (lookup (lit "text") d) as [x|].
    + destruct (truthy x) eqn:T; inversion H; subst.
      * exists [x]. split; [reflexivity|]. intros l E.
        destruct x; try discriminate. cbn in E. inversion E; subst.
        destruct s; [discriminate | reflexivity].
      * exists []. rewrite app_nil_r. split; [reflexivity|].
        intros l E. cbn in E. inversion E; subst.
        destruct x; try reflexivity. destruct s; [reflexivity|discriminate].
    + inversion H; subst. exists []. rewrite app_nil_r.
      split; [reflexivity|]. intros l E. cbn in E. inversion E. reflexivity.
Qed.

(** The loop collects the "text" fields of the answers to the accepted
    chunks, and leaves the recogniser with all the audio it was given. *)
Lemma read_loop_spec en rs :
  forall results self fed results' self',
    recognizer self = Some fed ->
    read_loop en rs results self = (Returns results', self') ->
    exists fed' mids more,
      recognizer self' = Some fed'
      /\ recognizer_answers en rs fed = mids ++ [FinalResult en fed']
      /\ results' = results ++ more
      /\ forall l, all_str more = Some l -> l = flat_map (text_field en) mids.
Proof.
  induction rs as [|data rest IH]; intros results self fed results' self' R H.
  - cbn in H. inversion H; subst. exists fed, [], [].
    rewrite app_nil_r. repeat split; auto. cbn. intros l E. inversion E. auto.
  - destruct data as [|b data].
    { cbn in H. inversion H; subst. exists fed, [], [].
      rewrite app_nil_r. repeat split; auto.
      cbn. intros l E. inversion E. auto. }
    cbn [read_loop recognizer_answers] in *.
    set (chunk := b :: data) in *.
    apply bind_returns in H. destruct H as (accepted & self1 & H1 & H).
    unfold accept_waveform in H1. rewrite R in H1.
    inversion H1 as [[EA E1]]. clear H1. rewrite EA.
    assert (R1 : recognizer self1 = Some (fed ++ [chunk]))
      by (subst self1; reflexivity).
    clear E1.
    apply bind_returns in H. destruct H as (results1 & self2 & H2 & H).
    destruct accepted.
    + (* accepted: one more answer *)
      apply bind_returns in H2. destruct H2 as (j & self3 & H3 & H2).
      unfold recognizer_result in H3. rewrite R1 in H3.
      inversion H3 as [[EJ E3]]. subst self3. clear H3.
      apply bind_returns in H2. destruct H2 as (r & self4 & H4 & H2).
      apply lift_returns in H4. destruct H4 as [J ->].
      apply lift_returns in H2. destruct H2 as [C ->].
      destruct (collect_text_spec en j r results results1 J C)
        as (more1 & -> & M1).
      destruct (IH _ _ _ _ _ R1 H) as (fed' & mids & more & R' & A & -> & M).
      exists fed', (Returns j :: mids), (more1 ++ more).
      cbv iota. split; [exact R'|].
      split; [cbn [app]; f_equal; [exact EJ | exact A]|].
      split; [symmetry; apply app_assoc|].
      intros l E. apply all_str_app in E.
      destruct E as (la & lb & Ea & Eb & ->).
      cbn [flat_map]. rewrite (M1 _ Ea), (M _ Eb). reflexivity.
    + (* not accepted *)
      apply ret_returns in H2. destruct H2 as [-> ->].
      destruct (IH _ _ _ _ _ R1 H) as (fed' & mids & more & R' & A & -> & M).
      exists fed', mids, more. cbv iota. auto.
Qed.


Lemma unsupported_format_iff wf :
  unsupported_format wf = true
  <-> ~ (getnchannels wf = 1%Z /\ getsampwidth wf = 2%Z
         /\ getcomptype wf = lit "NONE").
Proof.
  unfold unsupported_format.
  destruct (Z.eqb_spec (getnchannels wf) 1) as [N1|N1];
  destruct (Z.eqb_spec (getsampwidth wf) 2) as [N2|N2];
  destruct (str_eqb (getcomptype wf) (lit "NONE")) eqn:N3;
  cbn [negb orb]; split; try tauto; try discriminate.
  - apply str_eqb_eq in N3. tauto.
  - intros _ (_ & _ & E). apply str_eqb_eq in E. congruence.
Qed.

Lemma reset_returns en self u self1 :
  is_initialized self = true ->
  reset en self = (Returns u, self1) ->
  recognizer self1 = Some [] /\ passed self1 = passed self.
Proof.
  unfold reset. intros ->. destruct (KaldiRecognizer en); [|discriminate].
  intros H. inversion H; subst. auto.
Qed.

(** C8. A WAV file that is not mono, 16-bit, uncompressed is refused with
    "success" False and an error message, and nothing is handed to the
    recogniser; and when the call succeeds its "text" is the text the
    specification describes: the recogniser's answers JSON-decoded, their
    non-empty "text" fields joined with single spaces and trimmed. *)
Theorem process_audio_file_spec en path self :
  (forall wf,
     wave_open en path = Returns wf ->
     ~ (getnchannels wf = 1%Z /\ getsampwidth wf = 2%Z
        /\ getcomptype wf = lit "NONE") ->
     lookup (lit "success") (fst (process_audio_file en path self))
     = Some (VBool false)
     /\ (exists msg,
          lookup (lit "error") (fst (process_audio_file en path self))
          = Some (VStr msg))
     /\ passed (snd (process_audio_file en path self)) = passed self)
  /\ (lookup (lit "success") (fst (process_audio_file en path self))
      = Some (VBool true) ->
      exists wf,
        wave_open en path = Returns wf
        /\ lookup (lit "text") (fst (process_audio_file en path self))
           = Some (VStr (spec_text en wf))).
Proof.
  unfold process_audio_file.
  destruct (is_initialized self) eqn:I; cbn [negb].
  2:{ split; [intros; cbn; eauto | cbn; discriminate]. }
  destruct (path_exists en path); cbn [negb].
  2:{ split; [intros; cbn; eauto | cbn; discriminate]. }
  split.
  - intros wf W U. apply unsupported_format_iff in U.
    unfold try_body, bind, lift, ret, reset. rewrite I, W, U.
    destruct (KaldiRecognizer en); cbn; eauto.
  - destruct (try_body en path self) as [[d|msg] self'] eqn:T; cbn [fst];
      [|cbn; discriminate].
    intros Hs. unfold try_body in T.
    apply bind_returns in T. destruct T as (u & self1 & T1 & T).
    apply (reset_returns _ _ _ _ I) in T1. destruct T1 as [R1 _].
    apply bind_returns in T. destruct T as (wf & self2 & T2 & T).
    apply lift_returns in T2. destruct T2 as [W ->].
    exists wf. split; [exact W|].
    destruct (unsupported_format wf).
    { apply ret_returns in T. destruct T as [-> _]. cbn in Hs. discriminate. }
    apply bind_returns in T. destruct T as (results & self3 & T3 & T).
    destruct (read_loop_spec _ _ _ _ _ _ _ R1 T3)
      as (fed' & mids & more & R3 & A & -> & M).
    apply bind_returns in T. destruct T as (final_json & self4 & T4 & T).
    unfold recognizer_result in T4. rewrite R3 in T4.
    inversion T4 as [[EF E4]]. subst self4. clear T4.
    apply bind_returns in T. destruct T as (final & self5 & T5 & T).
    apply lift_returns in T5. destruct T5 as [J ->].
    apply bind_returns in T. destruct T as (results2 & self6 & T6 & T).
    apply lift_returns in T6. destruct T6 as [C ->].
    destruct (collect_text_spec en _ _ _ _ J C) as (more2 & -> & M2).
    apply bind_returns in T. destruct T as (joined & self7 & T7 & T).
    apply lift_returns in T7. destruct T7 as [JV ->].
    unfold join_values in JV.
    destruct (join_values_from 0 (lit " ") (([] ++ more) ++ more2))
      as [l|] eqn:JF; [|discriminate].
    inversion JV; subst joined. clear JV.
    apply join_values_from_all_str in JF. cbn [app] in JF.
    apply all_str_app in JF. destruct JF as (la & lb & Ea & Eb & ->).
    apply bind_returns in T. destruct T as (confidence & self8 & T8 & T).
    apply ret_returns in T. destruct T as [-> _].
    cbn. do 3 f_equal. unfold spec_text.
    replace (recognizer_answers en (reads wf) [])
      with (mids ++ [Returns final_json]).
    + rewrite flat_map_app. cbn [flat_map]. rewrite app_nil_r.
      rewrite (M _ Ea), (M2 _ Eb). reflexivity.
    + symmetry. etransitivity; [exact A|]. f_equal. f_equal. exact EF.
Qed.


Lemma process_audio_file_spec_witness :
  (lookup (lit "success")
     (fst (process_audio_file engine_sample (lit "stereo.wav") vosk))
   = Some (VBool false)
   /\ (exists msg,
        lookup (lit "error")
          (fst (process_audio_file engine_sample (lit "stereo.wav") vosk))
        = Some (VStr msg))
   /\ passed (snd (process_audio_file engine_sample (lit "stereo.wav") vosk))
      = passed vosk)
  /\ exists wf,
       wave_open engine_sample (lit "mono.wav") = Returns wf
       /\ lookup (lit "text")
            (fst (process_audio_file engine_sample (lit "mono.wav") vosk))
          = Some (VStr (spec_text engine_sample wf)).
Proof.
  split.
  - apply (proj1 (process_audio_file_spec
                    engine_sample (lit "stereo.wav") vosk) stereo_wav).
    + reflexivity.
    + intros (H & _). discriminate H.
  - apply (proj2 (process_audio_file_spec
                    engine_sample (lit "mono.wav") vosk)).
    reflexivity.
Defined.

(** On the sample run the recognised text is "hola mundo". *)
Example process_audio_file_sample :
  lookup (lit "text")
    (fst (process_audio_file engine_sample (lit "mono.wav") vosk))
  = Some (VStr (lit "hola mundo"))
  /\ passed (snd (process_audio_file engine_sample (lit "mono.wav") vosk))
     = reads mono_wav.
Proof. split; vm_compute; reflexivity. Qed.

End VoskProofs.

(** ** Case analysis on the statements of a method *)

Module ProofTools.

(** Split a hypothesis on the next outcome it examines. *)
Ltac case_step :=
  match goal with
  | H : (_, _) = (_, _) |- _ => inversion H; subst; clear H
  | H : context [match ?x with _ => _ end] |- _ => destruct x eqn:?
  end.

End ProofTools.

(** ** More on [process_text_command] and [process_voice_command] *)

Module AssistantMoreProofs.
Import Py PyFacts Assistant AssistantObs Samples.
Import ProofTools.
Local Open Scope py_scope.

(** The events of the [try] body, for each way it can end. *)
Lemma try_body_events sv cmd wait online self o self' :
  try_body sv cmd wait online self = (o, self') ->
  exists evs,
    trace self' = trace self ++ evs
    /\ match o with
       | Returns result =>
           exists response_text plan model,
             result = [ (lit "success", VBool true);
                        (lit "response", response_text);
                        (lit "plan", plan);
                        (lit "model", model);
                        (lit "online", VBool online) ]
             /\ evs = PlannerCall cmd (user_id self)
                      :: AiCall (request_for cmd online)
                      :: (if wait then [Speak response_text] else [])
             /\ last_response self' = Some result
             /\ exists pr,
                  agent_planner_process_command sv (trace self) cmd
                    (user_id self) = Returns pr
       | Raises msg =>
           (evs = [PlannerCall cmd (user_id self)]
            /\ agent_planner_process_command sv (trace self) cmd
                 (user_id self) = Raises msg)
           \/ ((exists pr,
                  agent_planner_process_command sv (trace self) cmd
                    (user_id self) = Returns pr)
               /\ (evs = [PlannerCall cmd (user_id self);
                          AiCall (request_for cmd online)]
                   \/ (wait = true
                       /\ exists v,
                            evs = [PlannerCall cmd (user_id self);
                                   AiCall (request_for cmd online);
                                   Speak v])))
       end.
Proof.
  unfold try_body, bind, call, lift, perform, ret.
  intros H.
  repeat case_step; subst;
    cbn [trace emit set_last_response];
    eexists; (split; [rewrite <- ?app_assoc; reflexivity|]);
    try (do 3 eexists; split; [reflexivity | split; [reflexivity|]];
         split; [reflexivity | eexists; first [eassumption | reflexivity]]);
    try (left; split; [reflexivity | first [assumption | reflexivity]]);
    try (right; split; [eexists; first [eassumption | reflexivity]|];
         left; reflexivity);
    try (right; split; [eexists; first [eassumption | reflexivity]|]; right;
         split; [reflexivity | eexists; reflexivity]).
Qed.

Lemma spoken_app t1 t2 : spoken (t1 ++ t2) = spoken t1 ++ spoken t2.
Proof. apply flat_map_app. Qed.

Lemma ai_requests_app t1 t2 :
  ai_requests (t1 ++ t2) = ai_requests t1 ++ ai_requests t2.
Proof. apply flat_map_app. Qed.

Lemma sleeps_app t1 t2 : sleeps (t1 ++ t2) = sleeps t1 ++ sleeps t2.
Proof. apply flat_map_app. Qed.

(** The same, for the whole method. *)
Lemma process_text_command_obj_events sv cmd wait self o self' :
  process_text_command_obj sv cmd wait self = (o, self') ->
  exists evs,
    trace self' = trace self ++ evs
    /\ callbacks evs = [] /\ sleeps evs = []
    /\ (length (spoken evs) <= 1)%nat
    /\ (if wait then True else spoken evs = [])
    /\ match o with
       | Raises msg => is_online sv (trace self) = Raises msg /\ evs = []
       | Returns (result, stored) =>
           exists online,
             is_online sv (trace self) = Returns online
             /\ planner_commands evs = [cmd]
             /\ Forall (fun r => r = request_for cmd (online_for online self))
                  (ai_requests evs)
             /\ match agent_planner_process_command sv (trace self) cmd
                        (user_id self) with
                | Returns _ =>
                    ai_requests evs
                    = [request_for cmd (online_for online self)]
                | Raises msg =>
                    evs = [PlannerCall cmd (user_id self)]
                    /\ result = error_result msg
                end
             /\ match lookup (lit "success") result with
                | Some (VBool true) =>
                    spoken evs
                    = (if wait
                       then [dict_get (lit "response") (VStr []) result]
                       else [])
                    /\ ai_requests evs
                       = [request_for cmd (online_for online self)]
                    /\ lookup (lit "online") result
                       = Some (VBool (online_for online self))
                | _ => True
                end
       end.
Proof.
  destruct (is_online sv (trace self)) as [online|msg] eqn:O.
  - rewrite (AssistantProofs.process_text_command_obj_checked _ _ _ _ _ O).
    fold (online_for online self).
    destruct (try_body sv cmd wait (online_for online self)
                (begin_processing cmd self)) as [o1 s1] eqn:E.
    apply try_body_events in E. destruct E as (evs & T & R).
    cbn [trace begin_processing set_last_command set_is_processing user_id]
      in T, R.
    destruct o1 as [result|msg]; intros H; inversion H; subst; clear H;
      exists evs; cbn [trace set_is_processing].
    + destruct R as (rt & plan & model & -> & -> & _ & pr & ->).
      split; [exact T|].
      destruct wait; cbn; repeat split; auto;
        try (exists online); repeat split; auto; try (repeat constructor);
        lia.
    + split; [exact T|].
      destruct R as [(-> & ->) | ((pr & ->) & [-> | (W & v & ->)])];
        try subst wait; try destruct wait; cbn; repeat split; auto;
        try (exists online); repeat split; auto; try (repeat constructor);
        try lia.
  - rewrite (AssistantProofs.process_text_command_obj_unchecked _ _ _ _ _ O).
    intros H; inversion H; subst; clear H.
    exists []. cbn [trace begin_processing set_last_command
                    set_is_processing].
    rewrite app_nil_r. destruct wait; cbn; repeat split; auto.
Qed.


(** X1. What the assistant says aloud is what it returns: a command speaks
    at most once; it speaks nothing when no spoken response was asked for;
    and when it returns success the one text spoken is the "response" of
    the returned dict. *)
Theorem spoken_is_returned sv cmd wait self :
  exists evs,
    trace (snd (process_text_command sv cmd wait self)) = trace self ++ evs
    /\ (length (spoken evs) <= 1)%nat
    /\ (wait = false -> spoken evs = [])
    /\ (wait = true ->
        forall result,
          fst (process_text_command sv cmd wait self) = Returns result ->
          lookup (lit "success") result = Some (VBool true) ->
          spoken evs = [dict_get (lit "response") (VStr []) result]).
Proof.
  rewrite AssistantProofs.process_text_command_obj_fst.
  destruct (process_text_command_obj sv cmd wait self) as [o s] eqn:E.
  apply process_text_command_obj_events in E.
  destruct E as (evs & T & _ & _ & L & W & R).
  exists evs. destruct o as [[result stored]|msg]; cbn [fst snd].
  - destruct R as (online & _ & _ & _ & _ & S).
    split; [exact T|]. split; [exact L|]. split.
    + intros ->. exact W.
    + intros -> r H Hs. inversion H; subst r. rewrite Hs in S. tauto.
  - split; [exact T|]. split; [exact L|]. split.
    + intros ->. exact W.
    + intros _ r H. discriminate.
Qed.

Lemma spoken_is_returned_witness :
  exists evs,
    trace (snd (process_text_command (sv_hearing []) (lit "hola") true lala))
    = trace lala ++ evs
    /\ spoken evs = [VStr (lit "hecho")].
Proof.
  destruct (spoken_is_returned (sv_hearing []) (lit "hola") true lala)
    as (evs & T & _ & _ & S).
  exists evs. split; [exact T|].
  apply (S eq_refl _ eq_refl). reflexivity.
Defined.

(** X2. With the offline preference set, or without connectivity, the AI
    router is only ever asked for the "offline" model, and a successful
    result says "online" False. *)
Theorem offline_never_asks_online sv cmd wait self :
  prefer_offline self = true \/ is_online sv (trace self) = Returns false ->
  exists evs,
    trace (snd (process_text_command sv cmd wait self)) = trace self ++ evs
    /\ Forall (fun r => model_preference r = lit "offline") (ai_requests evs)
    /\ (forall result,
          fst (process_text_command sv cmd wait self) = Returns result ->
          lookup (lit "success") result = Some (VBool true) ->
          lookup (lit "online") result = Some (VBool false)).
Proof.
  intros H.
  rewrite AssistantProofs.process_text_command_obj_fst.
  destruct (process_text_command_obj sv cmd wait self) as [o s] eqn:E.
  apply process_text_command_obj_events in E.
  destruct E as (evs & T & _ & _ & _ & _ & R).
  exists evs. destruct o as [[result stored]|msg]; cbn [fst snd].
  - destruct R as (online & O & _ & A & _ & S).
    assert (F : online_for online self = false).
    { unfold online_for. destruct H as [-> | H];
        [apply andb_false_r | rewrite H in O; inversion O; reflexivity]. }
    rewrite F in A, S.
    split; [exact T|]. split.
    + eapply Forall_impl; [|exact A]. intros r ->. reflexivity.
    + intros r Hr Hs. inversion Hr; subst r. rewrite Hs in S. tauto.
  - destruct R as (_ & ->).
    split; [exact T|]. split; [constructor | discriminate].
Qed.

Lemma offline_never_asks_online_witness :
  exists evs,
    trace (snd (process_text_command (sv_hearing []) (lit "hola") true
                  (init None true (lit "Lala"))))
    = [] ++ evs
    /\ Forall (fun r => model_preference r = lit "offline") (ai_requests evs)
    /\ exists result,
         fst (process_text_command (sv_hearing []) (lit "hola") true
                (init None true (lit "Lala")))
         = Returns result
         /\ lookup (lit "online") result = Some (VBool false).
Proof.
  destruct (offline_never_asks_online (sv_hearing []) (lit "hola") true
              (init None true (lit "Lala")) (or_introl eq_refl))
    as (evs & T & A & S).
  exists evs. split; [exact T|]. split; [exact A|].
  eexists. split; [reflexivity|].
  apply S; reflexivity.
Defined.

(** X3. When the connectivity check raises, neither the planner nor the AI
    router is called and the exception reaches the caller. When it
    returns, the command goes to the planner exactly once; if the planner
    raises, the AI router is not consulted, nothing is spoken and the
    error returned is the planner's; if the planner returns, the AI router
    is consulted exactly once, whether or not the plan succeeded. *)
Theorem planner_then_ai sv cmd wait self :
  exists evs,
    trace (snd (process_text_command sv cmd wait self)) = trace self ++ evs
    /\ match is_online sv (trace self) with
       | Raises msg =>
           evs = []
           /\ fst (process_text_command sv cmd wait self) = Raises msg
       | Returns online =>
           planner_commands evs = [cmd]
           /\ match agent_planner_process_command sv (trace self) cmd
                      (user_id self) with
              | Returns _ =>
                  ai_requests evs
                  = [request_for cmd (online_for online self)]
              | Raises msg =>
                  evs = [PlannerCall cmd (user_id self)]
                  /\ exists result,
                       fst (process_text_command sv cmd wait self)
                       = Returns result
                       /\ lookup (lit "error") result = Some (VStr msg)
              end
       end.
Proof.
  rewrite AssistantProofs.process_text_command_obj_fst.
  destruct (process_text_command_obj sv cmd wait self) as [o s] eqn:E.
  apply process_text_command_obj_events in E.
  destruct E as (evs & T & _ & _ & _ & _ & R).
  exists evs. destruct o as [[result stored]|msg]; cbn [fst snd].
  - destruct R as (online & -> & P & _ & A & _).
    split; [exact T|]. split; [exact P|].
    destruct (agent_planner_process_command sv (trace self) cmd
                (user_id self)) as [pr|msg]; [exact A|].
    destruct A as (-> & ->). split; [reflexivity|].
    eexists. split; reflexivity.
  - destruct R as (-> & ->). split; [exact T|]. split; reflexivity.
Qed.

Lemma process_text_command_events_example :
  trace (snd (process_text_command sv_failing (lit "hola") true lala))
  = [PlannerCall (lit "hola") None]
  /\ trace (snd (process_text_command (sv_unreachable []) (lit "hola") true
                   lala))
     = [].
Proof. split; reflexivity. Qed.


(** X4. When the connectivity check returns and the planner and the AI
    router both answer with a dict, the command succeeds and its response
    is the planner's "response" if the plan succeeded, and otherwise the
    router's "text" or, when that is empty or missing, its "response";
    missing keys read as the empty string, an empty plan and the model
    "offline". The result is also what [last_response] holds afterwards. *)
Theorem response_selection sv cmd wait self online pd ad :
  is_online sv (trace self) = Returns online ->
  agent_planner_process_command sv (trace self) cmd (user_id self)
  = Returns (VDict pd) ->
  process_ai_request sv (trace self ++ [PlannerCall cmd (user_id self)])
    (request_for cmd (online_for online self))
  = Returns (VDict ad) ->
  exists result,
    fst (process_text_command sv cmd wait self) = Returns result
    /\ result
       = [ (lit "success", VBool true);
           (lit "response",
            if truthy (dict_get (lit "success") (VBool false) pd)
            then dict_get (lit "response") (VStr []) pd
            else if truthy (dict_get (lit "text") (VStr []) ad)
                 then dict_get (lit "text") (VStr []) ad
                 else dict_get (lit "response") (VStr []) ad);
           (lit "plan", dict_get (lit "plan") (VDict []) pd);
           (lit "model", dict_get (lit "model") (VStr (lit "offline")) ad);
           (lit "online", VBool (online_for online self)) ]
    /\ last_response (snd (process_text_command sv cmd wait self))
       = Some result.
Proof.
  intros O P A.
  rewrite AssistantProofs.process_text_command_obj_fst,
    (AssistantProofs.process_text_command_obj_checked _ _ _ _ _ O).
  fold (online_for online self).
  unfold try_body, bind, call, lift, perform, ret.
  cbn [trace emit begin_processing set_last_command set_is_processing
       user_id].
  fold (request_for cmd (online_for online self)).
  rewrite P, A. cbn [get].
  destruct (truthy (dict_get (lit "success") (VBool false) pd));
    [|destruct (truthy (dict_get (lit "text") (VStr []) ad))];
    destruct wait; eexists; split; try reflexivity; split; reflexivity.
Qed.

Lemma response_selection_witness :
  exists result,
    fst (process_text_command (sv_hearing []) (lit "hola") true lala)
    = Returns result
    /\ result
       = [ (lit "success", VBool true);
           (lit "response", VStr (lit "hecho"));
           (lit "plan", VDict []);
           (lit "model", VStr (lit "small"));
           (lit "online", VBool true) ]
    /\ last_response
         (snd (process_text_command (sv_hearing []) (lit "hola") true lala))
       = Some result.
Proof.
  apply (response_selection (sv_hearing []) (lit "hola") true lala true
           [ (lit "success", VBool true);
             (lit "response", VStr (lit "hecho"));
             (lit "plan", VDict []) ]
           [ (lit "text", VStr (lit "hola"));
             (lit "model", VStr (lit "small")) ]);
    reflexivity.
Defined.


(** X5. The dict a voice command returns carries the recognised utterance
    under "recognized_text". After a successful command [last_response]
    is that same dict, "recognized_text" included, though the key is added
    after the field was assigned; after a failed one, and when the command
    raises, [last_response] is what it was. *)
Theorem voice_result_is_last_response sv max self u :
  recognize_once sv (trace self ++ listening) max = u ->
  u <> [] ->
  match fst (process_voice_command sv max self) with
  | Returns result =>
      lookup (lit "recognized_text") result = Some (VStr u)
      /\ match lookup (lit "success") result with
         | Some (VBool true) =>
             last_response (snd (process_voice_command sv max self))
             = Some result
         | _ =>
             last_response (snd (process_voice_command sv max self))
             = last_response self
         end
  | Raises _ =>
      last_response (snd (process_voice_command sv max self))
      = last_response self
  end.
Proof.
  intros Hu Hne.
  destruct (AssistantProofs.process_voice_command_inv sv max self u Hu Hne)
    as (_ & _ & _ & R).
  destruct (fst (process_voice_command sv max self)) as [result|msg].
  - destruct R as (_ & A & _ & B & _). split; assumption.
  - destruct R as (_ & _ & LR & _). exact LR.
Qed.

Lemma voice_result_is_last_response_witness :
  exists result,
    fst (process_voice_command (sv_hearing (lit "lala hola")) 5 lala)
    = Returns result
    /\ lookup (lit "recognized_text") result = Some (VStr (lit "lala hola"))
    /\ last_response
         (snd (process_voice_command (sv_hearing (lit "lala hola")) 5 lala))
       = Some result.
Proof.
  pose proof (voice_result_is_last_response
                (sv_hearing (lit "lala hola")) 5 lala (lit "lala hola")
                eq_refl) as H.
  assert (Hne : lit "lala hola" <> []) by discriminate.
  specialize (H Hne).
  destruct (fst (process_voice_command (sv_hearing (lit "lala hola")) 5
                   lala)) as [result|msg] eqn:E.
  - exists result. split; [reflexivity|].
    destruct H as (A & B). split; [exact A|].
    vm_compute in E. inversion E; subst result. exact B.
  - vm_compute in E. discriminate.
Defined.


(** What a voice command adds to the events: no wait. *)
Lemma process_voice_command_frame sv max self :
  should_stop_background (snd (process_voice_command sv max self))
  = should_stop_background self
  /\ wake_word (snd (process_voice_command sv max self)) = wake_word self
  /\ exists evs,
       trace (snd (process_voice_command sv max self)) = trace self ++ evs
       /\ sleeps evs = [].
Proof.
  destruct (recognize_once sv (trace self ++ listening) max) as [|c u] eqn:Hu.
  - rewrite (AssistantProofs.process_voice_command_empty _ _ _ Hu).
    cbn [snd should_stop_background wake_word trace emit].
    repeat split. eexists. split; [rewrite <- !app_assoc; reflexivity|].
    reflexivity.
  - assert (Hne : c :: u <> []) by discriminate.
    destruct (process_text_command_obj sv
                (extract_command (wake_word self) (c :: u)) true
                (emit (Recognize max)
                   (emit (Toast (lit "Escuchando..."))
                      (emit (Vibrate 100) self))))
      as [o s1] eqn:E.
    rewrite (AssistantProofs.process_voice_command_heard _ _ _ _ _ _
               Hu Hne E).
    pose proof (AssistantProofs.process_text_command_obj_inv _ _ _ _ _ _ E)
      as (_ & _ & W & _ & S & _).
    apply process_text_command_obj_events in E.
    destruct E as (evs & T & _ & Sl & _).
    cbn [trace emit wake_word should_stop_background] in T, W, S.
    assert (X : should_stop_background s1 = should_stop_background self
                /\ wake_word s1 = wake_word self
                /\ exists evs',
                     trace s1 = trace self ++ evs' /\ sleeps evs' = []).
    { repeat split; auto.
      eexists. split; [rewrite T, <- !app_assoc; reflexivity|].
      rewrite !sleeps_app, Sl. reflexivity. }
    destruct o as [[result [|]]|msg]; cbn [snd]; exact X.
Qed.

(** One pass of the listener: what it keeps and what it adds. *)
Lemma loop_body_frame sv cb self :
  should_stop_background (snd (loop_body sv cb self))
  = should_stop_background self
  /\ wake_word (snd (loop_body sv cb self)) = wake_word self
  /\ exists evs,
       trace (snd (loop_body sv cb self)) = trace self ++ Sleep 2000 :: evs
       /\ Forall (fun ms => ms = 1000%Z) (sleeps evs).
Proof.
  unfold loop_body.
  destruct (negb (is_processing (emit (Sleep 2000) self))
            && negb (should_stop_background (emit (Sleep 2000) self))).
  2:{ cbn. repeat split. exists []. split; [reflexivity | constructor]. }
  destruct (process_voice_command_frame sv 5 (emit (Sleep 2000) self))
    as (S & W & evs & T & Sl).
  destruct (process_voice_command sv 5 (emit (Sleep 2000) self))
    as [[result|msg] self1].
  - cbn [snd should_stop_background wake_word trace emit] in S, W, T.
    rewrite <- app_assoc in T. cbn [app] in T.
    destruct cb as [f|]; [|cbn [snd]; repeat split; auto;
                            exists evs; rewrite Sl; split; [exact T|constructor]].
    destruct (truthy (dict_get (lit "success") (VBool false) result));
      [|cbn [snd]; repeat split; auto;
        exists evs; rewrite Sl; split; [exact T|constructor]].
    destruct (f (trace self1) result);
      cbn [snd should_stop_background wake_word trace emit];
      repeat split; auto.
    + exists (evs ++ [Callback result]). rewrite T, <- app_assoc.
      split; [reflexivity|]. rewrite sleeps_app, Sl. constructor.
    + exists (evs ++ [Callback result; Sleep 1000]). rewrite T, <- !app_assoc.
      split; [reflexivity|]. rewrite sleeps_app, Sl. repeat constructor.
  - cbn [snd should_stop_background wake_word trace emit] in S, W, T |- *.
    rewrite <- app_assoc in T. cbn [app] in T.
    repeat split; auto.
    exists (evs ++ [Sleep 1000]). rewrite T, <- !app_assoc.
    split; [reflexivity|]. rewrite sleeps_app, Sl. repeat constructor.
Qed.

(** X7. Left to itself the listening loop never ends: it does not set
    [should_stop_background], so as long as nobody else does, [n] passes
    are made for every [n], each with its two-second wait. *)
Theorem listener_runs_until_stopped n sv cb self :
  should_stop_background self = false ->
  should_stop_background (background_listening_thread n sv cb self) = false
  /\ exists evs,
       trace (background_listening_thread n sv cb self) = trace self ++ evs
       /\ count_occ Z.eq_dec (sleeps evs) 2000%Z = n.
Proof.
  revert self. induction n as [|n IH]; intros self H.
  - cbn. split; [exact H|]. exists []. rewrite app_nil_r. auto.
  - cbn [background_listening_thread]. rewrite H.
    destruct (loop_body_frame sv cb self) as (S & _ & evs1 & T1 & F1).
    rewrite H in S.
    destruct (IH _ S) as (S2 & evs2 & T2 & C2).
    split; [exact S2|].
    exists (Sleep 2000 :: evs1 ++ evs2).
    split.
    + rewrite T2, T1, <- app_assoc. reflexivity.
    + change (sleeps (Sleep 2000 :: evs1 ++ evs2))
        with (2000%Z :: sleeps (evs1 ++ evs2)).
      rewrite sleeps_app. cbn [count_occ].
      destruct (Z.eq_dec 2000 2000) as [_|N]; [|congruence].
      f_equal. rewrite count_occ_app, C2.
      assert (Z0 : count_occ Z.eq_dec (sleeps evs1) 2000%Z = 0%nat).
      { apply count_occ_not_In. intros I.
        rewrite Forall_forall in F1. apply F1 in I. discriminate. }
      rewrite Z0. reflexivity.
Qed.

Lemma listener_runs_until_stopped_witness :
  should_stop_background
    (background_listening_thread 3 (sv_hearing (lit "lala hola")) None lala)
  = false.
Proof.
  apply (listener_runs_until_stopped 3 (sv_hearing (lit "lala hola")) None
           lala).
  reflexivity.
Defined.

(** X8. While [is_processing] is set the listener only waits: a pass hears
    nothing, sends nothing to the planner and does not clear the flag, so
    [n] passes leave [n] two-second waits and nothing else. *)
Theorem listener_waits_while_processing n sv cb self :
  is_processing self = true ->
  should_stop_background self = false ->
  trace (background_listening_thread n sv cb self)
  = trace self ++ repeat (Sleep 2000) n
  /\ is_processing (background_listening_thread n sv cb self) = true
  /\ last_command (background_listening_thread n sv cb self)
     = last_command self
  /\ last_response (background_listening_thread n sv cb self)
     = last_response self.
Proof.
  revert self. induction n as [|n IH]; intros self P S.
  - cbn. rewrite app_nil_r. auto.
  - cbn [background_listening_thread]. rewrite S.
    unfold loop_body. cbn [is_processing emit]. rewrite P. cbn [negb andb snd].
    destruct (IH (emit (Sleep 2000) self) P S) as (T & P' & C & R).
    cbn [trace emit last_command last_response] in T, C, R.
    rewrite T, <- app_assoc. auto.
Qed.

Lemma listener_waits_while_processing_witness :
  trace (background_listening_thread 2 sv_failing None
           (set_is_processing true lala))
  = [Sleep 2000; Sleep 2000].
Proof.
  apply (listener_waits_while_processing 2 sv_failing None
           (set_is_processing true lala)); reflexivity.
Defined.


(** X6. The intended use of the wake word: when the utterance begins with
    the wake word, in any mix of upper and lower case, the command is what
    follows it, trimmed, whatever that is. The leading word [said] is any
    text whose lower-casing is that of the wake word and which has neither
    U+0130 nor U+03A3, the two code points whose lower-casing depends on
    more than the code point itself. *)
Theorem leading_wake_word_is_stripped w said rest :
  lower said = lower w ->
  positional said ->
  extract_command w (said ++ rest) = strip rest.
Proof.
  intros L P.
  pose proof (AssistantProofs.extract_command_cases w (said ++ rest)) as X.
  unfold lower at 2 in X. rewrite (lower_from_app [] said rest P), L in X.
  rewrite find_opt_prefix in X. rewrite X. f_equal.
  rewrite <- L, (lower_length said P). cbn [Nat.add].
  rewrite skipn_app, skipn_all, Nat.sub_diag. reflexivity.
Qed.

Lemma leading_wake_word_is_stripped_witness :
  extract_command (lit "Lala") (lit "LALA" ++ lit ", pon musica ")
  = strip (lit ", pon musica ").
Proof.
  apply (leading_wake_word_is_stripped (lit "Lala") (lit "LALA")
           (lit ", pon musica ")).
  - vm_compute. reflexivity.
  - repeat constructor; discriminate.
Defined.

(** Without the condition the property fails: after "a" and U+03A3 the
    letter "b" turns a final sigma into a medial one, the wake word is not
    found and the whole utterance is the command. *)
Example sigma_wake_word_is_not_stripped :
  extract_command [97%N; 931%N] ([97%N; 931%N] ++ [98%N])
  = [97%N; 931%N; 98%N].
Proof. vm_compute. reflexivity. Qed.

End AssistantMoreProofs.

(** ** The Android adapter *)

Module CoreProofs.
Import Py PyFacts Core.

Lemma str_eqb_refl a : str_eqb a a = true.
Proof. apply str_eqb_eq. reflexivity. Qed.

Lemma str_eqb_neq a b : a <> b -> str_eqb a b = false.
Proof.
  intros H. destruct (str_eqb a b) eqn:E; [|reflexivity].
  apply str_eqb_eq in E. contradiction.
Qed.

Lemma callbacks_for_app {C} e (t1 t2 : callback_table C) :
  callbacks_for e (t1 ++ t2)
  = match callbacks_for e t1 with
    | Some l => Some l
    | None => callbacks_for e t2
    end.
Proof.
  induction t1 as [|[k l] t1 IH]; cbn; [reflexivity|].
  destruct (str_eqb e k); [reflexivity | exact IH].
Qed.

Lemma callbacks_for_append {C} e k (cb : C) t :
  callbacks_for e (append_callback k cb t)
  = if str_eqb e k
    then option_map (fun l => l ++ [cb]) (callbacks_for e t)
    else callbacks_for e t.
Proof.
  induction t as [|[k' l] t IH]; cbn.
  - destruct (str_eqb e k); reflexivity.
  - destruct (str_eqb k k') eqn:K; cbn.
    + apply str_eqb_eq in K. subst k'.
      destruct (str_eqb e k); reflexivity.
    + destruct (str_eqb e k') eqn:E'.
      * apply str_eqb_eq in E'. subst k'.
        rewrite (str_eqb_neq e k); [reflexivity|].
        intros ->. rewrite str_eqb_refl in K. discriminate.
      * exact IH.
Qed.

(** One registration: the callback goes last in the list of its event and
    no other list changes. *)
Lemma callbacks_for_register {C} e k (cb : C) t :
  callbacks_for e (register_callback k cb t)
  = if str_eqb e k
    then Some (match callbacks_for e t with Some l => l | None => [] end
               ++ [cb])
    else callbacks_for e t.
Proof.
  unfold register_callback. rewrite callbacks_for_append.
  destruct (str_eqb e k) eqn:E.
  - apply str_eqb_eq in E. subst k.
    destruct (callbacks_for e t) as [l|] eqn:F.
    + rewrite F. reflexivity.
    + rewrite callbacks_for_app, F. cbn. rewrite str_eqb_refl. reflexivity.
  - destruct (callbacks_for k t); [reflexivity|].
    rewrite callbacks_for_app. destruct (callbacks_for e t); [reflexivity|].
    cbn. rewrite E. reflexivity.
Qed.

Lemma register_all_spec {C} e (regs : list (pystr * C)) t :
  callbacks_for e (register_all regs t)
  = match callbacks_for e t,
          map snd (filter (fun r => str_eqb e (fst r)) regs) with
    | None, [] => None
    | old, l => Some (match old with Some o => o | None => [] end ++ l)
    end.
Proof.
  revert t. induction regs as [|[k cb] regs IH]; intros t.
  - cbn. destruct (callbacks_for e t); [rewrite app_nil_r|]; reflexivity.
  - cbn [register_all fold_left fst snd filter]. fold (register_all regs).
    change (fold_left _ regs ?x) with (register_all regs x).
    rewrite IH, callbacks_for_register.
    destruct (str_eqb e k); cbn [map snd].
    + destruct (callbacks_for e t);
        destruct (map snd _); rewrite <- ?app_assoc; reflexivity.
    + reflexivity.
Qed.

(** X9. Callbacks are never lost or reordered: after any series of
    registrations on a new bridge, the callbacks of an event are exactly
    those registered for it, in registration order, and an event nobody
    registered for has no entry. *)
Theorem registered_callbacks_in_order {C} e (regs : list (pystr * C)) :
  callbacks_for e (register_all regs [])
  = match map snd (filter (fun r => str_eqb e (fst r)) regs) with
    | [] => None
    | l => Some l
    end.
Proof. rewrite register_all_spec. reflexivity. Qed.


Lemma flip_spec op self :
  _is_listening (snd (fst (flip op self)))
  = match op with Start => true | Stop => false end
  /\ voice_prefer_offline (snd (fst (flip op self)))
     = voice_prefer_offline self
  /\ voice_offline_model_loaded (snd (fst (flip op self)))
     = voice_offline_model_loaded self
  /\ fst (fst (flip op self))
     = negb (Bool.eqb (_is_listening self)
               match op with Start => true | Stop => false end)
  /\ length (snd (flip op self))
     = if fst (fst (flip op self)) then 1 else 0.
Proof.
  destruct op; unfold flip, start_listening, stop_listening;
    destruct (_is_listening self) eqn:L; cbn; rewrite ?L; auto.
Qed.

(** X10. The listening switch. After any run of [start_listening] and
    [stop_listening] calls the service listens exactly if the last call was
    a start; a call returns True exactly when it changed the state, one
    toast is shown per such call, and calling the same method twice in a
    row returns False the second time. *)
Theorem listening_switch ops self :
  _is_listening (snd (fst (flips ops self)))
  = last_target ops (_is_listening self)
  /\ length (snd (flips ops self))
     = count_occ bool_dec (fst (fst (flips ops self))) true
  /\ forall op,
       fst (fst (flip op (snd (fst (flips (ops ++ [op]) self))))) = false.
Proof.
  revert self. induction ops as [|op ops IH]; intros self.
  - cbn [flips fst snd app length count_occ last_target].
    split; [reflexivity|]. split; [reflexivity|].
    intros op. destruct (flip op self) as [[r s1] e1] eqn:F. cbn [fst snd].
    pose proof (flip_spec op self) as (L & _ & _ & _). rewrite F in L.
    cbn [fst snd] in L.
    pose proof (flip_spec op s1) as (_ & _ & _ & R & _).
    rewrite R, L. destruct op; reflexivity.
  - cbn [flips app].
    destruct (flip op self) as [[r s1] e1] eqn:F.
    specialize (IH s1). destruct IH as (A & B & D).
    destruct (flips ops s1) as [[rs s2] e2] eqn:G. cbn [fst snd] in *.
    pose proof (flip_spec op self) as (L & _ & _ & R & N). rewrite F in L, R, N.
    cbn [fst snd] in L, R, N.
    split; [|split].
    + rewrite A, L. destruct op; reflexivity.
    + rewrite length_app, N, B. cbn [count_occ].
      destruct r; destruct (bool_dec _ _); try congruence; reflexivity.
    + intros op'. specialize (D op').
      destruct (flips (ops ++ [op']) s1) as [[rs' s3] e3]. exact D.
Qed.

Lemma requested_app a b : requested (a ++ b) = requested a ++ requested b.
Proof. apply flat_map_app. Qed.

Lemma checked_app a b : checked (a ++ b) = checked a ++ checked b.
Proof. apply flat_map_app. Qed.

Lemma request_missing_spec b perms acc :
  fst (request_missing b perms acc) = acc && forallb (obtained b) perms
  /\ checked (snd (request_missing b perms acc)) = perms
  /\ requested (snd (request_missing b perms acc))
     = filter (fun p => negb (check_permission b p)) perms.
Proof.
  revert acc. induction perms as [|p perms IH]; intros acc.
  - cbn. rewrite andb_true_r. auto.
  - cbn [request_missing forallb filter]. unfold obtained at 1.
    destruct (check_permission b p) eqn:Ck; cbn [negb orb].
    + destruct (IH acc) as (A & B & D).
      destruct (request_missing b perms acc) as [r evs]. cbn [fst snd] in *.
      split; [exact A|]. split; [cbn; f_equal; exact B | exact D].
    + destruct (IH (acc && request_permission b p)) as (A & B & D).
      destruct (request_missing b perms (acc && request_permission b p))
        as [r evs]. cbn [fst snd] in *.
      split; [rewrite A; apply eq_sym, andb_assoc|].
      split; cbn; f_equal; assumption.
Qed.

(** X11. [VoiceRecognitionService._check_permissions] checks the audio and
    the network permission, in this order, whatever the answers; it
    requests exactly those the bridge does not report as granted, going on
    after a refusal; and it returns True exactly when each of the two is
    granted or becomes so on request. *)
Theorem voice_permissions b :
  fst (voice_check_permissions b)
  = obtained b RECORD_AUDIO && obtained b INTERNET
  /\ checked (snd (voice_check_permissions b)) = [RECORD_AUDIO; INTERNET]
  /\ requested (snd (voice_check_permissions b))
     = filter (fun p => negb (check_permission b p)) [RECORD_AUDIO; INTERNET].
Proof.
  unfold voice_check_permissions.
  destruct (request_missing_spec b [RECORD_AUDIO; INTERNET] true)
    as (A & B & D).
  rewrite A, B, D. cbn [forallb andb]. rewrite andb_true_r. auto.
Qed.

Lemma check_or_request_spec b p :
  fst (check_or_request b p) = obtained b p
  /\ checked (snd (check_or_request b p)) = [p]
  /\ requested (snd (check_or_request b p))
     = filter (fun p => negb (check_permission b p)) [p].
Proof.
  unfold check_or_request, obtained. cbn [filter].
  destruct (check_permission b p); cbn; auto.
Qed.

(** X12. [StorageService._check_permissions] on a device whose
    [sdk_level] is the integer [z] (0 when the device info has no such
    entry): it deals with MANAGE_EXTERNAL_STORAGE from level 30 on, with
    READ_EXTERNAL_STORAGE at level 29, and with READ and WRITE below; it
    requests only what is not granted yet, and returns True exactly when
    every permission of the level is granted or becomes so. *)
Theorem storage_permissions_by_level b info z :
  get_device_info b = VDict info ->
  dict_get (lit "sdk_level") (VInt 0) info = VInt z ->
  exists r evs,
    storage_check_permissions b = Returns (r, evs)
    /\ checked evs = storage_permissions z
    /\ requested evs
       = filter (fun p => negb (check_permission b p)) (storage_permissions z)
    /\ r = forallb (obtained b) (storage_permissions z).
Proof.
  intros I S. unfold storage_check_permissions, storage_permissions.
  rewrite I. cbn [get]. rewrite S. cbn [ge_int].
  destruct (30 <=? z)%Z.
  - destruct (check_or_request_spec b MANAGE_EXTERNAL_STORAGE) as (A & B & D).
    destruct (check_or_request b MANAGE_EXTERNAL_STORAGE) as [r evs].
    exists r, evs. cbn [fst snd forallb] in *. rewrite andb_true_r. auto.
  - destruct (29 <=? z)%Z.
    + destruct (check_or_request_spec b READ_EXTERNAL_STORAGE) as (A & B & D).
      destruct (check_or_request b READ_EXTERNAL_STORAGE) as [r evs].
      exists r, evs. cbn [fst snd forallb] in *. rewrite andb_true_r. auto.
    + destruct (request_missing_spec b
                  [READ_EXTERNAL_STORAGE; WRITE_EXTERNAL_STORAGE] true)
        as (A & B & D).
      destruct (request_missing b
                  [READ_EXTERNAL_STORAGE; WRITE_EXTERNAL_STORAGE] true)
        as [r evs].
      exists r, evs. cbn [fst snd] in *. auto.
Qed.

Lemma storage_permissions_by_level_witness :
  exists r evs,
    storage_check_permissions MoreSamples.old_bridge = Returns (r, evs)
    /\ checked evs = [READ_EXTERNAL_STORAGE; WRITE_EXTERNAL_STORAGE]
    /\ requested evs = [READ_EXTERNAL_STORAGE; WRITE_EXTERNAL_STORAGE]
    /\ r = false.
Proof.
  exact (storage_permissions_by_level MoreSamples.old_bridge
           [ (lit "sdk_level", VInt 28) ] 28 eq_refl eq_refl).
Defined.

(** The bridge of core.py is at level 33 and grants everything: one check,
    no request. *)
Example storage_permissions_prototype :
  storage_check_permissions AndroidBridge
  = Returns (true, [CheckPermission MANAGE_EXTERNAL_STORAGE]).
Proof. reflexivity. Qed.

End CoreProofs.

(** ** The speech synthesis engine *)

Module TtsProofs.
Import Py Tts.

Example dirname_examples :
  dirname (lit "out/audio/a.wav") = lit "out/audio"
  /\ dirname (lit "/a.wav") = lit "/"
  /\ dirname (lit "a.wav") = []
  /\ dirname (lit "out//a.wav") = lit "out"
  /\ dirname (lit "//a.wav") = lit "//".
Proof. repeat split; reflexivity. Qed.

Lemma step_idle fs c e : idle e -> idle (step fs c e).
Proof.
  intros (S & T). unfold idle.
  destruct c; cbn [step].
  - cbn. split; [exact S | reflexivity].
  - unfold synthesize. destruct (_is_initialized e) eqn:I; cbn; rewrite ?I.
    + split; [reflexivity | intros _; reflexivity].
    + split; assumption.
  - unfold speak. destruct (_is_initialized e) eqn:I; cbn; rewrite ?I.
    + split; [reflexivity | intros _; reflexivity].
    + split; assumption.
  - unfold stop. rewrite S. cbn. split; assumption.
Qed.

Lemma step_fields fs c e :
  model_path (step fs c e) = model_path e
  /\ _is_initialized (step fs c e)
     = _is_initialized e
       || match c with Initialize => true | _ => false end.
Proof.
  destruct c; cbn [step].
  - cbn. rewrite orb_true_r. auto.
  - unfold synthesize. destruct (_is_initialized e) eqn:I; cbn; rewrite ?I;
      auto.
  - unfold speak. destruct (_is_initialized e) eqn:I; cbn; rewrite ?I; auto.
  - unfold stop. destruct (_is_speaking e); cbn; rewrite orb_false_r; auto.
Qed.

Lemma after_spec fs calls e :
  idle e ->
  idle (after fs calls e)
  /\ model_path (after fs calls e) = model_path e
  /\ _is_initialized (after fs calls e)
     = _is_initialized e
       || existsb (fun c => match c with Initialize => true | _ => false end)
            calls.
Proof.
  revert e. induction calls as [|c calls IH]; intros e H.
  - cbn. rewrite orb_false_r. auto.
  - cbn [after fold_left existsb]. fold (after fs calls (step fs c e)).
    destruct (IH _ (step_idle fs c e H)) as (A & B & D).
    destruct (step_fields fs c e) as (P & I).
    split; [exact A|]. split; [congruence|].
    rewrite D, I, orb_assoc. reflexivity.
Qed.

(** X13. Whatever calls are made on a new engine, and whatever the file
    system does: between calls the engine is never speaking, it is
    initialised exactly if [initialize] was called, it has a current text
    only if it is initialised, and its model path is the one it was
    created with. *)
Theorem engine_invariants fs calls path :
  _is_speaking (after fs calls (new path)) = false
  /\ _is_initialized (after fs calls (new path))
     = existsb (fun c => match c with Initialize => true | _ => false end)
         calls
  /\ (_current_text (after fs calls (new path)) <> None ->
      _is_initialized (after fs calls (new path)) = true)
  /\ model_path (after fs calls (new path)) = path.
Proof.
  assert (H : idle (new path)) by (split; [reflexivity | intros X; now elim X]).
  destruct (after_spec fs calls (new path) H) as ((S & T) & P & I).
  repeat split; auto.
Qed.

Lemma engine_invariants_witness :
  _current_text
    (after {| makedirs := fun _ => Raises [] |}
       [Initialize; Speak (lit "hola") (lit "es") None 1 1] (new (lit "m")))
  = Some (lit "hola")
  /\ _is_initialized
       (after {| makedirs := fun _ => Raises [] |}
          [Initialize; Speak (lit "hola") (lit "es") None 1 1]
          (new (lit "m")))
     = true.
Proof.
  split; [reflexivity|].
  apply (engine_invariants {| makedirs := fun _ => Raises [] |}
           [Initialize; Speak (lit "hola") (lit "es") None 1 1] (lit "m")).
  discriminate.
Defined.

(** X14. The debug file cannot fail a synthesis. On an initialised engine
    [synthesize] returns success with the text, language, speaker and
    output path it was given, whatever the file system does, and it
    attempts to write the debug file only for a non-empty output path, at
    that path followed by ".txt", after its directory was made; on an
    engine that is not initialised it returns the error, changes nothing
    and does nothing. *)
Theorem synthesize_result fs text output_path language speaker self :
  if _is_initialized self then
    fst (fst (synthesize fs text output_path language speaker self))
    = [ (lit "success", VBool true);
        (lit "text", VStr text);
        (lit "language", VStr language);
        (lit "speaker", opt_str speaker);
        (lit "output_path", opt_str output_path) ]
    /\ _current_text
         (snd (fst (synthesize fs text output_path language speaker self)))
       = Some text
    /\ _is_speaking
         (snd (fst (synthesize fs text output_path language speaker self)))
       = false
    /\ forall path contents,
         In (WriteText path contents)
           (snd (synthesize fs text output_path language speaker self)) ->
         exists p,
           output_path = Some p /\ p <> [] /\ path = p ++ lit ".txt"
           /\ makedirs fs (dirname p) = Returns tt
  else
    synthesize fs text output_path language speaker self
    = (uninitialized, self, []).
Proof.
  unfold synthesize. destruct (_is_initialized self); cbn [negb fst snd].
  2:{ reflexivity. }
  repeat split. intros path contents [H|H]; [discriminate|].
  destruct output_path as [[|c p]|]; try contradiction.
  unfold write_debug_file in H.
  destruct (makedirs fs (dirname (c :: p))) as [[]|msg] eqn:M.
  - destruct H as [H|[H|[]]]; [discriminate|]. inversion H; subst.
    exists (c :: p). repeat split; auto. discriminate.
  - destruct H as [H|[]]. discriminate.
Qed.

Lemma synthesize_result_witness :
  fst (fst (synthesize {| makedirs := fun _ => Raises (lit "denied") |}
              (lit "hola") (Some (lit "out/a.wav")) (lit "es") None
              (snd (initialize (new (lit "m"))))))
  = [ (lit "success", VBool true);
      (lit "text", VStr (lit "hola"));
      (lit "language", VStr (lit "es"));
      (lit "speaker", VNone);
      (lit "output_path", VStr (lit "out/a.wav")) ].
Proof.
  pose proof (synthesize_result {| makedirs := fun _ => Raises (lit "denied") |}
                (lit "hola") (Some (lit "out/a.wav")) (lit "es") None
                (snd (initialize (new (lit "m"))))) as S.
  cbn [initialize snd _is_initialized] in S.
  destruct S as (R & _). exact R.
Defined.

End TtsProofs.

(** ** The rest of [VoskRecognizer] *)

Module VoskMoreProofs.
Import Py PyFacts Control Vosk VoskMore.
Import ProofTools.
Local Open Scope py_scope.

Lemma initialize_raises lb model_path self :
  initialize lb model_path self
  = (Raises (lit "name 'sys' is not defined"), self).
Proof. reflexivity. Qed.

(** No method changes an object that is not initialised. *)
Lemma invoke_uninitialized lb model_path m self :
  is_initialized self = false -> invoke lb model_path m self = self.
Proof.
  intros H. destruct m; cbn [invoke].
  - reflexivity.
  - unfold reset. rewrite H. reflexivity.
  - unfold process_audio_file. rewrite H. reflexivity.
  - unfold process_audio_data. rewrite H. reflexivity.
  - unfold start_streaming. rewrite H. reflexivity.
  - reflexivity.
Qed.

Lemma after_uninitialized lb model_path ms self :
  is_initialized self = false -> after lb model_path ms self = self.
Proof.
  intros H. induction ms as [|m ms IH]; [reflexivity|].
  cbn [after fold_left]. rewrite invoke_uninitialized by exact H. exact IH.
Qed.

(** X15. [initialize] begins by reading [sys.argv] in a module that never
    imports [sys], so it raises before it sets anything. Hence a
    recogniser cannot be created where vosk and the model are present (the
    constructor raises), and one created elsewhere is never initialised:
    whatever methods are called on it, it stays as created, and
    [process_audio_file] answers "Reconocedor no inicializado". *)
Theorem recognizer_never_initialized lb model_path :
  new lb model_path
  = (if VOSK_AVAILABLE lb && path_exists (base lb) model_path
     then Raises (lit "name 'sys' is not defined")
     else Returns blank)
  /\ forall ms,
       after lb model_path ms blank = blank
       /\ forall p,
            process_audio_file (base lb) p (after lb model_path ms blank)
            = (failure (lit "Reconocedor no inicializado"), blank).
Proof.
  split.
  - unfold new.
    destruct (VOSK_AVAILABLE lb && path_exists (base lb) model_path);
      reflexivity.
  - intros ms.
    assert (A : after lb model_path ms blank = blank)
      by (apply after_uninitialized; reflexivity).
    split; [exact A|]. intros p. rewrite A. reflexivity.
Qed.

(** One chunk through [process_audio_data]: the recogniser has it, however
    the call ends. *)
Lemma process_audio_data_feeds lb data is_final self fed :
  is_initialized self = true ->
  recognizer self = Some fed ->
  recognizer (snd (process_audio_data lb (Bytes data) is_final self))
  = Some (fed ++ [data])
  /\ passed (snd (process_audio_data lb (Bytes data) is_final self))
     = passed self ++ [data]
  /\ is_initialized (snd (process_audio_data lb (Bytes data) is_final self))
     = true.
Proof.
  intros I R. unfold process_audio_data. rewrite I. cbn [negb].
  assert (I' : is_initialized
                 {| _is_initialized := _is_initialized self;
                    model := model self;
                    recognizer := Some (fed ++ [data]);
                    passed := passed self ++ [data] |} = true).
  { unfold is_initialized in *. cbn. rewrite R in I.
    destruct (_is_initialized self), (model self); auto. }
  destruct (data_body lb (Bytes data) is_final self) as [o self'] eqn:E.
  assert (X : self' = {| _is_initialized := _is_initialized self;
                         model := model self;
                         recognizer := Some (fed ++ [data]);
                         passed := passed self ++ [data] |}).
  { unfold data_body, bind, lift, ret, accept_waveform, recognizer_result,
      partial_result in E. cbn [audio_bytes] in E.
    destruct is_final; cbv beta iota in E; rewrite R in E;
      cbn [recognizer] in E; repeat case_step; reflexivity. }
  destruct o; cbn [snd]; subst self'; auto.
Qed.

(** X16. [process_audio_data] does not reset the recogniser: on an
    initialised object, chunks fed one after the other all reach the
    recogniser, which ends up with the audio it had followed by the
    chunks, in order, whatever it answered in between. *)
Theorem feed_accumulates lb chunks self fed :
  is_initialized self = true ->
  recognizer self = Some fed ->
  recognizer (feed lb chunks self) = Some (fed ++ chunks)
  /\ passed (feed lb chunks self) = passed self ++ chunks
  /\ is_initialized (feed lb chunks self) = true.
Proof.
  revert self fed. induction chunks as [|c chunks IH]; intros self fed I R.
  - cbn. rewrite !app_nil_r. auto.
  - cbn [feed fold_left].
    destruct (process_audio_data_feeds lb c false self fed I R)
      as (R1 & P1 & I1).
    destruct (IH _ _ I1 R1) as (R2 & P2 & I2).
    unfold feed in *. rewrite R2, P2, P1, <- !app_assoc. auto.
Qed.


(** X17. A result of [process_audio_data] that reports success is marked
    partial exactly when no final result was asked for and the recogniser
    did not complete an utterance on this chunk; a partial result has
    confidence 0.0. *)
Theorem partial_only_when_unfinished lb a data is_final self fed :
  is_initialized self = true ->
  recognizer self = Some fed ->
  audio_bytes a = Returns data ->
  lookup (lit "success") (fst (process_audio_data lb a is_final self))
  = Some (VBool true) ->
  exists accepted,
    AcceptWaveform (base lb) (fed ++ [data]) = Returns accepted
    /\ lookup (lit "partial") (fst (process_audio_data lb a is_final self))
       = Some (VBool (negb is_final && negb accepted))
    /\ (negb is_final && negb accepted = true ->
        lookup (lit "confidence")
          (fst (process_audio_data lb a is_final self))
        = Some (VFloat 0%Q)).
Proof.
  intros I R A. unfold process_audio_data. rewrite I. cbn [negb].
  destruct (data_body lb a is_final self) as [o self'] eqn:E.
  unfold data_body, bind, lift, ret, accept_waveform, recognizer_result,
    partial_result in E. rewrite A in E.
  destruct is_final; cbv beta iota in E; rewrite R in E;
    cbn [recognizer] in E; repeat case_step; cbn [fst]; intros S;
    try (cbn in S; discriminate S);
    eexists; (split; [reflexivity|]); cbn; split; auto; discriminate.
Qed.

Lemma partial_only_when_unfinished_witness :
  lookup (lit "partial")
    (fst (process_audio_data
            MoreSamples.libs_sample
            (Bytes [1%N; 2%N]) false Samples.vosk))
  = Some (VBool true).
Proof.
  destruct (partial_only_when_unfinished
              MoreSamples.libs_sample
              (Bytes [1%N; 2%N]) [1%N; 2%N] false Samples.vosk []
              eq_refl eq_refl eq_refl eq_refl) as (accepted & A & P & _).
  inversion A; subst accepted. exact P.
Defined.

Lemma feed_accumulates_witness :
  recognizer
    (feed MoreSamples.libs_sample
       [[1%N]; [2%N]; [3%N]] Samples.vosk)
  = Some [[1%N]; [2%N]; [3%N]].
Proof.
  apply (feed_accumulates
           MoreSamples.libs_sample
           [[1%N]; [2%N]; [3%N]] Samples.vosk []); reflexivity.
Defined.


(** The read loop hands every chunk of audio to the recogniser. *)
Lemma read_loop_passes en rs :
  forall results self fed results' self',
    recognizer self = Some fed ->
    read_loop en rs results self = (Returns results', self') ->
    recognizer self' = Some (fed ++ audio_chunks rs)
    /\ passed self' = passed self ++ audio_chunks rs.
Proof.
  induction rs as [|data rest IH]; intros results self fed results' self' R H.
  - cbn in H. inversion H; subst. cbn. rewrite !app_nil_r. auto.
  - destruct data as [|b data].
    { cbn in H. inversion H; subst. cbn. rewrite !app_nil_r. auto. }
    cbn [read_loop audio_chunks] in *.
    set (chunk := b :: data) in *.
    apply bind_returns in H. destruct H as (accepted & self1 & H1 & H).
    unfold accept_waveform in H1. rewrite R in H1.
    inversion H1 as [[EA E1]]. clear H1.
    assert (R1 : recognizer self1 = Some (fed ++ [chunk]))
      by (subst self1; reflexivity).
    assert (P1 : passed self1 = passed self ++ [chunk])
      by (subst self1; reflexivity).
    clear E1.
    apply bind_returns in H. destruct H as (results1 & self2 & H2 & H).
    assert (S2 : self2 = self1).
    { destruct accepted.
      - apply bind_returns in H2. destruct H2 as (j & self3 & H3 & H2).
        unfold recognizer_result in H3. rewrite R1 in H3.
        inversion H3; subst self3.
        apply bind_returns in H2. destruct H2 as (r & self4 & H4 & H2).
        apply lift_returns in H4. destruct H4 as [_ ->].
        apply lift_returns in H2. destruct H2 as [_ ->]. reflexivity.
      - apply ret_returns in H2. destruct H2 as [_ ->]. reflexivity. }
    subst self2.
    destruct (IH _ _ _ _ _ R1 H) as (R' & P').
    rewrite R', P', P1, <- !app_assoc. auto.
Qed.

(** X18. A file that is recognised is heard whole and alone:
    [process_audio_file] starts from a fresh recogniser, and when it
    reports success the recogniser has been given exactly the reads of
    this file up to the first empty one, in order, each once. *)
Theorem process_audio_file_passes_all en path self :
  lookup (lit "success") (fst (process_audio_file en path self))
  = Some (VBool true) ->
  exists wf,
    wave_open en path = Returns wf
    /\ recognizer (snd (process_audio_file en path self))
       = Some (audio_chunks (reads wf))
    /\ passed (snd (process_audio_file en path self))
       = passed self ++ audio_chunks (reads wf).
Proof.
  unfold process_audio_file.
  destruct (is_initialized self) eqn:I; cbn [negb];
    [|cbn; discriminate].
  destruct (path_exists en path); cbn [negb]; [|cbn; discriminate].
  destruct (try_body en path self) as [[d|msg] self'] eqn:T; cbn [fst snd];
    [|cbn; discriminate].
  intros Hs. unfold try_body in T.
  apply bind_returns in T. destruct T as (u & self1 & T1 & T).
  apply (VoskProofs.reset_returns _ _ _ _ I) in T1. destruct T1 as [R1 P1].
  apply bind_returns in T. destruct T as (wf & self2 & T2 & T).
  apply lift_returns in T2. destruct T2 as [W ->].
  exists wf. split; [exact W|].
  destruct (unsupported_format wf).
  { apply ret_returns in T. destruct T as [-> _]. cbn in Hs. discriminate. }
  apply bind_returns in T. destruct T as (results & self3 & T3 & T).
  destruct (read_loop_passes _ _ _ _ _ _ _ R1 T3) as (R3 & P3).
  apply bind_returns in T. destruct T as (final_json & self4 & T4 & T).
  unfold recognizer_result in T4. rewrite R3 in T4.
  inversion T4; subst self4. clear T4.
  apply bind_returns in T. destruct T as (final & self5 & T5 & T).
  apply lift_returns in T5. destruct T5 as [_ ->].
  apply bind_returns in T. destruct T as (results2 & self6 & T6 & T).
  apply lift_returns in T6. destruct T6 as [_ ->].
  apply bind_returns in T. destruct T as (joined & self7 & T7 & T).
  apply lift_returns in T7. destruct T7 as [_ ->].
  apply bind_returns in T. destruct T as (confidence & self8 & T8 & T).
  apply lift_returns in T8. destruct T8 as [_ ->].
  apply ret_returns in T. destruct T as [_ ->].
  rewrite R3, P3, P1. auto.
Qed.

Lemma process_audio_file_passes_all_witness :
  exists wf,
    wave_open Samples.engine_sample (lit "mono.wav") = Returns wf
    /\ recognizer
         (snd (process_audio_file Samples.engine_sample (lit "mono.wav")
                 Samples.vosk))
       = Some (audio_chunks (reads wf))
    /\ passed
         (snd (process_audio_file Samples.engine_sample (lit "mono.wav")
                 Samples.vosk))
       = passed Samples.vosk ++ audio_chunks (reads wf).
Proof.
  apply (process_audio_file_passes_all Samples.engine_sample
           (lit "mono.wav") Samples.vosk).
  reflexivity.
Defined.

End VoskMoreProofs.

(** ** The functions offered to the Android application *)

Module ApiProofs.
Import Py PyFacts Control Assistant Api.
Import ProofTools.
Local Open Scope py_scope.

(** X19. In demonstration mode ("--demo" or "--offline" on the command
    line) [process_command] is scripted: it leaves the assistant and
    everything else untouched, its reply depends on the command text only,
    and the reply says success, model "offline-demo", not online, with a
    non-empty response. *)
Theorem demonstration_is_scripted pf argv command_text w :
  demonstration argv = true ->
  snd (process_command pf argv command_text w) = w
  /\ (forall pf' w',
        fst (process_command pf' argv command_text w')
        = fst (process_command pf argv command_text w))
  /\ lookup (lit "success") (fst (process_command pf argv command_text w))
     = Some (VBool true)
  /\ lookup (lit "model") (fst (process_command pf argv command_text w))
     = Some (VStr (lit "offline-demo"))
  /\ lookup (lit "online") (fst (process_command pf argv command_text w))
     = Some (VBool false)
  /\ exists response,
       lookup (lit "response") (fst (process_command pf argv command_text w))
       = Some (VStr response)
       /\ response <> [].
Proof.
  intros D. unfold process_command. rewrite D. cbn [fst snd].
  split; [reflexivity|]. split; [reflexivity|].
  unfold demo_reply, demo.
  repeat match goal with
         | |- context [if ?c then _ else _] => destruct c
         end;
    (split; [reflexivity|]); (split; [reflexivity|]);
    (split; [reflexivity|]); eexists; (split; [reflexivity|]); discriminate.
Qed.


Lemma demonstration_is_scripted_witness :
  snd (process_command MoreSamples.pf_sample [lit "main.py"; lit "--demo"]
         (lit "Pon una alarma") MoreSamples.world0)
  = MoreSamples.world0.
Proof.
  apply (demonstration_is_scripted MoreSamples.pf_sample
           [lit "main.py"; lit "--demo"] (lit "Pon una alarma")
           MoreSamples.world0).
  reflexivity.
Defined.

(** Outside the demonstration mode [process_command] hands the command to
    the assistant. What the connectivity check raises there is answered by
    the handler: the function still returns a dict, which reports the
    error. *)
Lemma process_command_reports pf argv command_text w msg :
  demonstration argv = false ->
  is_online (sv pf) (trace (assistant w)) = Raises msg ->
  fst (process_command pf argv command_text w) = failed msg
  /\ last_command
       (assistant (snd (process_command pf argv command_text w)))
     = Some command_text.
Proof.
  intros D O. unfold process_command, on_global. rewrite D.
  rewrite AssistantProofs.process_text_command_obj_fst,
    (AssistantProofs.process_text_command_obj_unchecked _ _ _ _ _ O).
  unfold demonstration in D. apply orb_false_iff in D. destruct D as (D & _).
  rewrite D. split; reflexivity.
Qed.

(** X20. Which scripted reply is given: a command that contains "hola"
    gets the greeting whatever else it says, and a reply carries a plan
    exactly when the command mentions the weather, an alarm, a message or
    opening an application and is neither a greeting nor a question about
    what the assistant can do. *)
Theorem scripted_reply_plan command_text :
  let says kw := contains kw (lower command_text) in
  (if says (lit "hola")
   then demo_reply command_text = demo_reply (lit "hola")
   else True)
  /\ has_key (lit "plan") (demo_reply command_text)
     = negb (says (lit "hola"))
       && negb (says (lit "qu" ++ [233%N] ++ lit " puedes hacer")
                || says (lit "funciones"))
       && (says (lit "clima") || says (lit "alarma") || says (lit "mensaje")
           || says (lit "abre") || says (lit "abrir")).
Proof.
  cbv zeta. unfold demo_reply, demo.
  destruct (contains (lit "hola") (lower command_text)); [split; reflexivity|].
  split; [exact I|].
  repeat match goal with
         | |- context [contains ?k ?s] => destruct (contains k s)
         end; reflexivity.
Qed.


(** [get_configuration] changes nothing and reports the fields as they
    are. *)
Lemma get_configuration_reads pf w o w' :
  get_configuration pf w = (o, w') ->
  w' = w
  /\ match o with
     | Returns c =>
         lookup (lit "wake_word") c = Some (VStr (wake_word (assistant w)))
         /\ lookup (lit "prefer_offline") c
            = Some (VBool (prefer_offline (assistant w)))
         /\ lookup (lit "is_active") c
            = Some (VBool (is_active (assistant w)))
     | Raises _ => True
     end.
Proof.
  unfold get_configuration, models_config, bind, lift. intros H.
  repeat case_step; auto.
Qed.

Lemma with_assistant_same w : with_assistant (assistant w) w = w.
Proof. destruct w; reflexivity. Qed.

(** X21. [update_configuration] applies what it is given: afterwards the
    wake word is the new one if it has at least two characters and the old
    one otherwise, the offline preference and [ai_router.offline_mode] are
    the new preference if one was given; and when the call reports
    success, the configuration it returns shows these values. *)
Theorem update_configuration_applies pf config w :
  let w' := snd (update_configuration pf config w) in
  wake_word (assistant w')
  = match new_wake_word config with
    | Some s => if (2 <=? length s)%nat then s else wake_word (assistant w)
    | None => wake_word (assistant w)
    end
  /\ prefer_offline (assistant w')
     = match new_prefer_offline config with
       | Some b => b
       | None => prefer_offline (assistant w)
       end
  /\ offline_mode w'
     = match new_prefer_offline config with
       | Some b => b
       | None => offline_mode w
       end
  /\ exists d,
       fst (update_configuration pf config w) = Returns d
       /\ match lookup (lit "success") d with
          | Some (VBool true) =>
              exists c,
                lookup (lit "config") d = Some (VDict c)
                /\ lookup (lit "wake_word") c
                   = Some (VStr (wake_word (assistant w')))
                /\ lookup (lit "prefer_offline") c
                   = Some (VBool (prefer_offline (assistant w')))
          | _ => exists msg, lookup (lit "error") d = Some (VStr msg)
          end.
Proof.
  cbv zeta. destruct config as [ow ob].
  unfold update_configuration, catch, bind, ret, on_assistant.
  cbn [new_wake_word new_prefer_offline].
  assert (SW : forall s,
             wake_word (snd (set_wake_word s (assistant w)))
             = (if (2 <=? length s)%nat then s else wake_word (assistant w))
             /\ prefer_offline (snd (set_wake_word s (assistant w)))
                = prefer_offline (assistant w)).
  { intros s. unfold set_wake_word. destruct s as [|a [|b s]]; cbn; auto. }
  destruct ow as [s|], ob as [b|]; cbv beta iota;
    try (destruct (SW s) as (S1 & S2));
    cbn [set_offline_preference];
    match goal with |- context [get_configuration pf ?W] =>
      destruct (get_configuration pf W) as [o w3] eqn:G end;
    apply get_configuration_reads in G; destruct G as (-> & G);
    (destruct o as [c|msg]; cbn [fst snd assistant offline_mode with_assistant
                                  wake_word prefer_offline emit
                                  set_prefer_offline];
     rewrite ?S1, ?S2;
     (split; [reflexivity|]); (split; [reflexivity|]);
     (split; [reflexivity|]);
     eexists; (split; [reflexivity|]); cbn;
     [ exists c; destruct G as (G1 & G2 & _);
       cbn [assistant offline_mode with_assistant wake_word prefer_offline
            emit set_prefer_offline] in G1, G2;
       rewrite ?S1, ?S2 in *; auto
     | eauto ]).
Qed.


Lemma update_configuration_applies_witness :
  wake_word
    (assistant
       (snd (update_configuration MoreSamples.pf_sample
               {| new_wake_word := Some (lit "Oye");
                  new_prefer_offline := Some true |} MoreSamples.world0)))
  = lit "Oye"
  /\ offline_mode
       (snd (update_configuration MoreSamples.pf_sample
               {| new_wake_word := Some (lit "Oye");
                  new_prefer_offline := Some true |} MoreSamples.world0))
     = true.
Proof.
  destruct (update_configuration_applies MoreSamples.pf_sample
              {| new_wake_word := Some (lit "Oye");
                 new_prefer_offline := Some true |} MoreSamples.world0)
    as (A & _ & B & _).
  split; [exact A | exact B].
Defined.

(** X22. A wake word that is too short is dropped without a word:
    [update_configuration] returns the same dict and leaves the same state
    as if the configuration had no "wake_word" entry at all, so it still
    reports success whenever the configuration can be read. *)
Theorem short_wake_word_goes_unreported pf s other w :
  (length s < 2)%nat ->
  update_configuration pf
    {| new_wake_word := Some s; new_prefer_offline := other |} w
  = update_configuration pf
      {| new_wake_word := None; new_prefer_offline := other |} w.
Proof.
  intros H. unfold update_configuration, catch, bind, ret, on_assistant.
  cbn [new_wake_word new_prefer_offline].
  assert (E : with_assistant (snd (set_wake_word s (assistant w))) w = w).
  { unfold set_wake_word.
    destruct s as [|a [|b s]]; cbn in *; try lia; apply with_assistant_same. }
  rewrite E. reflexivity.
Qed.

Lemma short_wake_word_goes_unreported_witness :
  update_configuration MoreSamples.pf_sample
    {| new_wake_word := Some (lit "L"); new_prefer_offline := None |}
    MoreSamples.world0
  = update_configuration MoreSamples.pf_sample
      {| new_wake_word := None; new_prefer_offline := None |}
      MoreSamples.world0.
Proof.
  apply (short_wake_word_goes_unreported MoreSamples.pf_sample (lit "L")
           None MoreSamples.world0).
  cbn. lia.
Defined.

(** With the sample platform the call reports success and the wake word
    stays "Lala". *)
Example short_wake_word_example :
  lookup (lit "success")
    match fst (update_configuration MoreSamples.pf_sample
                 {| new_wake_word := Some (lit "L");
                    new_prefer_offline := None |} MoreSamples.world0) with
    | Returns d => d
    | Raises _ => []
    end
  = Some (VBool true)
  /\ wake_word
       (assistant
          (snd (update_configuration MoreSamples.pf_sample
                  {| new_wake_word := Some (lit "L");
                     new_prefer_offline := None |} MoreSamples.world0)))
     = lit "Lala".
Proof. split; reflexivity. Qed.

(** What [start] leaves of the assistant. *)
Lemma start_frame pf w o w' :
  start pf w = (o, w') ->
  user_id (assistant w') = user_id (assistant w)
  /\ wake_word (assistant w') = wake_word (assistant w)
  /\ prefer_offline (assistant w') = prefer_offline (assistant w)
  /\ last_command (assistant w') = last_command (assistant w)
  /\ last_response (assistant w') = last_response (assistant w)
  /\ offline_mode w' = offline_mode w
  /\ match o with
     | Returns r => r = true /\ is_active (assistant w') = true
     | Raises _ => is_active (assistant w') = is_active (assistant w)
     end.
Proof.
  unfold start, show_notification, models_config, on_assistant, bind, lift,
    ret.
  intros H. cbn [assistant with_assistant trace emit] in H.
  repeat case_step; cbn; auto 10.
Qed.

(** X23. [initialize_assistant] replaces the global assistant before it
    starts it: whether or not it then reports success, the assistant
    afterwards is a new one with the given user, wake word and offline
    preference and no last command or response, and
    [ai_router.offline_mode] is the given preference. When it reports
    success the assistant is active and the configuration returned shows
    the wake word; otherwise the dict carries the error. *)
Theorem initialize_assistant_replaces pf uid offline ww w :
  let w' := snd (initialize_assistant pf uid offline ww w) in
  user_id (assistant w') = uid
  /\ wake_word (assistant w') = ww
  /\ prefer_offline (assistant w') = offline
  /\ offline_mode w' = offline
  /\ last_command (assistant w') = None
  /\ last_response (assistant w') = None
  /\ exists d,
       fst (initialize_assistant pf uid offline ww w) = Returns d
       /\ match lookup (lit "success") d with
          | Some (VBool true) =>
              is_active (assistant w') = true
              /\ exists c,
                   lookup (lit "config") d = Some (VDict c)
                   /\ lookup (lit "wake_word") c = Some (VStr ww)
                   /\ lookup (lit "is_active") c = Some (VBool true)
          | _ => exists msg, lookup (lit "error") d = Some (VStr msg)
          end.
Proof.
  cbv zeta. unfold initialize_assistant, catch, bind, ret, construct.
  match goal with |- context [start pf ?W] =>
    destruct (start pf W) as [o w1] eqn:S end.
  apply start_frame in S.
  cbn [assistant offline_mode init user_id wake_word prefer_offline
       last_command last_response is_active] in S.
  destruct S as (U & W & P & LC & LR & O & A).
  destruct o as [r|msg]; cbn [fst snd].
  - destruct A as (-> & A).
    destruct (get_configuration pf w1) as [o w2] eqn:G.
    apply get_configuration_reads in G. destruct G as (-> & G).
    destruct o as [c|msg]; cbn [fst snd]; repeat (split; [assumption|]);
      eexists; (split; [reflexivity|]); cbn.
    + destruct G as (G1 & _ & G3). rewrite W in G1. rewrite A in G3.
      split; [exact A|]. exists c.
      split; [reflexivity|]. split; [exact G1 | exact G3].
    + eauto.
  - repeat (split; [assumption|]).
    eexists. split; [reflexivity|]. cbn. eauto.
Qed.

(** The assistant can be started and yet reported as not initialised: here
    the model configuration has what [start] reads but not what
    [get_configuration] reads. *)
Example started_but_reported_failed :
  lookup (lit "success")
    match fst (initialize_assistant MoreSamples.pf_partial None false
                 (lit "Lala") MoreSamples.world0) with
    | Returns d => d
    | Raises _ => []
    end
  = Some (VBool false)
  /\ is_active
       (assistant
          (snd (initialize_assistant MoreSamples.pf_partial None false
                  (lit "Lala") MoreSamples.world0)))
     = true.
Proof. split; reflexivity. Qed.

End ApiProofs.

(** ** The entry point *)

Module MainProofs.
Import Py PyFacts Control Main.
Local Open Scope py_scope.

Lemma globals_eta g :
  {| world := world g; vosk_recognizer := vosk_recognizer g;
     tts_engine := tts_engine g |} = g.
Proof. destruct g; reflexivity. Qed.

(** [initialize_components] with a recogniser that is not initialised:
    the call to its [initialize] raises. *)
Lemma components_without_vosk ex model_size_mb prefer_offline g :
  Vosk.is_initialized (vosk_recognizer g) = false ->
  has_key (lit "error")
    (fst (initialize_components ex model_size_mb prefer_offline g)) = true
  /\ has_key (lit "vosk_initialized")
       (fst (initialize_components ex model_size_mb prefer_offline g))
     = false
  /\ has_key (lit "tts_initialized")
       (fst (initialize_components ex model_size_mb prefer_offline g))
     = false
  /\ has_key (lit "offline_mode")
       (fst (initialize_components ex model_size_mb prefer_offline g))
     = false
  /\ snd (initialize_components ex model_size_mb prefer_offline g) = g.
Proof.
  intros H.
  unfold initialize_components, catch, components_body, bind, lift, enter,
    on_vosk, ret.
  cbn [globals results].
  destruct (ensure_directories ex); [|cbn; auto 10].
  destruct (models_config_for ex model_size_mb); [|cbn; auto 10].
  destruct (nlp_is_initialized ex) as [ready|]; [|cbn; auto 10].
  destruct (truthy ready); cbn [negb].
  - cbn [globals results]. rewrite H. cbn [negb].
    rewrite VoskMoreProofs.initialize_raises. cbn [globals results fst snd].
    rewrite globals_eta. cbn. auto 10.
  - destruct (nlp_initialize ex); [|cbn; auto 10].
    cbn [globals results]. rewrite H. cbn [negb].
    rewrite VoskMoreProofs.initialize_raises. cbn [globals results fst snd].
    rewrite globals_eta. cbn. auto 10.
Qed.

(** X24. [initialize_components] cannot get past a recogniser that is not
    initialised yet: the call to its [initialize] raises, so the dict
    returned has an "error" and no entry for vosk, for the speech engine or
    for the offline mode, and neither the engine nor
    [ai_router.offline_mode] nor anything else has changed. *)
Theorem components_stop_at_vosk ex model_size_mb prefer_offline g :
  Vosk.is_initialized (vosk_recognizer g) = false ->
  has_key (lit "error")
    (fst (initialize_components ex model_size_mb prefer_offline g)) = true
  /\ has_key (lit "vosk_initialized")
       (fst (initialize_components ex model_size_mb prefer_offline g))
     = false
  /\ has_key (lit "tts_initialized")
       (fst (initialize_components ex model_size_mb prefer_offline g))
     = false
  /\ has_key (lit "offline_mode")
       (fst (initialize_components ex model_size_mb prefer_offline g))
     = false
  /\ snd (initialize_components ex model_size_mb prefer_offline g) = g.
Proof. apply components_without_vosk. Qed.

(** X25. [main] cannot succeed while the recogniser is not initialised: it
    returns exit code 1, without having replaced or started the
    assistant. *)
Theorem main_fails_without_vosk ex args g :
  Vosk.is_initialized (vosk_recognizer g) = false ->
  main ex args g = (1%Z, g).
Proof.
  intros H. unfold main.
  destruct (components_without_vosk ex (model_size args) (offline args) g H)
    as (E & _ & _ & _ & G).
  destruct (initialize_components ex (model_size args) (offline args) g)
    as [res g'].
  cbn [fst snd] in E, G. rewrite E, G. reflexivity.
Qed.

Lemma components_stop_at_vosk_witness :
  lookup (lit "error")
    (fst (initialize_components MoreSamples.ex_sample 350 false
            MoreSamples.globals0))
  = Some (VStr (lit "name 'sys' is not defined"))
  /\ snd (initialize_components MoreSamples.ex_sample 350 false
            MoreSamples.globals0)
     = MoreSamples.globals0.
Proof.
  split; [reflexivity|].
  apply (components_stop_at_vosk MoreSamples.ex_sample 350 false
           MoreSamples.globals0).
  reflexivity.
Defined.

Lemma main_fails_without_vosk_witness :
  main MoreSamples.ex_sample
    {| offline := false; model_size := 350; debug := false;
       arg_user_id := None; arg_wake_word := lit "Lala" |}
    MoreSamples.globals0
  = (1%Z, MoreSamples.globals0).
Proof.
  apply (main_fails_without_vosk MoreSamples.ex_sample
           {| offline := false; model_size := 350; debug := false;
              arg_user_id := None; arg_wake_word := lit "Lala" |}
           MoreSamples.globals0).
  reflexivity.
Defined.

(** With a recogniser that is initialised, the same externals let [main]
    return 0. *)
Example main_succeeds_with_vosk :
  fst (main MoreSamples.ex_sample
         {| offline := false; model_size := 350; debug := false;
            arg_user_id := None; arg_wake_word := lit "Lala" |}
         {| world := MoreSamples.world0;
            vosk_recognizer := Samples.vosk;
            tts_engine := Tts.new (lit "m") |})
  = 0%Z.
Proof. reflexivity. Qed.

End MainProofs.
